(** * A shallow embedding of the dataset fetch engine ([datasets.py])

    The development follows the layout of the program: Python string
    methods, the MD5 digest used by [calculate_md5], the world the program
    runs in (local files, cache files, clock, terminal, bucket, external
    downloader), and then the functions of [datasets.py] one by one, in a
    state-and-exception monad.  The theorems come last.

    Characters are code points below 256 (the range of [ascii]); Python
    integers are [Z]; Python floats are binary64 numbers ([float]), so
    wall-clock readings are subtracted and compared as the program does
    it. *)

From Stdlib Require Import ZArith QArith Floats Lia List Ascii String Permutation.
From Stdlib.Strings Require Import Byte.
From stdpp Require Import base option list gmap strings sorting.

Local Open Scope Z_scope.

(* ===================================================================== *)
(** * Python string methods *)
(* ===================================================================== *)

Module Py.

(** [s.startswith(p)] *)
Definition startswith (s p : string) : bool := String.prefix p s.

(** [s.endswith(p)] *)
Definition endswith (s p : string) : bool :=
  String.prefix (String.rev p) (String.rev s).

(** [s.split(c)] for a one-character separator: never an empty list. *)
Fixpoint split (c : ascii) (s : string) : list string :=
  match s with
  | EmptyString => [EmptyString]
  | String a s' =>
      if Ascii.eqb a c then EmptyString :: split c s'
      else match split c s' with
           | w :: ws => String a w :: ws
           | [] => [String a EmptyString]
           end
  end.

(** [sep.join(l)] *)
Definition join (sep : string) (l : list string) : string :=
  String.concat sep l.

(** [l[:-1]] *)
Definition but_last {A} (l : list A) : list A := removelast l.

(** [l[-1]] on the result of [split], which is never empty. *)
Definition last_seg (l : list string) : string := List.last l EmptyString.

(** [c.isspace()] for code points below 256. *)
Definition isspace (c : ascii) : bool :=
  let n := nat_of_ascii c in
  ((9 <=? n) && (n <=? 13) || (28 <=? n) && (n <=? 32)
   || (n =? 133) || (n =? 160))%nat.

Fixpoint lstrip_by (p : ascii -> bool) (s : string) : string :=
  match s with
  | EmptyString => EmptyString
  | String a s' => if p a then lstrip_by p s' else s
  end.

Definition strip_by (p : ascii -> bool) (s : string) : string :=
  String.rev (lstrip_by p (String.rev (lstrip_by p s))).

(** [s.strip()] *)
Definition strip (s : string) : string := strip_by isspace s.

(** [s.strip(chars)] *)
Definition strip_chars (chars s : string) : string :=
  strip_by (fun a => existsb (Ascii.eqb a) (list_ascii_of_string chars)) s.

(** [c.lower()] for code points below 256. *)
Definition lower_char (c : ascii) : ascii :=
  let n := nat_of_ascii c in
  if ((65 <=? n) && (n <=? 90)
      || (192 <=? n) && (n <=? 222) && negb (n =? 215))%nat
  then ascii_of_nat (n + 32) else c.

Fixpoint map_chars (f : ascii -> ascii) (s : string) : string :=
  match s with
  | EmptyString => EmptyString
  | String a s' => String (f a) (map_chars f s')
  end.

(** [s.lower()] *)
Definition lower (s : string) : string := map_chars lower_char s.

(** [s.replace(a, b)] for one-character [a] and [b]. *)
Definition replace (a b : ascii) (s : string) : string :=
  map_chars (fun c => if Ascii.eqb c a then b else c) s.

(** [c in chars] for a character [c]. *)
Definition char_in (c : ascii) (chars : string) : bool :=
  existsb (Ascii.eqb c) (list_ascii_of_string chars).

(** [all(p(c) for c in s)] *)
Definition all_chars (p : ascii -> bool) (s : string) : bool :=
  forallb p (list_ascii_of_string s).

(** [s[n:]] *)
Fixpoint slice_from (n : nat) (s : string) : string :=
  match n, s with
  | O, _ => s
  | S n', String _ s' => slice_from n' s'
  | S _, EmptyString => EmptyString
  end.

(** [len(s)] *)
Definition len (s : string) : Z := Z.of_nat (String.length s).

(** Truthiness of a string, a list and an integer. *)
Definition truthy_str (s : string) : bool :=
  match s with EmptyString => false | _ => true end.
Definition truthy_list {A} (l : list A) : bool :=
  match l with [] => false | _ => true end.

End Py.

(* ===================================================================== *)
(** * MD5 ([hashlib.md5]), RFC 1321, on 32-bit words held in [Z] *)
(* ===================================================================== *)

Module MD5.

Definition w32 (x : Z) : Z := x mod 2 ^ 32.
Definition add32 (a b : Z) : Z := w32 (a + b).
Definition not32 (a : Z) : Z := Z.lxor a (2 ^ 32 - 1).
Definition rotl32 (x c : Z) : Z :=
  w32 (Z.lor (Z.shiftl x c) (Z.shiftr x (32 - c))).

Definition shifts : list Z :=
  [7; 12; 17; 22; 7; 12; 17; 22; 7; 12; 17; 22; 7; 12; 17; 22;
   5; 9; 14; 20; 5; 9; 14; 20; 5; 9; 14; 20; 5; 9; 14; 20;
   4; 11; 16; 23; 4; 11; 16; 23; 4; 11; 16; 23; 4; 11; 16; 23;
   6; 10; 15; 21; 6; 10; 15; 21; 6; 10; 15; 21; 6; 10; 15; 21].

Definition sines : list Z :=
  [0xd76aa478; 0xe8c7b756; 0x242070db; 0xc1bdceee;
   0xf57c0faf; 0x4787c62a; 0xa8304613; 0xfd469501;
   0x698098d8; 0x8b44f7af; 0xffff5bb1; 0x895cd7be;
   0x6b901122; 0xfd987193; 0xa679438e; 0x49b40821;
   0xf61e2562; 0xc040b340; 0x265e5a51; 0xe9b6c7aa;
   0xd62f105d; 0x02441453; 0xd8a1e681; 0xe7d3fbc8;
   0x21e1cde6; 0xc33707d6; 0xf4d50d87; 0x455a14ed;
   0xa9e3e905; 0xfcefa3f8; 0x676f02d9; 0x8d2a4c8a;
   0xfffa3942; 0x8771f681; 0x6d9d6122; 0xfde5380c;
   0xa4beea44; 0x4bdecfa9; 0xf6bb4b60; 0xbebfbc70;
   0x289b7ec6; 0xeaa127fa; 0xd4ef3085; 0x04881d05;
   0xd9d4d039; 0xe6db99e5; 0x1fa27cf8; 0xc4ac5665;
   0xf4292244; 0x432aff97; 0xab9423a7; 0xfc93a039;
   0x655b59c3; 0x8f0ccc92; 0xffeff47d; 0x85845dd1;
   0x6fa87e4f; 0xfe2ce6e0; 0xa3014314; 0x4e0811a1;
   0xf7537e82; 0xbd3af235; 0x2ad7d2bb; 0xeb86d391].

Record state := State { sa : Z; sb : Z; sc : Z; sd : Z }.

Definition init : state :=
  State 0x67452301 0xefcdab89 0x98badcfe 0x10325476.

(** Little-endian bytes of a word and back. *)
Definition le_bytes (n : nat) (x : Z) : list Z :=
  map (fun i => Z.land (Z.shiftr x (8 * Z.of_nat i)) 255) (seq 0 n).

Fixpoint le_word (bs : list Z) : Z :=
  match bs with
  | [] => 0
  | b :: bs' => b + 256 * le_word bs'
  end.

(** Message padding: 0x80, zeros up to 56 mod 64, bit length on 8 bytes. *)
Definition pad (msg : list Z) : list Z :=
  let n := Z.of_nat (length msg) in
  let zeros := Z.to_nat ((55 - n) mod 64) in
  msg ++ [128] ++ repeat 0 zeros ++ le_bytes 8 ((8 * n) mod 2 ^ 64).

Fixpoint words16 (n : nat) (block : list Z) : list Z :=
  match n with
  | O => []
  | S n' => le_word (firstn 4 block) :: words16 n' (skipn 4 block)
  end.

(** One of the 64 operations on a block whose words are [m]. *)
Definition step (m : list Z) (st : state) (i : nat) : state :=
  let '(State a b c d) := st in
  let iz := Z.of_nat i in
  let '(f, g) :=
    if (i <? 16)%nat then
      (Z.lor (Z.land b c) (Z.land (not32 b) d), iz)
    else if (i <? 32)%nat then
      (Z.lor (Z.land d b) (Z.land (not32 d) c), (5 * iz + 1) mod 16)
    else if (i <? 48)%nat then
      (Z.lxor (Z.lxor b c) d, (3 * iz + 5) mod 16)
    else
      (Z.lxor c (Z.lor b (not32 d)), (7 * iz) mod 16) in
  let f' := add32 (add32 (add32 f a) (nth i sines 0))
                  (nth (Z.to_nat g) m 0) in
  State d (add32 b (rotl32 f' (nth i shifts 0))) b c.

Definition block_step (st : state) (block : list Z) : state :=
  let m := words16 16 block in
  let '(State a b c d) := fold_left (step m) (seq 0 64) st in
  State (add32 (sa st) a) (add32 (sb st) b)
        (add32 (sc st) c) (add32 (sd st) d).

Fixpoint blocks (n : nat) (st : state) (bytes : list Z) : state :=
  match n with
  | O => st
  | S n' => blocks n' (block_step st (firstn 64 bytes)) (skipn 64 bytes)
  end.

Definition digest (msg : list Z) : list Z :=
  let p := pad msg in
  let st := blocks (length p / 64) init p in
  le_bytes 4 (sa st) ++ le_bytes 4 (sb st)
    ++ le_bytes 4 (sc st) ++ le_bytes 4 (sd st).

Definition hex_digit (x : Z) : ascii :=
  nth (Z.to_nat x) (list_ascii_of_string "0123456789abcdef") "0"%char.

Fixpoint hex (bs : list Z) : string :=
  match bs with
  | [] => EmptyString
  | b :: bs' => String (hex_digit (b / 16)) (String (hex_digit (b mod 16)) (hex bs'))
  end.

(** [hashlib.md5(data).hexdigest()] *)
Definition hexdigest (data : list byte) : string :=
  hex (digest (map (fun b => Z.of_N (Byte.to_N b)) data)).

End MD5.

Definition bytes_of_string (s : string) : list byte := list_byte_of_string s.

(* ===================================================================== *)
(** * The world of the program *)
(* ===================================================================== *)

(** Python exceptions the program can meet.  All of them derive from
    [Exception], so [except Exception] and a bare [except] catch them all. *)
Inductive exn :=
  | HTTPError (status : Z)
  | ConnectionError
  | FileNotFoundError
  | FileExistsError
  | NotADirectoryError
  | IsADirectoryError
  | OSError
  | KeyError (k : string)
  | ValueError
  | EOFError.

Inductive outcome (A : Type) :=
  | Ret (a : A)
  | Raise (e : exn).
Arguments Ret {A} a.
Arguments Raise {A} e.

(** ** Paths ([pathlib.Path]): lists of segments, ["/"] first when absolute *)

Definition path := list string.

Definition segments (s : string) : list string :=
  filter (fun x => x ≠ "" ∧ x ≠ ".") (Py.split "/" s).

(** [Path(s)] *)
Definition Path (s : string) : path :=
  (if Py.startswith s "/" then ["/"] else []) ++ segments s.

(** [p / s] *)
Definition path_div (p : path) (s : string) : path :=
  if Py.startswith s "/" then Path s else p ++ segments s.

(** [p.name], [p.parent], [str(p)] *)
Definition path_name (p : path) : string :=
  match p with
  | ["/"] => ""
  | _ => List.last p ""
  end.

Definition path_parent (p : path) : path :=
  match p with
  | ["/"] => p
  | _ => removelast p
  end.

Definition path_str (p : path) : string :=
  match p with
  | [] => "."
  | "/" :: rest => "/" +:+ Py.join "/" rest
  | _ => Py.join "/" p
  end.

(** ** Listing documents and cached payloads *)

(** One [<Contents>] element of a listing; a field is [None] when its
    child element is absent.  [Size] is held already parsed. *)
Record s3_object := S3Object {
  o_key : option string;
  o_size : option Z;
  o_etag : option string
}.

(** The text [humanize.naturalsize(n)], kept as the number it renders. *)
Inductive human := NaturalSize (n : Z).

(** A Python dict over the keys the program uses; a field is [None] when
    the key is not in the dict. *)
Record entry := Entry {
  e_name : option string;
  e_key : option string;
  e_size : option Z;
  e_md5 : option string;
  e_size_human : option human;
  e_file_count : option Z
}.

(** [{"name": n, "key": k, "size": s, "md5": m}] *)
Definition file_record (n k : string) (s : Z) (m : string) : entry :=
  Entry (Some n) (Some k) (Some s) (Some m) None None.

(** [{"name": n, "size": s, "size_human": naturalsize(s), "file_count": c}] *)
Definition dataset_summary (n : string) (s c : Z) : entry :=
  Entry (Some n) None (Some s) None (Some (NaturalSize s)) (Some c).

(** What a cache file holds: [Garbage] is anything on which [json.load] or
    the lines after it raise; otherwise a JSON object with an optional
    numeric ["timestamp"] and an optional list of dicts under ["datasets"].
    The timestamp is held as the binary64 number that the subtraction of
    [load_cache] works on: a JSON float is read back bit for bit, a JSON
    integer is converted by the subtraction (one too large for a float
    makes it raise, which is [Garbage]). *)
Inductive blob :=
  | Garbage
  | Doc (timestamp : option float) (datasets : option (list entry)).

(** ** The local tree, the bucket, the terminal *)

Inductive node :=
  | File (data : list byte)
  | Dir (st_size : Z).

(** Reply of the bucket to a streamed GET of one object. *)
Inductive get_reply :=
  | GetFail (e : exn)
  | GetStream (content_length : option Z) (chunks : list (list byte))
              (fault : option exn).

Inductive event :=
  | EvList (prefix : string)
  | EvInput
  | EvHttpGet (url : string)
  | EvAria2 (cmd : list string).

(** The local tree under the working directory ([fs]) and the [.cache]
    tree are kept apart; the latter is its regular files ([cache]) and its
    directories ([cache_dirs]).  When [cache_readonly] is set, no
    directory can be created in the cache tree and no file written.  Apart
    from that the file system fails only for reasons visible in the trees.
    The clock is an arbitrary sequence of binary64 readings, one consumed
    per [time.time()].  Pool workers run one after the other, ordered by
    [pool_rank]. *)
Record World := mkWorld {
  fs : gmap path node;
  cache : gmap path blob;
  cache_dirs : list path;
  cache_readonly : bool;
  clock : nat -> float;
  tick : nat;
  stdin : list string;
  aria2_installed : bool;
  aria2c : list string -> gmap path node -> outcome Z * gmap path node;
  s3_list : string -> outcome (list s3_object);
  s3_get : string -> get_reply;
  pool_rank : nat -> nat;
  log : list event
}.

Definition set_fs (f : gmap path node) (w : World) : World :=
  mkWorld f (cache w) (cache_dirs w) (cache_readonly w) (clock w) (tick w)
    (stdin w) (aria2_installed w) (aria2c w) (s3_list w) (s3_get w)
    (pool_rank w) (log w).
Definition set_cache (c : gmap path blob) (w : World) : World :=
  mkWorld (fs w) c (cache_dirs w) (cache_readonly w) (clock w) (tick w)
    (stdin w) (aria2_installed w) (aria2c w) (s3_list w) (s3_get w)
    (pool_rank w) (log w).
Definition set_cache_dirs (d : list path) (w : World) : World :=
  mkWorld (fs w) (cache w) d (cache_readonly w) (clock w) (tick w)
    (stdin w) (aria2_installed w) (aria2c w) (s3_list w) (s3_get w)
    (pool_rank w) (log w).
Definition set_tick (n : nat) (w : World) : World :=
  mkWorld (fs w) (cache w) (cache_dirs w) (cache_readonly w) (clock w) n
    (stdin w) (aria2_installed w) (aria2c w) (s3_list w) (s3_get w)
    (pool_rank w) (log w).
Definition set_stdin (l : list string) (w : World) : World :=
  mkWorld (fs w) (cache w) (cache_dirs w) (cache_readonly w) (clock w) (tick w)
    l (aria2_installed w) (aria2c w) (s3_list w) (s3_get w)
    (pool_rank w) (log w).
Definition set_log (l : list event) (w : World) : World :=
  mkWorld (fs w) (cache w) (cache_dirs w) (cache_readonly w) (clock w) (tick w)
    (stdin w) (aria2_installed w) (aria2c w) (s3_list w) (s3_get w)
    (pool_rank w) l.

(** ** The monad: state passing with exceptions *)

Definition M (A : Type) : Type := World -> outcome A * World.

Definition ret {A} (a : A) : M A := fun w => (Ret a, w).
Definition raise {A} (e : exn) : M A := fun w => (Raise e, w).
Definition bind {A B} (m : M A) (k : A -> M B) : M B :=
  fun w => match m w with
           | (Ret a, w') => k a w'
           | (Raise e, w') => (Raise e, w')
           end.
(** [try: m  except Exception as e: h(e)] *)
Definition try_except {A} (m : M A) (h : exn -> M A) : M A :=
  fun w => match m w with
           | (Ret a, w') => (Ret a, w')
           | (Raise e, w') => h e w'
           end.

Declare Scope py_scope.
Delimit Scope py_scope with py.
Notation "x <- m ;; k" := (bind m (fun x => k))
  (at level 100, m at level 99, right associativity) : py_scope.
Notation "m ;;; k" := (bind m (fun _ => k))
  (at level 100, right associativity) : py_scope.
Local Open Scope py_scope.

(** [d[k]] on a dict: the value, or [KeyError]. *)
Definition getitem {A} (k : string) (v : option A) : M A :=
  match v with
  | Some a => ret a
  | None => raise (KeyError k)
  end.

(** [for x in l: body(x)] *)
Fixpoint for_each {A} (l : list A) (body : A -> M unit) : M unit :=
  match l with
  | [] => ret tt
  | x :: l' => body x ;;; for_each l' body
  end.

(** A loop that threads an accumulator. *)
Fixpoint for_fold {A S} (l : list A) (acc : S) (body : S -> A -> M S) : M S :=
  match l with
  | [] => ret acc
  | x :: l' => acc' <- body acc x ;; for_fold l' acc' body
  end.

(** ** File-system primitives *)

(** [p.exists()] *)
Definition path_exists (p : path) : M bool :=
  fun w => (Ret (bool_decide (p = [] ∨ is_Some (fs w !! p))), w).

(** [p.stat().st_size] *)
Definition stat_size (p : path) : M Z :=
  fun w => match fs w !! p with
           | Some (File data) => (Ret (Z.of_nat (length data)), w)
           | Some (Dir sz) => (Ret sz, w)
           | None => (Raise FileNotFoundError, w)
           end.

Definition is_dir (f : gmap path node) (p : path) : bool :=
  match p, f !! p with
  | [], _ => true
  | _, Some (Dir _) => true
  | _, _ => false
  end.

(** [open(p, "wb")]: the file is created or truncated. *)
Definition open_wb (p : path) : M unit :=
  fun w => match fs w !! p with
           | Some (Dir _) => (Raise IsADirectoryError, w)
           | _ => if is_dir (fs w) (path_parent p)
                  then (Ret tt, set_fs (<[p := File []]> (fs w)) w)
                  else (Raise FileNotFoundError, w)
           end.

(** [f.write(chunk)] on the file opened at [p]. *)
Definition write_chunk (p : path) (chunk : list byte) : M unit :=
  fun w => match fs w !! p with
           | Some (File data) =>
               (Ret tt, set_fs (<[p := File (data ++ chunk)]> (fs w)) w)
           | _ => (Raise OSError, w)
           end.

(** [p.unlink()] *)
Definition unlink (p : path) : M unit :=
  fun w => match fs w !! p with
           | Some (File _) => (Ret tt, set_fs (delete p (fs w)) w)
           | Some (Dir _) => (Raise IsADirectoryError, w)
           | None => (Raise FileNotFoundError, w)
           end.

(** [p.mkdir(parents=True, exist_ok=True)]: every prefix of [p] becomes a
    directory unless a regular file is in the way. *)
Fixpoint mkdir_from (done todo : path) (f : gmap path node)
  : outcome (gmap path node) :=
  match todo with
  | [] => Ret f
  | s :: todo' =>
      let q := done ++ [s] in
      match f !! q with
      | Some (File _) =>
          Raise (match todo' with [] => FileExistsError | _ => NotADirectoryError end)
      | Some (Dir _) => mkdir_from q todo' f
      | None => mkdir_from q todo' (<[q := Dir 4096]> f)
      end
  end.

Definition mkdir_p (p : path) : M unit :=
  fun w => match mkdir_from [] p (fs w) with
           | Ret f => (Ret tt, set_fs f w)
           | Raise e => (Raise e, w)
           end.

(** [time.time()] *)
Definition time_time : M float :=
  fun w => (Ret (clock w (tick w)), set_tick (S (tick w)) w).

(** [input()]: the next line of the terminal, or [EOFError]. *)
Definition input : M string :=
  fun w => match stdin w with
           | [] => (Raise EOFError, set_log (log w ++ [EvInput]) w)
           | l :: rest => (Ret l, set_log (log w ++ [EvInput]) (set_stdin rest w))
           end.

(** [rich.prompt.Confirm.ask]: the answer is stripped and lowercased;
    ["y"] is yes, ["n"] is no, anything else asks again. *)
Fixpoint confirm_loop (lines : list string) (asked : nat) : outcome bool * list string * nat :=
  match lines with
  | [] => (Raise EOFError, [], S asked)
  | l :: rest =>
      let v := Py.lower (Py.strip l) in
      if String.eqb v "y" then (Ret true, rest, S asked)
      else if String.eqb v "n" then (Ret false, rest, S asked)
      else confirm_loop rest (S asked)
  end.

Definition Confirm_ask : M bool :=
  fun w => let '(r, rest, asked) := confirm_loop (stdin w) 0 in
           (r, set_log (log w ++ repeat EvInput asked) (set_stdin rest w)).

(* ===================================================================== *)
(** * [datasets.py] *)
(* ===================================================================== *)

Definition BASE_URL_RAW : string := "https://openproblems-data.s3.amazonaws.com/".

Definition TASK_TO_S3_PATH : list (string * string) :=
  [("cell_cell_communication_source_target", "cell_cell_communication");
   ("cell_cell_communication_ligand_target", "cell_cell_communication")].

(** [TASK_TO_S3_PATH.get(task, task)] *)
Definition get_s3_task_path (task : string) : string :=
  match find (fun kv => String.eqb (fst kv) task) TASK_TO_S3_PATH with
  | Some kv => snd kv
  | None => task
  end.

(** ** Listing cache *)

(** A directory of the cache tree; the working directory always is one. *)
Definition cache_is_dir (w : World) (p : path) : bool :=
  match p with
  | [] => true
  | _ => bool_decide (p ∈ cache_dirs w)
  end.

(** [p.mkdir(parents=True, exist_ok=True)] on the cache tree: every prefix
    of [p] becomes a directory, unless a cache file is in the way or a
    missing directory cannot be created. *)
Fixpoint cache_mkdir_from (done todo : path) (files : gmap path blob)
    (readonly : bool) (dirs : list path) : outcome (list path) :=
  match todo with
  | [] => Ret dirs
  | s :: todo' =>
      let q := done ++ [s] in
      match files !! q with
      | Some _ =>
          Raise (match todo' with [] => FileExistsError | _ => NotADirectoryError end)
      | None =>
          if bool_decide (q ∈ dirs) then cache_mkdir_from q todo' files readonly dirs
          else if readonly then Raise OSError
          else cache_mkdir_from q todo' files readonly (q :: dirs)
      end
  end.

Definition cache_mkdir_p (p : path) : M unit :=
  fun w => match cache_mkdir_from [] p (cache w) (cache_readonly w)
                   (cache_dirs w) with
           | Ret d => (Ret tt, set_cache_dirs d w)
           | Raise e => (Raise e, w)
           end.

(** [get_cache_path(task, dataset_name)]: the cache directory is created
    first, outside any [try], then the cache file is named. *)
Definition get_cache_path (task : string) (dataset_name : option string)
  : M path :=
  let cache_dir := path_div (Path ".cache") task in
  cache_mkdir_p cache_dir ;;;
  match dataset_name with
  | Some (String _ _ as dn) =>
      let safe_name := Py.replace "/" "_" dn in
      ret (path_div cache_dir (safe_name +:+ ".json"))
  | _ => ret (path_div cache_dir "datasets.json")
  end.

(** [json.load(f)] and the [data.get] calls after it. *)
Definition json_load (b : blob) : M (option float * option (list entry)) :=
  match b with
  | Garbage => raise ValueError
  | Doc ts ds => ret (ts, ds)
  end.

Definition load_cache (cache_path : path) : M (option (list entry)) :=
  fun w =>
    match cache w !! cache_path with
    | Some b =>
        try_except
          (data <- json_load b ;;
           now <- time_time ;;
           if PrimFloat.ltb (PrimFloat.sub now (default 0%float (fst data)))
                3600%float
           then ret (snd data)
           else ret None)
          (fun _ => ret None) w
    | None => (Ret None, w)
    end.

(** [open(cache_path, "w")] and [json.dump(cache_data, f)]: the file is
    replaced as a whole, unless it cannot be opened for writing. *)
Definition json_dump (cache_path : path) (b : blob) : M unit :=
  fun w =>
    if cache_is_dir w cache_path then (Raise IsADirectoryError, w)
    else if negb (cache_is_dir w (path_parent cache_path))
    then (Raise FileNotFoundError, w)
    else if cache_readonly w then (Raise OSError, w)
    else (Ret tt, set_cache (<[cache_path := b]> (cache w)) w).

Definition save_cache (cache_path : path) (datasets : list entry) : M unit :=
  try_except
    (now <- time_time ;;
     json_dump cache_path (Doc (Some now) (Some datasets)))
    (fun _ => ret tt).

(** ** Listing client *)

(** [requests.get(BASE_URL_RAW, params)], [raise_for_status()] and the
    parse of the body into its [<Contents>] elements. *)
Definition request_listing (prefix : string) : M (list s3_object) :=
  fun w => (s3_list w prefix, set_log (log w ++ [EvList prefix]) w).

(** [int(size_elem.text) if size_elem is not None else 0] *)
Definition size_of (o : s3_object) : Z := default 0 (o_size o).

(** Dataset path of a key: everything between the prefix and the file
    name, [None] when the key is skipped. *)
Definition dataset_path_of (prefix key : string) : option string :=
  if negb (Py.endswith key "/") then
    if Py.startswith key prefix then
      let relative_path := Py.slice_from (String.length prefix) key in
      let dataset_path := Py.join "/" (Py.but_last (Py.split "/" relative_path)) in
      if Py.truthy_str dataset_path then Some dataset_path else None
    else None
  else None.

(** One turn of the aggregation loop over [dataset_info], a dict from
    dataset path to (size, file_count). *)
Definition aggregate_step (prefix : string) (dataset_info : gmap string (Z * Z))
    (content : s3_object) : gmap string (Z * Z) :=
  match o_key content with
  | Some key =>
      match dataset_path_of prefix key with
      | Some dataset_path =>
          let size := size_of content in
          match dataset_info !! dataset_path with
          | Some (sz, fc) => <[dataset_path := (sz + size, fc + 1)]> dataset_info
          | None => <[dataset_path := (size, 1)]> dataset_info
          end
      | None => dataset_info
      end
  | None => dataset_info
  end.

Definition aggregate (prefix : string) (contents : list s3_object)
  : gmap string (Z * Z) :=
  fold_left (aggregate_step prefix) contents ∅.

(** [sorted(dataset_info.keys())] *)
Definition sorted_keys (dataset_info : gmap string (Z * Z)) : list string :=
  merge_sort String.le (map fst (map_to_list dataset_info)).

(** The result list of the task-level branch. *)
Definition summaries_of (dataset_info : gmap string (Z * Z)) : list entry :=
  omap (fun dataset_path =>
          match dataset_info !! dataset_path with
          | Some (sz, fc) => Some (dataset_summary dataset_path sz fc)
          | None => None
          end)
       (sorted_keys dataset_info).

(** The dataset-level branch: one file record per matching key. *)
Definition file_of (dataset_prefix : string) (content : s3_object) : option entry :=
  match o_key content with
  | Some key =>
      if Py.startswith key dataset_prefix && negb (Py.endswith key "/") then
        let size := size_of content in
        let etag := match o_etag content with
                    | Some t => Py.strip_chars (String "034"%char EmptyString) t
                    | None => ""
                    end in
        let filename := Py.last_seg (Py.split "/" key) in
        Some (file_record filename key size etag)
      else None
  | None => None
  end.

Definition files_of (dataset_prefix : string) (contents : list s3_object)
  : list entry :=
  omap (file_of dataset_prefix) contents.

Definition task_prefix (s3_task : string) : string :=
  "resources/" +:+ s3_task +:+ "/datasets/".

Definition list_datasets (task : string) (dataset_name : option string)
  : M (list entry) :=
  let s3_task := get_s3_task_path task in
  match dataset_name with
  | None =>
      cache_path <- get_cache_path task None ;;
      cached <- load_cache cache_path ;;
      match cached with
      | Some ((_ :: _) as l) => ret l
      | _ =>
          contents <- request_listing (task_prefix s3_task) ;;
          let result := summaries_of (aggregate (task_prefix s3_task) contents) in
          save_cache cache_path result ;;;
          ret result
      end
  | Some dn =>
      contents <- request_listing (task_prefix s3_task) ;;
      let dataset_prefix := task_prefix s3_task +:+ dn +:+ "/" in
      ret (files_of dataset_prefix contents)
  end.

(** ** Transfer backends *)

(** [calculate_md5(filepath)] *)
Definition calculate_md5 (filepath : path) : M string :=
  fun w => match fs w !! filepath with
           | Some (File data) => (Ret (MD5.hexdigest data), w)
           | Some (Dir _) => (Raise IsADirectoryError, w)
           | None => (Raise FileNotFoundError, w)
           end.

(** [shutil.which("aria2c") is not None] *)
Definition check_aria2 : M bool := fun w => (Ret (aria2_installed w), w).

Definition is_valid_md5 (expected_md5 : string) : bool :=
  Py.truthy_str expected_md5
  && (Py.len expected_md5 =? 32)
  && Py.all_chars (fun c => Py.char_in c "0123456789abcdef") (Py.lower expected_md5).

(** The fixed head of the command line. *)
Definition aria2_options : list string :=
  ["aria2c"; "--continue=true"; "--max-connection-per-server=8"; "--split=8";
   "--file-allocation=none"; "--auto-file-renaming=false";
   "--allow-overwrite=true"; "--show-console-readout=true";
   "--console-log-level=notice"; "--human-readable=true";
   "--download-result=hide"].

(** Its tail: where to put the file and what to fetch. *)
Definition aria2_target (download_url : string) (local_path : path) : list string :=
  ["--dir=" +:+ path_str (path_parent local_path);
   "--out=" +:+ path_name local_path;
   download_url].

Definition aria2_cmd (download_url : string) (local_path : path)
    (expected_md5 : string) : list string :=
  aria2_options
  ++ (if is_valid_md5 expected_md5
      then ["--checksum=md5=" +:+ expected_md5] else [])
  ++ aria2_target download_url local_path.

(** [subprocess.run(cmd)]: the exit code, and whatever the tool did to
    the local tree. *)
Definition subprocess_run (cmd : list string) : M Z :=
  fun w => let '(r, f) := aria2c w cmd (fs w) in
           (r, set_log (log w ++ [EvAria2 cmd]) (set_fs f w)).

Definition fetch_file_aria2 (download_url : string) (local_path : path)
    (expected_md5 : string) (expected_size : Z) : M bool :=
  ok <- check_aria2 ;;
  if negb ok then ret false
  else
    let cmd := aria2_cmd download_url local_path expected_md5 in
    try_except
      (returncode <- subprocess_run cmd ;;
       if returncode =? 0 then
         actual_size <- stat_size local_path ;;
         if negb (actual_size =? expected_size) then ret false
         else ret true
       else ret false)
      (fun _ => ret false).

(** [requests.get(url, stream=True)] and [raise_for_status()]. *)
Definition requests_get_stream (url : string)
  : M (option Z * list (list byte) * option exn) :=
  fun w =>
    let w' := set_log (log w ++ [EvHttpGet url]) w in
    match s3_get w url with
    | GetFail e => (Raise e, w')
    | GetStream cl chunks fault => (Ret (cl, chunks, fault), w')
    end.

(** The body of the write loop: [if chunk: f.write(chunk)]. *)
Definition write_body (p : path) (chunk : list byte) : M unit :=
  match chunk with
  | [] => ret tt
  | _ => write_chunk p chunk
  end.

Definition fetch_file_fallback (download_url : string) (local_path : path)
    (expected_md5 : string) (expected_size : Z) : M bool :=
  try_except
    (response <- requests_get_stream download_url ;;
     let '(_, chunks, fault) := response in
     open_wb local_path ;;;
     for_each chunks (write_body local_path) ;;;
     match fault with Some e => raise e | None => ret tt end ;;;
     actual_size <- stat_size local_path ;;
     if negb (actual_size =? expected_size) then ret false
     else
       actual_md5 <- calculate_md5 local_path ;;
       if negb (String.eqb actual_md5 expected_md5) then ret false
       else ret true)
    (fun _ =>
       ex <- path_exists local_path ;;
       (if ex then unlink local_path else ret tt) ;;;
       ret false).

(** ** Download coordinator and fetch orchestrator *)

(** [sum(d[k] for d in l)] *)
Definition sum_field (k : string) (proj : entry -> option Z) (l : list entry)
  : M Z :=
  for_fold l 0 (fun acc d => v <- getitem k (proj d) ;; ret (acc + v)).

(** Backend selection shared by the single-file path and the worker. *)
Definition fetch_file (download_url : string) (local_path : path)
    (expected_md5 : string) (expected_size : Z) : M bool :=
  ok <- check_aria2 ;;
  if ok then fetch_file_aria2 download_url local_path expected_md5 expected_size
  else fetch_file_fallback download_url local_path expected_md5 expected_size.

(** The search loop of [fetch_single_file]: first record with that name. *)
Fixpoint find_file (files : list entry) (filename : string) : M (option entry) :=
  match files with
  | [] => ret None
  | file_info :: rest =>
      name <- getitem "name" (e_name file_info) ;;
      if String.eqb name filename then ret (Some file_info)
      else find_file rest filename
  end.

Definition fetch_single_file (task dataset_name filename : string) : M bool :=
  files <- list_datasets task (Some dataset_name) ;;
  target_file <- find_file files filename ;;
  match target_file with
  | None => ret false
  | Some target =>
      let dataset_dir := path_div (Path "datasets") dataset_name in
      mkdir_p dataset_dir ;;;
      let local_path := path_div dataset_dir filename in
      key <- getitem "key" (e_key target) ;;
      let download_url := BASE_URL_RAW +:+ key in
      md5 <- getitem "md5" (e_md5 target) ;;
      size <- getitem "size" (e_size target) ;;
      fetch_file download_url local_path md5 size
  end.

Definition download_single_file_worker (file_info : entry) (dataset_dir : path)
  : M (entry * bool * path) :=
  name <- getitem "name" (e_name file_info) ;;
  let local_path := path_div dataset_dir name in
  key <- getitem "key" (e_key file_info) ;;
  let download_url := BASE_URL_RAW +:+ key in
  ex <- path_exists local_path ;;
  skip <- (if ex then
             actual <- stat_size local_path ;;
             size <- getitem "size" (e_size file_info) ;;
             ret (actual =? size)
           else ret false) ;;
  if skip then ret (file_info, true, local_path)
  else
    md5 <- getitem "md5" (e_md5 file_info) ;;
    size <- getitem "size" (e_size file_info) ;;
    success <- fetch_file download_url local_path md5 size ;;
    ret (file_info, success, local_path).

(** A submitted job keeps its exception until [future.result()]. *)
Definition attempt {A} (m : M A) : M (outcome A) :=
  fun w => let '(r, w') := m w in (Ret r, w').

Definition rank_le (rank : nat -> nat) (a b : nat * entry) : Prop :=
  (rank (fst a) <= rank (fst b))%nat.

Global Instance rank_le_dec rank a b : Decision (rank_le rank a b) :=
  decide (rank (fst a) <= rank (fst b))%nat.

(** The order in which the pool runs (and completes) the jobs. *)
Definition pool_order (jobs : list (nat * entry)) : M (list (nat * entry)) :=
  fun w => (Ret (merge_sort (rank_le (pool_rank w)) jobs), w).

(** [enumerate(files, 1)] *)
Definition enumerate1 (files : list entry) : list (nat * entry) :=
  zip (seq 1 (length files)) files.

(** The existing/missing scan of [fetch_entire_dataset]. *)
Definition scan_missing (dataset_dir : path) (files : list entry) : M Z :=
  for_fold files 0
    (fun missing_size file_info =>
       name <- getitem "name" (e_name file_info) ;;
       let local_path := path_div dataset_dir name in
       ex <- path_exists local_path ;;
       if negb ex then
         size <- getitem "size" (e_size file_info) ;;
         ret (missing_size + size)
       else ret missing_size).

(** The tally loop of the pool. *)
Definition tally (success_count : Z) (r : outcome (entry * bool * path)) : M Z :=
  match r with
  | Ret (_, success, _) =>
      ret (if success : bool then success_count + 1 else success_count)
  | Raise e => raise e
  end.

(** The job loop of the pool. *)
Definition run_job (dataset_dir : path)
    (acc : list (outcome (entry * bool * path))) (job : nat * entry)
  : M (list (outcome (entry * bool * path))) :=
  r <- attempt (download_single_file_worker (snd job) dataset_dir) ;;
  ret (acc ++ [r]).

(** The pool: every job runs, then the results are tallied in completion
    order, the first stored exception being raised again. *)
Definition run_pool (dataset_dir : path) (files : list entry) (max_workers : Z)
  : M Z :=
  if max_workers <=? 0 then raise ValueError
  else
    order <- pool_order (enumerate1 files) ;;
    results <- for_fold order [] (run_job dataset_dir) ;;
    for_fold results 0 tally.

(** The first lines of [fetch_entire_dataset]: the file list, from the
    cache when it answers, else from the bucket (and then cached). *)
Definition cached_file_list (task dataset_name : string) : M (list entry) :=
  cache_path <- get_cache_path task (Some dataset_name) ;;
  cached <- load_cache cache_path ;;
  match cached with
  | Some l => ret l
  | None =>
      l <- list_datasets task (Some dataset_name) ;;
      save_cache cache_path l ;;;
      ret l
  end.

Definition fetch_entire_dataset (task dataset_name : string)
    (skip_confirmation : bool) (max_workers : Z) : M bool :=
  files <- cached_file_list task dataset_name ;;
  if negb (Py.truthy_list files) then ret false
  else
    total_size <- sum_field "size" e_size files ;;
    let dataset_dir := path_div (Path "datasets") dataset_name in
    dir_exists <- path_exists dataset_dir ;;
    missing_size <- (if dir_exists then scan_missing dataset_dir files
                     else ret total_size) ;;
    proceed <- (if negb skip_confirmation then
                  if 0 <? missing_size then
                    yes <- Confirm_ask ;;
                    ret (if yes then None else Some false)
                  else ret (Some true)
                else ret None) ;;
    match proceed with
    | Some early => ret early
    | None =>
        mkdir_p dataset_dir ;;;
        let total_files := Z.of_nat (length files) in
        success_count <- run_pool dataset_dir files max_workers ;;
        ret (success_count =? total_files)
    end.

Definition fetch_task (task : string) (max_workers : Z) : M bool :=
  datasets <- list_datasets task None ;;
  if negb (Py.truthy_list datasets) then ret false
  else
    total_size <- sum_field "size" e_size datasets ;;
    let total_datasets := Z.of_nat (length datasets) in
    total_files <- sum_field "file_count" e_file_count datasets ;;
    line <- input ;;
    let response := Py.strip line in
    if negb (String.eqb response "yes I am sure") then ret false
    else
      success_count <-
        for_fold datasets 0
          (fun success_count dataset_info =>
             name <- getitem "name" (e_name dataset_info) ;;
             _ <- getitem "size_human" (e_size_human dataset_info) ;;
             _ <- getitem "file_count" (e_file_count dataset_info) ;;
             success <- fetch_entire_dataset task name true max_workers ;;
             ret (if success : bool then success_count + 1 else success_count)) ;;
      ret (success_count =? total_datasets).

Definition fetch_dataset (task dataset_name : string) (filename : option string)
    (max_workers : Z) : M bool :=
  match filename with
  | Some (String _ _ as fn) => fetch_single_file task dataset_name fn
  | _ => fetch_entire_dataset task dataset_name false max_workers
  end.

(** Transfers recorded in a log. *)
Definition is_transfer (e : event) : bool :=
  match e with
  | EvHttpGet _ | EvAria2 _ => true
  | _ => false
  end.

Definition is_input (e : event) : bool :=
  match e with
  | EvInput => true
  | _ => false
  end.

Definition transfers (l : list event) : list event := List.filter is_transfer l.
Definition inputs (l : list event) : list event := List.filter is_input l.

(** ** Sample worlds and the spec's vocabulary, used by the examples below *)

(** A quiet world: empty tree, empty cache, clock stuck at [now], no
    [aria2c], an empty bucket. *)
Definition quiet_world (now : float) : World :=
  mkWorld ∅ ∅ [] false (fun _ => now) 0 [] false
    (fun _ f => (Ret 1, f)) (fun _ => Ret []) (fun _ => GetFail ConnectionError)
    (fun n => n) [].

Definition with_clock (c : nat -> float) (w : World) : World :=
  mkWorld (fs w) (cache w) (cache_dirs w) (cache_readonly w) c (tick w)
    (stdin w) (aria2_installed w) (aria2c w) (s3_list w) (s3_get w)
    (pool_rank w) (log w).
Definition with_bucket (l : string -> outcome (list s3_object))
    (g : string -> get_reply) (w : World) : World :=
  mkWorld (fs w) (cache w) (cache_dirs w) (cache_readonly w) (clock w) (tick w)
    (stdin w) (aria2_installed w) (aria2c w) l g (pool_rank w) (log w).
Definition with_aria2 (run : list string -> gmap path node -> outcome Z * gmap path node)
    (w : World) : World :=
  mkWorld (fs w) (cache w) (cache_dirs w) (cache_readonly w) (clock w) (tick w)
    (stdin w) true run (s3_list w) (s3_get w) (pool_rank w) (log w).

(** [sum(...)] over a list of integers. *)
Definition Zsum (l : list Z) : Z := foldr Z.add 0 l.

(** Sum of [file_count] over dataset summaries. *)
Definition total_file_count (summaries : list entry) : Z :=
  Zsum (map (fun e => default 0 (e_file_count e)) summaries).

(** In the words of the spec: a listed key that is not a directory marker
    and lies under the prefix. *)
Definition non_directory_key_under (prefix : string) (o : s3_object) : bool :=
  match o_key o with
  | Some key => negb (Py.endswith key "/") && Py.startswith key prefix
  | None => false
  end.

(** The dataset identifier of a key under the prefix: the path between
    the prefix and the final segment. *)
Definition dataset_identifier (prefix key : string) : string :=
  Py.join "/" (Py.but_last (Py.split "/" (Py.slice_from (String.length prefix) key))).

(** A non-directory key under the prefix whose dataset identifier is not
    empty. *)
Definition key_in_a_dataset (prefix : string) (o : s3_object) : bool :=
  match o_key o with
  | Some key =>
      negb (Py.endswith key "/") && Py.startswith key prefix
      && negb (String.eqb (dataset_identifier prefix key) "")
  | None => false
  end.

Definition count_objects (p : s3_object -> bool) (l : list s3_object) : Z :=
  Z.of_nat (length (List.filter p l)).

(** The prefix the dataset-level branch filters on. *)
Definition dataset_prefix (s3_task dataset_name : string) : string :=
  task_prefix s3_task +:+ dataset_name +:+ "/".

(** Sample listing of the bucket under the shared communication prefix. *)
Definition communication_bucket (prefix : string) : outcome (list s3_object) :=
  Ret [S3Object (Some "resources/cell_cell_communication/datasets/mouse_brain/train.h5ad")
         (Some 3) (Some (String "034"%char "900150983cd24fb0d6963f7d28e17f72" +:+ String "034"%char ""))].

(** In the words of the spec: exactly 32 lowercase hex characters. *)
Definition simple_checksum (s : string) : bool :=
  (String.length s =? 32)%nat
  && Py.all_chars (fun c => Py.char_in c "0123456789abcdef") s.

(** 32 hex digits of either case. *)
Definition hex32_any_case (s : string) : bool :=
  (String.length s =? 32)%nat
  && Py.all_chars (fun c => Py.char_in c "0123456789abcdefABCDEF") s.

(** [st_size] of a node of the tree. *)
Definition node_size (n : node) : Z :=
  match n with
  | File data => Z.of_nat (length data)
  | Dir sz => sz
  end.

(** A bucket serving one three-byte object in a single chunk, seen from a
    working directory that already holds [datasets/pancreas]. *)
Definition abc_world : World :=
  snd (mkdir_p ["datasets"; "pancreas"]
         (with_bucket (fun _ => Ret [])
            (fun _ => GetStream (Some 3) [bytes_of_string "abc"] None)
            (quiet_world 0%float))).

Definition abc_path : path := ["datasets"; "pancreas"; "train.h5ad"].
Definition abc_url : string :=
  BASE_URL_RAW +:+ "resources/denoising/datasets/pancreas/train.h5ad".

(** The same bucket breaking the connection after the chunk. *)
Definition broken_world : World :=
  with_bucket (fun _ => Ret [])
    (fun _ => GetStream (Some 3) [bytes_of_string "abc"] (Some ConnectionError))
    abc_world.

(** ** Vocabulary of the orchestrator properties *)

(** [w'] differs from [w] at most by cache writes, clock readings and
    listing requests: same tree, same terminal, and the log grew by
    [EvList] events only. *)
Definition is_listing (e : event) : bool :=
  match e with
  | EvList _ => true
  | _ => false
  end.

Definition quiet (w w' : World) : Prop :=
  fs w' = fs w /\ stdin w' = stdin w
  /\ exists evs, log w' = log w ++ evs /\ forallb is_listing evs = true.

(** A computation that touches nothing but cache, clock and listings. *)
Definition quiet_m {A} (m : M A) : Prop := forall w, quiet w (snd (m w)).

(** A computation that only ever appends to the log. *)
Definition appends {A} (m : M A) : Prop :=
  forall w, exists evs, log (snd (m w)) = log w ++ evs.

(** [p] and all its ancestors are directories of the tree. *)
Fixpoint has_dirs_from (f : gmap path node) (done todo : path) : bool :=
  match todo with
  | [] => true
  | s :: todo' =>
      match f !! (done ++ [s]) with
      | Some (Dir _) => has_dirs_from f (done ++ [s]) todo'
      | _ => false
      end
  end.

Definition has_dirs (f : gmap path node) (p : path) : bool :=
  has_dirs_from f [] p.

(** The directory a dataset is fetched into. *)
Definition dataset_dir_of (dataset_name : string) : path :=
  path_div (Path "datasets") dataset_name.

(** A file record whose file exists under [dir], whatever its size. *)
Definition present (f : gmap path node) (dir : path) (file_info : entry) : Prop :=
  exists name size,
    e_name file_info = Some name /\ e_size file_info = Some size
    /\ is_Some (f !! path_div dir name).

(** A file record whose file exists under [dir] at the recorded size. *)
Definition present_at_size (f : gmap path node) (dir : path) (file_info : entry)
  : Prop :=
  exists name key size nd,
    e_name file_info = Some name /\ e_key file_info = Some key
    /\ e_size file_info = Some size
    /\ f !! path_div dir name = Some nd /\ node_size nd = size.

(** What a worker answers when it skips a file. *)
Definition skipped (dir : path) (file_info : entry) : outcome (entry * bool * path) :=
  Ret (file_info, true, path_div dir (default "" (e_name file_info))).

(** A dataset of two files, both already on disk at their listed sizes,
    with the listing answered by the bucket. *)
Definition pancreas_objects : list s3_object :=
  [S3Object (Some "resources/denoising/datasets/pancreas/train.h5ad") (Some 3)
     (Some "900150983cd24fb0d6963f7d28e17f72");
   S3Object (Some "resources/denoising/datasets/pancreas/state.yaml") (Some 0)
     (Some "d41d8cd98f00b204e9800998ecf8427e-2")].

Definition pancreas_files : list entry :=
  [file_record "train.h5ad" "resources/denoising/datasets/pancreas/train.h5ad" 3
     "900150983cd24fb0d6963f7d28e17f72";
   file_record "state.yaml" "resources/denoising/datasets/pancreas/state.yaml" 0
     "d41d8cd98f00b204e9800998ecf8427e-2"].

Definition pancreas_world (on_disk : list byte) : World :=
  let w := with_bucket (fun _ => Ret pancreas_objects)
             (fun _ => GetFail ConnectionError) (quiet_world 0%float) in
  set_fs (<[ ["datasets"; "pancreas"; "train.h5ad"] := File on_disk ]>
            (<[ ["datasets"; "pancreas"; "state.yaml"] := File [] ]>
               (<[ ["datasets"; "pancreas"] := Dir 4096 ]>
                  (<[ ["datasets"] := Dir 4096 ]> ∅)))) w.

(** A computation that leaves the world as it found it. *)
Definition reads {A} (m : M A) : Prop := forall w, snd (m w) = w.

(** The test of the search loop of [fetch_single_file]. *)
Definition named (filename : string) (file_info : entry) : bool :=
  match e_name file_info with
  | Some n => String.eqb n filename
  | None => false
  end.

(** The bucket of the sample dataset, nothing on disk. *)
Definition pancreas_remote : World :=
  with_bucket (fun _ => Ret pancreas_objects)
    (fun _ => GetFail ConnectionError) (quiet_world 0%float).

(** A task with one dataset of one three-byte file, served without
    fault, and one line waiting on the terminal. *)
Definition gate_world (line : string) : World :=
  set_stdin [line]
    (with_bucket
       (fun _ => Ret [S3Object (Some "resources/denoising/datasets/pancreas/train.h5ad")
                        (Some 3) (Some "900150983cd24fb0d6963f7d28e17f72")])
       (fun _ => GetStream (Some 3) [bytes_of_string "abc"] None)
       (quiet_world 0%float)).

(** Sum of the file counts held in the [dataset_info] dict. *)
Definition info_count (dataset_info : gmap string (Z * Z)) : Z :=
  Zsum (map (fun kv => snd (snd kv)) (map_to_list dataset_info)).

(** ** Vocabulary of the cache properties *)

(** The cache file that [get_cache_path] names. *)
Definition cache_file (task : string) (dataset_name : option string) : path :=
  let cache_dir := path_div (Path ".cache") task in
  match dataset_name with
  | Some (String _ _ as dn) =>
      path_div cache_dir (Py.replace "/" "_" dn +:+ ".json")
  | _ => path_div cache_dir "datasets.json"
  end.

(** The cache file [p] can be opened for writing: it is not a directory,
    its directory exists, and the cache is not read-only. *)
Definition cache_accepts (w : World) (p : path) : bool :=
  negb (cache_is_dir w p) && cache_is_dir w (path_parent p)
  && negb (cache_readonly w).

(** The freshness test of [load_cache], on binary64 numbers. *)
Definition fresh (now timestamp : float) : bool :=
  PrimFloat.ltb (PrimFloat.sub now timestamp) 3600%float.

(** The exact value of a finite binary64 number, as a rational. *)
Definition exact_value (x : float) : Q :=
  match Prim2SF x with
  | S754_finite s m e =>
      let v := Qmult (Z.pos m # 1)
                 (if 0 <=? e then (2 ^ e # 1)
                  else (1 # Pos.pow 2 (Z.to_pos (- e)))) in
      if s then Qopp v else v
  | _ => 0%Q
  end.

Definition with_readonly (w : World) : World :=
  mkWorld (fs w) (cache w) (cache_dirs w) true (clock w) (tick w)
    (stdin w) (aria2_installed w) (aria2c w) (s3_list w) (s3_get w)
    (pool_rank w) (log w).

(** A summary listing stored at clock reading 1000 and read back at
    clock reading 4599. *)
Definition demo_cache_path : path := cache_file "denoising" None.
Definition demo_payload : list entry := [dataset_summary "cellxgene_census/dkd" 300 3].
Definition stored_world : World :=
  snd (get_cache_path "denoising" None (quiet_world 1000%float)).
Definition later_world : World :=
  with_clock (fun _ => 4599%float)
    (snd (save_cache demo_cache_path demo_payload stored_world)).

(** The binary64 numbers nearest to 1000.7 and to 4600.7, and the same
    listing stored at the first reading and read back at the second. *)
Definition reading_1000_7 : float := 0x1.f45999999999ap+9%float.
Definition reading_4600_7 : float := 0x1.1f8b333333333p+12%float.
Definition rounding_world : World :=
  with_clock (fun _ => reading_4600_7)
    (snd (save_cache demo_cache_path demo_payload
            (with_clock (fun _ => reading_1000_7) stored_world))).

(** The same listing stored on a read-only cache and read back at once. *)
Definition readonly_world : World :=
  snd (save_cache demo_cache_path demo_payload (with_readonly stored_world)).

(** A listing with one file directly under the task prefix. *)
Definition readme_objects : list s3_object :=
  [S3Object (Some "resources/denoising/datasets/README.md") (Some 7) None;
   S3Object (Some "resources/denoising/datasets/pancreas/train.h5ad") (Some 10) None].

(** The bucket of the two communication tasks. *)
Definition communication_world : World :=
  with_bucket communication_bucket (fun _ => GetFail ConnectionError)
    (quiet_world 0%float).

Definition mouse_brain_record : entry :=
  file_record "train.h5ad"
    "resources/cell_cell_communication/datasets/mouse_brain/train.h5ad"
    3 "900150983cd24fb0d6963f7d28e17f72".

(** A downloader that exits 0 after writing three bytes at [abc_path]. *)
Definition aria2_world : World :=
  with_aria2
    (fun _ f => (Ret 0, <[abc_path := File (bytes_of_string "abc")]> f))
    abc_world.

(** ** Vocabulary of the further listing properties *)

(** Sum of [size] over dataset summaries. *)
Definition total_size_of (summaries : list entry) : Z :=
  Zsum (map (fun e => default 0 (e_size e)) summaries).

(** Sum of the sizes held in the [dataset_info] dict. *)
Definition info_size (dataset_info : gmap string (Z * Z)) : Z :=
  Zsum (map (fun kv => fst (snd kv)) (map_to_list dataset_info)).

(** The names of a list of records, in order. *)
Definition names_of (l : list entry) : list (option string) := map e_name l.

(** A world whose task-level cache holds [l], stored at clock reading
    [stored], and whose clock now reads [now]. *)
Definition cached_world (l : list entry) (stored now : float) : World :=
  set_cache {[ cache_file "denoising" None := Doc (Some stored) (Some l) ]}
    (snd (get_cache_path "denoising" None
            (with_bucket (fun _ => Ret pancreas_objects)
               (fun _ => GetFail ConnectionError) (quiet_world now)))).

(** A world whose bucket refuses the listing request. *)
Definition refusing_world (l : list entry) (stored now : float) : World :=
  with_bucket (fun _ => Raise (HTTPError 503))
    (fun _ => GetFail ConnectionError) (cached_world l stored now).

(** The listed objects that fall in dataset [d]. *)
Definition objects_of_dataset (prefix d : string) (contents : list s3_object)
  : list s3_object :=
  List.filter
    (fun o => match o_key o with
              | Some key => bool_decide (dataset_path_of prefix key = Some d)
              | None => false
              end)
    contents.

(** The dict value after the objects [os] of one dataset were added to [v]. *)
Definition add_objects (v : option (Z * Z)) (os : list s3_object) : option (Z * Z) :=
  fold_left
    (fun v o => Some (match v with
                      | Some (sz, fc) => (sz + size_of o, fc + 1)
                      | None => (size_of o, 1)
                      end))
    os v.

(** [c in s] for a character [c]. *)
Definition has_char (c : ascii) (s : string) : bool :=
  existsb (Ascii.eqb c) (list_ascii_of_string s).

(** ** Vocabulary of the transfer properties *)

(** The [except] branch of [fetch_file_fallback]. *)
Definition fallback_cleanup (local_path : path) : M bool :=
  ex <- path_exists local_path ;;
  (if ex then unlink local_path else ret tt) ;;;
  ret false.


(** A computation that leaves one component of the world as it found it. *)
Definition keeps {A B} (proj : World -> B) (m : M A) : Prop :=
  forall w, proj (snd (m w)) = proj w.

(** The transfer attempt that [fetch_file] makes in world [w]. *)
Definition attempt_event (w : World) (url : string) (p : path) (md5 : string)
  : event :=
  if aria2_installed w then EvAria2 (aria2_cmd url p md5) else EvHttpGet url.

(** ** Vocabulary of the further orchestrator properties *)


(** A complete file record whose file is not in [dir]. *)
Definition unfetched (f : gmap path node) (dir : path) (file_info : entry) : Prop :=
  exists name key size md5,
    e_name file_info = Some name /\ e_key file_info = Some key
    /\ e_size file_info = Some size /\ e_md5 file_info = Some md5
    /\ f !! path_div dir name = None.

(** The URL a file record is fetched from. *)
Definition url_of (file_info : entry) : string :=
  BASE_URL_RAW +:+ default "" (e_key file_info).

(** What a worker answers when the transfer fails. *)
Definition failed (dir : path) (file_info : entry) : outcome (entry * bool * path) :=
  Ret (file_info, false, path_div dir (default "" (e_name file_info))).

(** A line that [Confirm.ask] takes for a yes. *)
Definition says_yes (line : string) : bool :=
  String.eqb (Py.lower (Py.strip line)) "y".

(** The sample bucket refusing every download, seen from a working
    directory that holds an empty [datasets/pancreas]. *)
Definition pancreas_empty_dir : World :=
  snd (mkdir_p ["datasets"; "pancreas"] pancreas_remote).

(** The same bucket with nothing on disk and a user who answers no. *)
Definition declining_world : World := set_stdin ["n"] pancreas_remote.

(* ===================================================================== *)
(** * Properties *)
(* ===================================================================== *)

(** Projections of updated worlds. *)
Ltac wsimpl :=
  cbn [fs cache cache_dirs cache_readonly clock tick stdin aria2_installed
       aria2c s3_list s3_get pool_rank log
       set_fs set_cache set_cache_dirs set_tick set_stdin set_log fst snd].

(** ** MD5 test vectors (RFC 1321 and [hashlib]) *)

Example md5_empty :
  MD5.hexdigest [] = "d41d8cd98f00b204e9800998ecf8427e".
Proof. vm_compute. reflexivity. Qed.

Example md5_abc :
  MD5.hexdigest (bytes_of_string "abc") = "900150983cd24fb0d6963f7d28e17f72".
Proof. vm_compute. reflexivity. Qed.

Example md5_two_blocks :
  MD5.hexdigest (repeat "a"%byte 70) = "0f5c6c4e740bfcc08c3c26ccb2673d46".
Proof. vm_compute. reflexivity. Qed.

(** ** Running a sequence step by step *)

Lemma bind_ret_run {A B} (m : M A) (k : A -> M B) (w w1 : World) (a : A) :
  m w = (Ret a, w1) -> bind m k w = k a w1.
Proof. intros H. unfold bind. by rewrite H. Qed.

Lemma bind_raise_run {A B} (m : M A) (k : A -> M B) (w w1 : World) (e : exn) :
  m w = (Raise e, w1) -> bind m k w = (Raise e, w1).
Proof. intros H. unfold bind. by rewrite H. Qed.

(** ** Listing cache *)

(** [get_cache_path] either creates the cache directory and names the
    cache file, or raises and leaves the world as it was. *)
Lemma get_cache_path_cases (task : string) (dataset_name : option string)
    (w : World) :
  (exists d, get_cache_path task dataset_name w
             = (Ret (cache_file task dataset_name), set_cache_dirs d w))
  \/ (exists e, get_cache_path task dataset_name w = (Raise e, w)).
Proof.
  unfold get_cache_path, bind, cache_mkdir_p, cache_file.
  destruct (cache_mkdir_from _ _ _ _ _) as [d|e]; [left; exists d|right; eauto].
  by destruct dataset_name as [[|a dn]|].
Qed.

(** What [load_cache] answers on a parsed document. *)
Lemma load_cache_doc (p : path) (w : World) ts ds :
  cache w !! p = Some (Doc ts ds) ->
  load_cache p w =
    (Ret (if fresh (clock w (tick w)) (default 0%float ts) then ds else None),
     set_tick (S (tick w)) w).
Proof.
  intros H. unfold load_cache, fresh. rewrite H.
  unfold try_except, bind, json_load, time_time, ret. cbn [fst snd default].
  destruct (PrimFloat.ltb _ _); reflexivity.
Qed.

(** A miss: no file, or a file that does not parse. *)
Lemma load_cache_miss (p : path) (w : World) :
  cache w !! p = None \/ cache w !! p = Some Garbage ->
  load_cache p w = (Ret None, w).
Proof.
  intros [H|H]; unfold load_cache; rewrite H; reflexivity.
Qed.

Lemma save_cache_writable (p : path) (payload : list entry) (w : World) :
  cache_accepts w p = true ->
  save_cache p payload w =
    (Ret tt,
     set_cache (<[p := Doc (Some (clock w (tick w))) (Some payload)]> (cache w))
               (set_tick (S (tick w)) w)).
Proof.
  unfold cache_accepts. intros [[Hf Hd]%andb_true_iff Hro]%andb_true_iff.
  apply negb_true_iff in Hf, Hro.
  unfold save_cache, try_except, bind, time_time, json_dump.
  change (cache_is_dir (set_tick (S (tick w)) w) p) with (cache_is_dir w p).
  change (cache_is_dir (set_tick (S (tick w)) w) (path_parent p))
    with (cache_is_dir w (path_parent p)).
  change (cache_readonly (set_tick (S (tick w)) w)) with (cache_readonly w).
  by rewrite Hf, Hd, Hro.
Qed.

(** A refused write is swallowed and leaves the cache as it was. *)
Lemma save_cache_refused (p : path) (payload : list entry) (w : World) :
  cache_accepts w p = false ->
  save_cache p payload w = (Ret tt, set_tick (S (tick w)) w).
Proof.
  unfold cache_accepts. intros Hno.
  unfold save_cache, try_except, bind, time_time, json_dump.
  change (cache_is_dir (set_tick (S (tick w)) w) p) with (cache_is_dir w p).
  change (cache_is_dir (set_tick (S (tick w)) w) (path_parent p))
    with (cache_is_dir w (path_parent p)).
  change (cache_readonly (set_tick (S (tick w)) w)) with (cache_readonly w).
  destruct (cache_is_dir w p); [reflexivity|].
  destruct (cache_is_dir w (path_parent p)); [|reflexivity].
  destruct (cache_readonly w); [reflexivity|discriminate].
Qed.

(** [save_cache] never raises. *)
Lemma save_cache_never_raises (p : path) (payload : list entry) (w : World) :
  fst (save_cache p payload w) = Ret tt.
Proof.
  destruct (cache_accepts w p) eqn:H.
  - by rewrite save_cache_writable.
  - by rewrite save_cache_refused.
Qed.

(** C3, as amended.  When the cache accepts the write, a payload stored by
    [save_cache] at clock reading [t0] is returned by a later [load_cache]
    of the same, untouched cache file, read at clock reading [t1], exactly
    when the binary64 difference [t1 - t0], as the program computes it, is
    below 3600; otherwise the entry is absent.  When the cache refuses the
    write, [save_cache] returns all the same and stores nothing.  And
    whatever document a cache file holds, a timestamp whose binary64
    distance to the clock is not below 3600 makes [load_cache] answer
    absent. *)
Theorem cache_round_trip_and_expiry
    (p : path) (payload : list entry) (w w2 : World) :
  cache w2 !! p = cache (snd (save_cache p payload w)) !! p ->
  (cache_accepts w p = true ->
   (fst (load_cache p w2) = Ret (Some payload)
    <-> fresh (clock w2 (tick w2)) (clock w (tick w)) = true)
   /\ (fresh (clock w2 (tick w2)) (clock w (tick w)) = false ->
       fst (load_cache p w2) = Ret None))
  /\ (cache_accepts w p = false ->
      fst (save_cache p payload w) = Ret tt
      /\ cache (snd (save_cache p payload w)) = cache w)
  /\ (forall (w3 : World) (ts : float) (ds : option (list entry)),
        cache w3 !! p = Some (Doc (Some ts) ds) ->
        fresh (clock w3 (tick w3)) ts = false ->
        fst (load_cache p w3) = Ret None).
Proof.
  intros Hsame. split; [|split].
  - intros Hrw.
    rewrite (save_cache_writable _ _ _ Hrw) in Hsame. cbn [snd] in Hsame.
    change (cache (set_cache ?c _)) with c in Hsame.
    rewrite lookup_insert_eq in Hsame.
    rewrite (load_cache_doc _ _ _ _ Hsame).
    change (default 0%float (Some (clock w (tick w)))) with (clock w (tick w)).
    cbn [fst].
    split; [split|].
    + intros H. destruct (fresh _ _); [reflexivity|discriminate].
    + by intros ->.
    + by intros ->.
  - intros Hno. by rewrite (save_cache_refused _ _ _ Hno).
  - intros w3 ts ds Hc Hold.
    rewrite (load_cache_doc _ _ _ _ Hc).
    change (default 0%float (Some ts)) with ts. by rewrite Hold.
Qed.

Lemma cache_round_trip_and_expiry_witness :
  cache_accepts stored_world demo_cache_path = true
  /\ fresh 4599 1000 = true
  /\ fst (load_cache demo_cache_path later_world) = Ret (Some demo_payload).
Proof.
  assert (Hacc : cache_accepts stored_world demo_cache_path = true)
    by (vm_compute; reflexivity).
  split; [exact Hacc|]. split; [reflexivity|].
  apply (proj1 (proj1 (cache_round_trip_and_expiry demo_cache_path demo_payload
                         stored_world later_world eq_refl) Hacc)).
  reflexivity.
Defined.

(** C3, as stated, fails.  Stored at the binary64 reading nearest to
    1000.7 and read back at the one nearest to 4600.7, less than 3600
    seconds later (by 2^-42), the listing is absent, because the binary64
    difference rounds to 3600.  And stored on a read-only cache, the
    listing is absent when read back at once. *)
Lemma cache_round_trip_counterexample :
  ((exact_value reading_4600_7 - exact_value reading_1000_7 < 3600)%Q
   /\ fst (load_cache demo_cache_path rounding_world) = Ret None)
  /\ (clock readonly_world (tick readonly_world) = 1000%float
      /\ fst (load_cache demo_cache_path readonly_world) = Ret None).
Proof. vm_compute. repeat split. Qed.

(** ** Listing client: the task-level aggregation *)

Lemma Zsum_Permutation (l l' : list Z) : l ≡ₚ l' -> Zsum l = Zsum l'.
Proof.
  induction 1; simpl; lia.
Qed.

Lemma info_count_empty : info_count ∅ = 0.
Proof. unfold info_count. by rewrite map_to_list_empty. Qed.

Lemma info_count_insert_fresh (m : gmap string (Z * Z)) k v :
  m !! k = None -> info_count (<[k := v]> m) = snd v + info_count m.
Proof.
  intros H. unfold info_count.
  rewrite (Zsum_Permutation _ (map (fun kv => snd (snd kv)) ((k, v) :: map_to_list m))).
  - reflexivity.
  - apply Permutation_map. by apply map_to_list_insert.
Qed.

Lemma info_count_insert_present (m : gmap string (Z * Z)) k v v' :
  m !! k = Some v -> info_count (<[k := v']> m) = snd v' - snd v + info_count m.
Proof.
  intros H.
  rewrite <- (insert_delete_eq m k v').
  rewrite info_count_insert_fresh by apply lookup_delete_eq.
  rewrite <- (insert_id m k v H) at 2.
  rewrite <- (insert_delete_eq m k v).
  rewrite (info_count_insert_fresh (delete k m) k v) by apply lookup_delete_eq.
  lia.
Qed.

Lemma dataset_path_of_counted (prefix : string) (o : s3_object) :
  key_in_a_dataset prefix o =
    match o_key o with
    | Some key => bool_decide (is_Some (dataset_path_of prefix key))
    | None => false
    end.
Proof.
  unfold key_in_a_dataset, dataset_path_of, dataset_identifier.
  destruct (o_key o) as [key|]; [|reflexivity].
  destruct (Py.endswith key "/"); simpl; [reflexivity|].
  destruct (Py.startswith key prefix); simpl; [|reflexivity].
  destruct (Py.join _ _); reflexivity.
Qed.

Lemma aggregate_step_count (prefix : string) (m : gmap string (Z * Z)) (o : s3_object) :
  info_count (aggregate_step prefix m o)
  = info_count m + (if key_in_a_dataset prefix o then 1 else 0).
Proof.
  rewrite dataset_path_of_counted. unfold aggregate_step.
  destruct (o_key o) as [key|]; [|lia].
  destruct (dataset_path_of prefix key) as [dp|]; simpl; [|lia].
  destruct (m !! dp) as [[sz fc]|] eqn:E.
  - rewrite (info_count_insert_present _ _ _ _ E). simpl. lia.
  - rewrite (info_count_insert_fresh _ _ _ E). simpl. lia.
Qed.

Lemma fold_aggregate_count (prefix : string) (contents : list s3_object) :
  forall m : gmap string (Z * Z),
    info_count (fold_left (aggregate_step prefix) contents m)
    = info_count m + count_objects (key_in_a_dataset prefix) contents.
Proof.
  unfold count_objects.
  induction contents as [|o contents IH]; intros m; simpl.
  - lia.
  - rewrite IH, aggregate_step_count.
    destruct (key_in_a_dataset prefix o); simpl length; lia.
Qed.

(** Looking the sorted keys up again gives one summary per dict item. *)
Lemma summaries_from_items (m : gmap string (Z * Z)) (items : list (string * (Z * Z))) :
  (forall k v, (k, v) ∈ items -> m !! k = Some v) ->
  omap (fun dataset_path =>
          match m !! dataset_path with
          | Some (sz, fc) => Some (dataset_summary dataset_path sz fc)
          | None => None
          end) (map fst items)
  = map (fun kv => dataset_summary (fst kv) (fst (snd kv)) (snd (snd kv))) items.
Proof.
  induction items as [|[k [sz fc]] items IH]; intros H; simpl; [reflexivity|].
  rewrite (H k (sz, fc)) by apply list_elem_of_here.
  f_equal. apply IH. intros k' v' Hin. apply H. by apply list_elem_of_further.
Qed.

Lemma summaries_count (m : gmap string (Z * Z)) :
  total_file_count (summaries_of m) = info_count m.
Proof.
  unfold total_file_count, summaries_of, sorted_keys, info_count.
  erewrite Zsum_Permutation.
  2: { apply Permutation_map. apply omap_Permutation. apply merge_sort_Permutation. }
  rewrite summaries_from_items.
  - rewrite map_map. reflexivity.
  - intros k v Hin. by apply elem_of_map_to_list.
Qed.

(** On a cache miss the task-level branch returns the summaries built
    from the bucket's answer. *)
Lemma list_datasets_summaries (task : string) (w : World)
    (contents : list s3_object) (d : list path) :
  get_cache_path task None w = (Ret (cache_file task None), set_cache_dirs d w) ->
  cache w !! cache_file task None = None ->
  s3_list w (task_prefix (get_s3_task_path task)) = Ret contents ->
  fst (list_datasets task None w)
  = Ret (summaries_of (aggregate (task_prefix (get_s3_task_path task)) contents)).
Proof.
  intros Hpath Hmiss Hlist. unfold list_datasets.
  rewrite (bind_ret_run _ _ _ _ _ Hpath).
  rewrite (bind_ret_run _ _ _ _ _
             (load_cache_miss _ (set_cache_dirs d w) (or_introl Hmiss))).
  unfold bind at 1. unfold request_listing. wsimpl. rewrite Hlist.
  unfold bind.
  match goal with
  | |- context [save_cache ?p ?l ?w0] =>
      pose proof (save_cache_never_raises p l w0) as Hs;
      destruct (save_cache p l w0) as [r w']
  end.
  cbn [fst] in Hs. by rewrite Hs.
Qed.

(** C5, as amended.  The file counts of the summaries built from a listing
    add up to the number of listed keys that are not directory markers,
    lie under the task prefix, and have a non-empty dataset identifier
    (keys directly under the prefix are discarded, not counted). *)
Theorem summaries_count_keys_in_datasets
    (prefix : string) (contents : list s3_object) :
  total_file_count (summaries_of (aggregate prefix contents))
  = count_objects (key_in_a_dataset prefix) contents.
Proof.
  rewrite summaries_count. unfold aggregate.
  rewrite fold_aggregate_count, info_count_empty. lia.
Qed.

(** C5, as stated, fails: a file directly under the prefix is a
    non-directory key under the task prefix, and no summary counts it. *)
Lemma summaries_miss_direct_children :
  total_file_count (summaries_of (aggregate (task_prefix "denoising") readme_objects)) = 1
  /\ count_objects (non_directory_key_under (task_prefix "denoising")) readme_objects = 2
  /\ total_file_count (summaries_of (aggregate (task_prefix "denoising") readme_objects))
     <> count_objects (non_directory_key_under (task_prefix "denoising")) readme_objects.
Proof. vm_compute. repeat split. discriminate. Qed.

(** ** Listing client: the dataset-level file records *)

Lemma append_assoc (a b c : string) : (a +:+ b) +:+ c = a +:+ b +:+ c.
Proof.
  induction a as [|x a IH]; [reflexivity|].
  change (String x ((a +:+ b) +:+ c) = String x (a +:+ b +:+ c)).
  by rewrite IH.
Qed.

Lemma dataset_prefix_flat (s3_task dataset_name : string) :
  dataset_prefix s3_task dataset_name
  = "resources/" +:+ s3_task +:+ "/datasets/" +:+ dataset_name +:+ "/".
Proof.
  unfold dataset_prefix, task_prefix. by rewrite !append_assoc.
Qed.

Lemma file_of_spec (prefix : string) (o : s3_object) (f : entry) :
  file_of prefix o = Some f ->
  exists key,
    o_key o = Some key
    /\ e_key f = Some key
    /\ e_name f = Some (Py.last_seg (Py.split "/" key))
    /\ e_size f = Some (size_of o)
    /\ is_Some (e_md5 f)
    /\ Py.startswith key prefix = true
    /\ Py.endswith key "/" = false.
Proof.
  unfold file_of. destruct (o_key o) as [key|]; [|discriminate].
  destruct (Py.startswith key prefix) eqn:Hs; simpl; [|discriminate].
  destruct (Py.endswith key "/") eqn:He; simpl; [discriminate|].
  intros [= <-]. exists key. simpl. repeat split; eauto.
Qed.

(** The dataset-level branch never consults the cache: it asks the bucket
    and filters. *)
Lemma list_datasets_files (task dataset_name : string) (w : World) :
  list_datasets task (Some dataset_name) w
  = (match s3_list w (task_prefix (get_s3_task_path task)) with
     | Ret contents =>
         Ret (files_of (dataset_prefix (get_s3_task_path task) dataset_name) contents)
     | Raise e => Raise e
     end,
     set_log (log w ++ [EvList (task_prefix (get_s3_task_path task))]) w).
Proof.
  unfold list_datasets, bind, request_listing, ret, dataset_prefix.
  destruct (s3_list w _); reflexivity.
Qed.

(** C6, as amended.  Every file record returned by
    [list_datasets task dataset_name] has a key that starts with
    [resources/<s3 path of task>/datasets/<dataset_name>/], where the s3
    path of a task is [get_s3_task_path task] (the task name itself except
    for the two communication tasks), and does not end with a slash. *)
Theorem listed_files_prefix
    (task dataset_name : string) (w w' : World) (files : list entry) :
  list_datasets task (Some dataset_name) w = (Ret files, w') ->
  forall f, f ∈ files ->
    exists key,
      e_key f = Some key
      /\ Py.startswith key
           ("resources/" +:+ get_s3_task_path task +:+ "/datasets/"
              +:+ dataset_name +:+ "/") = true
      /\ Py.endswith key "/" = false.
Proof.
  rewrite list_datasets_files. intros H f Hf.
  destruct (s3_list w _) as [contents|e]; [|discriminate].
  injection H as <- _.
  apply list_elem_of_omap in Hf as (o & _ & Ho).
  apply file_of_spec in Ho as (key & _ & Hk & _ & _ & _ & Hs & He).
  exists key. rewrite <- dataset_prefix_flat. auto.
Qed.

Lemma listed_files_prefix_witness :
  fst (list_datasets "cell_cell_communication_ligand_target" (Some "mouse_brain")
         communication_world) = Ret [mouse_brain_record]
  /\ exists key,
       e_key mouse_brain_record = Some key
       /\ Py.startswith key
            ("resources/" +:+ get_s3_task_path "cell_cell_communication_ligand_target"
               +:+ "/datasets/" +:+ "mouse_brain" +:+ "/") = true
       /\ Py.endswith key "/" = false.
Proof.
  split; [reflexivity|].
  apply (listed_files_prefix "cell_cell_communication_ligand_target" "mouse_brain"
           communication_world
           (snd (list_datasets "cell_cell_communication_ligand_target"
                   (Some "mouse_brain") communication_world))
           [mouse_brain_record]).
  - reflexivity.
  - apply list_elem_of_here.
Defined.

(** For a task outside [TASK_TO_S3_PATH] the prefix is the one the spec
    names. *)
Lemma get_s3_task_path_plain (task : string) :
  task <> "cell_cell_communication_source_target" ->
  task <> "cell_cell_communication_ligand_target" ->
  get_s3_task_path task = task.
Proof.
  intros H1 H2. unfold get_s3_task_path, TASK_TO_S3_PATH.
  cbv [find fst snd].
  rewrite (proj2 (String.eqb_neq _ _)) by congruence.
  rewrite (proj2 (String.eqb_neq _ _)) by congruence.
  reflexivity.
Qed.

(** C6, as stated, fails for the tasks whose bucket path differs from
    their name: the returned key does not start with
    [resources/<task>/datasets/<dataset_name>/]. *)
Lemma listed_files_prefix_not_task_name :
  fst (list_datasets "cell_cell_communication_source_target" (Some "mouse_brain")
         communication_world) = Ret [mouse_brain_record]
  /\ e_key mouse_brain_record
     = Some "resources/cell_cell_communication/datasets/mouse_brain/train.h5ad"
  /\ Py.startswith "resources/cell_cell_communication/datasets/mouse_brain/train.h5ad"
       ("resources/" +:+ "cell_cell_communication_source_target" +:+ "/datasets/"
          +:+ "mouse_brain" +:+ "/") = false.
Proof.
  vm_compute. repeat split.
Qed.

(** ** Transfer backends: the checksum gate of the accelerated backend *)

Lemma lower_hex_char (c : ascii) :
  Py.char_in (Py.lower_char c) "0123456789abcdef"
  = Py.char_in c "0123456789abcdefABCDEF".
Proof.
  destruct c as [[] [] [] [] [] [] [] []]; vm_compute; reflexivity.
Qed.

Lemma all_chars_lower (s : string) :
  Py.all_chars (fun c => Py.char_in c "0123456789abcdef") (Py.lower s)
  = Py.all_chars (fun c => Py.char_in c "0123456789abcdefABCDEF") s.
Proof.
  unfold Py.all_chars, Py.lower.
  induction s as [|c s IH]; [reflexivity|].
  cbn [Py.map_chars list_ascii_of_string forallb].
  by rewrite IH, lower_hex_char.
Qed.

Lemma is_valid_md5_hex32 (s : string) : is_valid_md5 s = hex32_any_case s.
Proof.
  unfold is_valid_md5, hex32_any_case, Py.len.
  rewrite all_chars_lower.
  destruct s as [|c s]; [reflexivity|].
  cbn [Py.truthy_str andb]. f_equal.
  destruct (Nat.eqb_spec (String.length (String c s)) 32) as [->|Hne].
  - reflexivity.
  - apply Z.eqb_neq. lia.
Qed.

Lemma aria2_cmd_invalid (url : string) (p : path) (md5 : string) :
  is_valid_md5 md5 = false ->
  aria2_cmd url p md5 = aria2_options ++ aria2_target url p.
Proof. unfold aria2_cmd. by intros ->. Qed.

(** What the accelerated backend returns, in terms of the downloader's
    exit and the tree it leaves. *)
Lemma fetch_file_aria2_run (url : string) (p : path) (md5 : string) (size : Z)
    (w : World) (code : Z) (f' : gmap path node) :
  aria2_installed w = true ->
  aria2c w (aria2_cmd url p md5) (fs w) = (Ret code, f') ->
  fst (fetch_file_aria2 url p md5 size w)
  = Ret (if code =? 0
         then match f' !! p with
              | Some n => node_size n =? size
              | None => false
              end
         else false).
Proof.
  intros Hi Hrun.
  unfold fetch_file_aria2, bind, check_aria2, try_except, subprocess_run.
  rewrite Hi. cbn [negb]. rewrite Hrun.
  destruct (code =? 0); [|reflexivity].
  unfold stat_size. cbn [fs set_fs set_log].
  destruct (f' !! p) as [[data|sz]|]; cbn [node_size];
    try (destruct (_ =? size); reflexivity); reflexivity.
Qed.

(** ** Transfer backends: the fallback *)

Lemma set_fs_id (w : World) (f : gmap path node) : f = fs w -> set_fs f w = w.
Proof. intros ->. by destruct w. Qed.

(** The write loop appends every chunk to the open file. *)
Lemma write_chunks (p : path) (chunks : list (list byte)) :
  forall (w : World) (data : list byte),
    fs w !! p = Some (File data) ->
    for_each chunks (write_body p) w
    = (Ret tt, set_fs (<[p := File (data ++ mjoin chunks)]> (fs w)) w).
Proof.
  induction chunks as [|c chunks IH]; intros w data Hp.
  - cbn [for_each mjoin list_join]. unfold ret. rewrite app_nil_r.
    rewrite set_fs_id; [reflexivity|]. by rewrite insert_id.
  - cbn [for_each mjoin list_join]. unfold bind at 1. destruct c as [|b c].
    + cbn [write_body]. unfold ret at 1. by apply IH.
    + cbn [write_body]. unfold write_chunk at 1. rewrite Hp.
      erewrite IH; [|wsimpl; apply lookup_insert_eq].
      wsimpl. rewrite insert_insert_eq, <- app_assoc. reflexivity.
Qed.

(** The fallback on a stream that completes: the answer is the outcome of
    the two checks, and in every case the written file stays on disk. *)
Lemma fetch_file_fallback_completed (url : string) (p : path) (md5 : string)
    (size : Z) (w : World) (cl : option Z) (chunks : list (list byte)) :
  s3_get w url = GetStream cl chunks None ->
  (forall sz, fs w !! p <> Some (Dir sz)) ->
  is_dir (fs w) (path_parent p) = true ->
  exists w',
    fetch_file_fallback url p md5 size w
    = (Ret ((Z.of_nat (length (mjoin chunks)) =? size)
            && String.eqb (MD5.hexdigest (mjoin chunks)) md5), w')
    /\ fs w' = <[p := File (mjoin chunks)]> (fs w)
    /\ log w' = log w ++ [EvHttpGet url].
Proof.
  intros Hget Hnd Hpar.
  unfold fetch_file_fallback, try_except.
  unfold bind at 1. unfold requests_get_stream. rewrite Hget.
  unfold bind at 1. unfold open_wb. cbn [fs set_log].
  destruct (fs w !! p) as [[data|sz]|] eqn:Hp; [|by destruct (Hnd sz)|];
    rewrite Hpar;
    (unfold bind at 1; fold (write_body p);
     erewrite (write_chunks p chunks _ []);
       [|wsimpl; apply lookup_insert_eq];
     wsimpl; cbn [app]; rewrite insert_insert_eq;
     unfold bind at 1; unfold ret at 1;
     unfold bind at 1; unfold stat_size; wsimpl;
     rewrite lookup_insert_eq;
     destruct (Z.of_nat (length (mjoin chunks)) =? size); cbn [negb andb];
     [ unfold bind, calculate_md5; wsimpl; rewrite lookup_insert_eq;
       destruct (String.eqb _ md5); cbn [negb]
     | ];
     eexists; (split; [reflexivity|]); wsimpl; auto).
Qed.

(** The sibling path: when the stream breaks, the handler removes the
    incomplete file. *)
Lemma fetch_file_fallback_broken (url : string) (p : path) (md5 : string)
    (size : Z) (w : World) (cl : option Z) (chunks : list (list byte)) (e : exn) :
  s3_get w url = GetStream cl chunks (Some e) ->
  (forall sz, fs w !! p <> Some (Dir sz)) ->
  is_dir (fs w) (path_parent p) = true ->
  exists w',
    fetch_file_fallback url p md5 size w = (Ret false, w')
    /\ fs w' !! p = None.
Proof.
  intros Hget Hnd Hpar.
  unfold fetch_file_fallback, try_except.
  unfold bind at 1. unfold requests_get_stream. rewrite Hget.
  unfold bind at 1. unfold open_wb. cbn [fs set_log].
  destruct (fs w !! p) as [[data|sz]|] eqn:Hp; [|by destruct (Hnd sz)|];
    rewrite Hpar;
    (unfold bind at 1; fold (write_body p);
     erewrite (write_chunks p chunks _ []);
       [|wsimpl; apply lookup_insert_eq];
     wsimpl; cbn [app]; rewrite insert_insert_eq;
     unfold bind at 1; unfold raise at 1;
     unfold bind at 1; unfold path_exists; wsimpl;
     rewrite bool_decide_true by (right; rewrite lookup_insert_eq; eauto);
     unfold bind, unlink; wsimpl; rewrite lookup_insert_eq;
     eexists; (split; [reflexivity|]); wsimpl;
     apply lookup_delete_eq).
Qed.

(** *** The digest is always 32 lowercase hex characters *)

Lemma le_bytes_length (n : nat) (x : Z) : length (MD5.le_bytes n x) = n.
Proof. unfold MD5.le_bytes. by rewrite length_map, length_seq. Qed.

Lemma le_bytes_range (n : nat) (x : Z) :
  Forall (fun b => 0 <= b < 256) (MD5.le_bytes n x).
Proof.
  unfold MD5.le_bytes. apply Forall_forall. intros b Hb.
  apply list_elem_of_fmap in Hb as (i & -> & _).
  change 255 with (Z.ones 8). rewrite Z.land_ones by lia.
  apply Z.mod_pos_bound. lia.
Qed.

Lemma hex_digit_lower (v : Z) :
  0 <= v < 16 -> Py.char_in (MD5.hex_digit v) "0123456789abcdef" = true.
Proof.
  intros H.
  assert (E : v = 0 \/ v = 1 \/ v = 2 \/ v = 3 \/ v = 4 \/ v = 5 \/ v = 6
              \/ v = 7 \/ v = 8 \/ v = 9 \/ v = 10 \/ v = 11 \/ v = 12
              \/ v = 13 \/ v = 14 \/ v = 15) by lia.
  repeat (destruct E as [->|E]; [reflexivity|]). by subst.
Qed.

Lemma hex_lower (bs : list Z) :
  Forall (fun b => 0 <= b < 256) bs ->
  String.length (MD5.hex bs) = (2 * length bs)%nat
  /\ Py.all_chars (fun c => Py.char_in c "0123456789abcdef") (MD5.hex bs) = true.
Proof.
  unfold Py.all_chars.
  induction 1 as [|b bs Hb _ [IHl IHc]]; [by split|].
  cbn [MD5.hex String.length length list_ascii_of_string forallb].
  split; [lia|].
  rewrite IHc, !hex_digit_lower; [reflexivity| |].
  - apply Z.mod_pos_bound. lia.
  - split; [apply Z.div_pos; lia|apply Z.div_lt_upper_bound; lia].
Qed.

Lemma hexdigest_simple (data : list byte) :
  simple_checksum (MD5.hexdigest data) = true.
Proof.
  unfold MD5.hexdigest, MD5.digest, simple_checksum.
  set (st := MD5.blocks _ _ _).
  destruct (hex_lower (MD5.le_bytes 4 (MD5.sa st) ++ MD5.le_bytes 4 (MD5.sb st)
                       ++ MD5.le_bytes 4 (MD5.sc st) ++ MD5.le_bytes 4 (MD5.sd st)))
    as [Hl Hc].
  { repeat (apply Forall_app; split); apply le_bytes_range. }
  rewrite Hc, Hl, !length_app, !le_bytes_length. reflexivity.
Qed.

(** The fallback answers true only after comparing the file's digest with
    the checksum and finding them equal. *)
Lemma fetch_file_fallback_true (url : string) (p : path) (md5 : string)
    (size : Z) (w : World) :
  fst (fetch_file_fallback url p md5 size w) = Ret true ->
  exists data, MD5.hexdigest data = md5.
Proof.
  unfold fetch_file_fallback, try_except.
  match goal with
  | |- context [match ?body w with _ => _ end] =>
      destruct (body w) as [[b|e] w1] eqn:Hbody
  end.
  - cbn [fst]. intros [= ->]. revert Hbody.
    unfold bind at 1.
    destruct (requests_get_stream url w) as [[[[cl chunks] fault]|e] w2];
      [|discriminate].
    unfold bind at 1. destruct (open_wb p w2) as [[[]|e] w3]; [|discriminate].
    unfold bind at 1.
    destruct (for_each chunks (write_body p) w3) as [[[]|e] w4]; [|discriminate].
    unfold bind at 1.
    destruct fault as [e|]; [discriminate|]. unfold ret at 1.
    unfold bind at 1. destruct (stat_size p w4) as [[sz|e] w5]; [|discriminate].
    destruct (negb (sz =? size)); [discriminate|].
    unfold bind, calculate_md5.
    destruct (fs w5 !! p) as [[data|dsz]|]; try discriminate.
    destruct (String.eqb_spec (MD5.hexdigest data) md5) as [E|_];
      [|discriminate].
    intros _. eauto.
  - cbn [fst]. unfold bind at 1. unfold path_exists.
    destruct (bool_decide _).
    + unfold bind, unlink, ret. destruct (fs w1 !! p) as [[|]|]; discriminate.
    + unfold bind, ret. discriminate.
Qed.

(** Hence a checksum that is not 32 lowercase hex characters makes the
    fallback fail whatever is transferred. *)
Lemma fetch_file_fallback_ungated (url : string) (p : path) (md5 : string)
    (size : Z) (w : World) :
  simple_checksum md5 = false ->
  fst (fetch_file_fallback url p md5 size w) <> Ret true.
Proof.
  intros Hbad Htrue.
  apply fetch_file_fallback_true in Htrue as [data <-].
  by rewrite hexdigest_simple in Hbad.
Qed.

(** C1, as amended.  In the accelerated backend the checksum is handed to
    the downloader exactly when it is 32 hex digits of either case; any
    other checksum (composite token, empty) leaves the command line
    without a checksum option, plays no part in the result, and the call
    returns true whenever the downloader exits 0 and leaves the file at
    the expected size.  A checksum of exactly 32 lowercase hex characters
    is verified by both backends: it is on the downloader's command line,
    and the fallback, once the stream is complete and the size is right,
    answers whether the MD5 of the file equals it. *)
Theorem checksum_gate
    (url : string) (p : path) (md5 : string) (size : Z) (w : World) :
  (aria2_cmd url p md5
   = aria2_options
       ++ (if hex32_any_case md5 then ["--checksum=md5=" +:+ md5] else [])
       ++ aria2_target url p)
  /\ (hex32_any_case md5 = false ->
      fetch_file_aria2 url p md5 size w = fetch_file_aria2 url p "" size w
      /\ forall (f' : gmap path node) (n : node),
           aria2_installed w = true ->
           aria2c w (aria2_options ++ aria2_target url p) (fs w) = (Ret 0, f') ->
           f' !! p = Some n -> node_size n = size ->
           fst (fetch_file_aria2 url p md5 size w) = Ret true)
  /\ (simple_checksum md5 = true ->
      hex32_any_case md5 = true
      /\ forall (cl : option Z) (chunks : list (list byte)),
           s3_get w url = GetStream cl chunks None ->
           (forall sz, fs w !! p <> Some (Dir sz)) ->
           is_dir (fs w) (path_parent p) = true ->
           Z.of_nat (length (mjoin chunks)) = size ->
           fst (fetch_file_fallback url p md5 size w)
           = Ret (String.eqb (MD5.hexdigest (mjoin chunks)) md5)).
Proof.
  split; [|split].
  - unfold aria2_cmd. by rewrite is_valid_md5_hex32.
  - intros Hbad. rewrite <- is_valid_md5_hex32 in Hbad. split.
    + unfold fetch_file_aria2.
      rewrite (aria2_cmd_invalid _ _ _ Hbad).
      by rewrite (aria2_cmd_invalid url p "").
    + intros f' n Hi Hrun Hn Hsz.
      rewrite <- (aria2_cmd_invalid url p md5 Hbad) in Hrun.
      rewrite (fetch_file_aria2_run _ _ _ _ _ _ _ Hi Hrun), Hn.
      cbn [Z.eqb]. by rewrite (proj2 (Z.eqb_eq _ _) Hsz).
  - intros Hs. split.
    + unfold simple_checksum, hex32_any_case in *.
      apply andb_true_iff in Hs as [Hl Hc]. rewrite Hl. cbn [andb].
      unfold Py.all_chars in *. rewrite forallb_forall in *.
      intros c Hin. specialize (Hc c Hin).
      unfold Py.char_in in *. rewrite existsb_exists in *.
      destruct Hc as (x & Hx & Hcx). exists x. split; [|done].
      change (list_ascii_of_string "0123456789abcdefABCDEF")
        with (list_ascii_of_string "0123456789abcdef"
              ++ list_ascii_of_string "ABCDEF").
      apply in_or_app. by left.
    + intros cl chunks Hget Hnd Hpar Hsz.
      destruct (fetch_file_fallback_completed url p md5 size w cl chunks
                  Hget Hnd Hpar) as (w' & -> & _).
      cbn [fst]. by rewrite (proj2 (Z.eqb_eq _ _) Hsz).
Qed.

Lemma checksum_gate_witness :
  (hex32_any_case "abc123-2" = false
   /\ fst (fetch_file_aria2 abc_url abc_path "abc123-2" 3 aria2_world) = Ret true)
  /\ (simple_checksum "900150983cd24fb0d6963f7d28e17f72" = true
      /\ fst (fetch_file_fallback abc_url abc_path
                "900150983cd24fb0d6963f7d28e17f72" 3 abc_world) = Ret true).
Proof.
  split; split.
  - reflexivity.
  - eapply (proj1 (proj2 (checksum_gate abc_url abc_path "abc123-2" 3 aria2_world))
              eq_refl);
      [reflexivity | reflexivity | apply lookup_insert_eq | reflexivity].
  - reflexivity.
  - rewrite (proj2 (proj2 (proj2 (checksum_gate abc_url abc_path
               "900150983cd24fb0d6963f7d28e17f72" 3 abc_world)) eq_refl)
               (Some 3) [bytes_of_string "abc"]).
    + vm_compute. reflexivity.
    + reflexivity.
    + intros sz. vm_compute. discriminate.
    + reflexivity.
    + reflexivity.
Defined.

(** C1, as stated, fails twice over.  A checksum of 32 upper-case hex
    digits is not 32 lowercase hex characters, yet the accelerated backend
    puts it on the command line for verification.  And in the fallback a
    composite token by itself makes the call fail: the same complete,
    right-sized transfer that succeeds with the file's MD5 returns false
    with ["abc123-2"]. *)
Lemma checksum_gate_counterexample :
  simple_checksum "D41D8CD98F00B204E9800998ECF8427E" = false
  /\ In "--checksum=md5=D41D8CD98F00B204E9800998ECF8427E"
        (aria2_cmd abc_url abc_path "D41D8CD98F00B204E9800998ECF8427E")
  /\ simple_checksum "abc123-2" = false
  /\ fst (fetch_file_fallback abc_url abc_path
            "900150983cd24fb0d6963f7d28e17f72" 3 abc_world) = Ret true
  /\ fst (fetch_file_fallback abc_url abc_path "abc123-2" 3 abc_world) = Ret false.
Proof.
  repeat split; try (vm_compute; reflexivity).
  vm_compute. tauto.
Qed.

(** C2: the code at the failing inputs.  The stream completes; the size
    check (expected 5, got 3) or the hash check fails; the call returns
    false and the written file is still there. *)
Theorem fallback_mismatch_keeps_file :
  (fst (fetch_file_fallback abc_url abc_path
          "900150983cd24fb0d6963f7d28e17f72" 5 abc_world) = Ret false
   /\ fs (snd (fetch_file_fallback abc_url abc_path
                 "900150983cd24fb0d6963f7d28e17f72" 5 abc_world)) !! abc_path
      = Some (File (bytes_of_string "abc")))
  /\ (fst (fetch_file_fallback abc_url abc_path
             "00000000000000000000000000000000" 3 abc_world) = Ret false
      /\ fs (snd (fetch_file_fallback abc_url abc_path
                    "00000000000000000000000000000000" 3 abc_world)) !! abc_path
         = Some (File (bytes_of_string "abc")))
  /\ (fst (fetch_file_fallback abc_url abc_path
             "900150983cd24fb0d6963f7d28e17f72" 3 broken_world) = Ret false
      /\ fs (snd (fetch_file_fallback abc_url abc_path
                    "900150983cd24fb0d6963f7d28e17f72" 3 broken_world)) !! abc_path
         = None).
Proof.
  repeat split; vm_compute; reflexivity.
Qed.

(** ** Frame properties: what each function can touch *)

Lemma reads_ret {A} (a : A) : reads (ret a).
Proof. by intros w. Qed.

Lemma reads_raise {A} (e : exn) : reads (@raise A e).
Proof. by intros w. Qed.

Lemma reads_bind {A B} (m : M A) (k : A -> M B) :
  reads m -> (forall a, reads (k a)) -> reads (bind m k).
Proof.
  intros Hm Hk w. unfold bind. specialize (Hm w).
  destruct (m w) as [[a|e] w1]; simpl in Hm; subst w1; [apply Hk|reflexivity].
Qed.

Lemma reads_getitem {A} (k : string) (v : option A) : reads (getitem k v).
Proof. destruct v; [apply reads_ret|apply reads_raise]. Qed.

Lemma reads_for_fold {A S} (l : list A) (body : S -> A -> M S) :
  (forall acc x, reads (body acc x)) -> forall acc, reads (for_fold l acc body).
Proof.
  intros Hb. induction l as [|x l IH]; intros acc; cbn [for_fold].
  - apply reads_ret.
  - apply reads_bind; auto.
Qed.

Lemma reads_path_exists (p : path) : reads (path_exists p).
Proof. by intros w. Qed.

Lemma reads_stat_size (p : path) : reads (stat_size p).
Proof. intros w. unfold stat_size. by destruct (fs w !! p) as [[]|]. Qed.

Lemma reads_check_aria2 : reads check_aria2.
Proof. by intros w. Qed.

Lemma reads_sum_field (k : string) (proj : entry -> option Z) (l : list entry) :
  reads (sum_field k proj l).
Proof.
  apply reads_for_fold. intros acc d.
  apply reads_bind; [apply reads_getitem|intros; apply reads_ret].
Qed.

Lemma reads_scan_missing (dir : path) (files : list entry) :
  reads (scan_missing dir files).
Proof.
  apply reads_for_fold. intros acc d.
  apply reads_bind; [apply reads_getitem|intros name].
  apply reads_bind; [apply reads_path_exists|intros ex].
  destruct ex; cbn [negb]; [apply reads_ret|].
  apply reads_bind; [apply reads_getitem|intros; apply reads_ret].
Qed.

Lemma reads_find_file (files : list entry) (filename : string) :
  reads (find_file files filename).
Proof.
  induction files as [|f files IH]; cbn [find_file]; [apply reads_ret|].
  apply reads_bind; [apply reads_getitem|intros name].
  destruct (String.eqb name filename); [apply reads_ret|apply IH].
Qed.

Lemma quiet_refl (w : World) : quiet w w.
Proof.
  repeat split. exists []. by rewrite app_nil_r.
Qed.

Lemma quiet_trans (w1 w2 w3 : World) : quiet w1 w2 -> quiet w2 w3 -> quiet w1 w3.
Proof.
  intros (Hf & Hs & evs & Hl & He) (Hf' & Hs' & evs' & Hl' & He').
  repeat split; [congruence|congruence|].
  exists (evs ++ evs'). split.
  - by rewrite Hl', Hl, app_assoc.
  - rewrite forallb_app. by rewrite He, He'.
Qed.

Lemma filter_listing_only (p : event -> bool) (evs : list event) :
  (forall e, is_listing e = true -> p e = false) ->
  forallb is_listing evs = true -> List.filter p evs = [].
Proof.
  intros Hp. induction evs as [|e evs IH]; [reflexivity|].
  cbn [forallb List.filter]. intros [He Hr]%andb_true_iff.
  by rewrite (Hp e He), IH.
Qed.

Lemma quiet_transfers (w w' : World) :
  quiet w w' -> transfers (log w') = transfers (log w).
Proof.
  intros (_ & _ & evs & -> & He). unfold transfers.
  rewrite List.filter_app, (filter_listing_only is_transfer evs), app_nil_r; auto.
  by intros [].
Qed.

Lemma quiet_inputs (w w' : World) :
  quiet w w' -> inputs (log w') = inputs (log w).
Proof.
  intros (_ & _ & evs & -> & He). unfold inputs.
  rewrite List.filter_app, (filter_listing_only is_input evs), app_nil_r; auto.
  by intros [].
Qed.

Lemma quiet_reads {A} (m : M A) : reads m -> quiet_m m.
Proof. intros H w. rewrite H. apply quiet_refl. Qed.

Lemma quiet_bind {A B} (m : M A) (k : A -> M B) :
  quiet_m m -> (forall a, quiet_m (k a)) -> quiet_m (bind m k).
Proof.
  intros Hm Hk w. unfold bind. specialize (Hm w).
  destruct (m w) as [[a|e] w1]; cbn [snd] in *; [|done].
  eapply quiet_trans; [exact Hm|apply Hk].
Qed.

Lemma quiet_try {A} (m : M A) (h : exn -> M A) :
  quiet_m m -> (forall e, quiet_m (h e)) -> quiet_m (try_except m h).
Proof.
  intros Hm Hh w. unfold try_except. specialize (Hm w).
  destruct (m w) as [[a|e] w1]; cbn [snd] in *; [done|].
  eapply quiet_trans; [exact Hm|apply Hh].
Qed.

Lemma quiet_set_tick (n : nat) (w : World) : quiet w (set_tick n w).
Proof. repeat split. exists []. wsimpl. by rewrite app_nil_r. Qed.

Lemma quiet_set_cache (c : gmap path blob) (w : World) : quiet w (set_cache c w).
Proof. repeat split. exists []. wsimpl. by rewrite app_nil_r. Qed.

Lemma quiet_time_time : quiet_m time_time.
Proof. intros w. apply quiet_set_tick. Qed.

Lemma quiet_load_cache (p : path) : quiet_m (load_cache p).
Proof.
  intros w. unfold load_cache.
  destruct (cache w !! p) as [b|]; [|apply quiet_refl].
  apply quiet_try; [|intros; apply quiet_reads, reads_ret].
  apply quiet_bind.
  - destruct b; apply quiet_reads; [apply reads_raise|apply reads_ret].
  - intros data. apply quiet_bind; [apply quiet_time_time|].
    intros now. destruct (PrimFloat.ltb _ _); apply quiet_reads, reads_ret.
Qed.

Lemma quiet_save_cache (p : path) (l : list entry) : quiet_m (save_cache p l).
Proof.
  apply quiet_try; [|intros; apply quiet_reads, reads_ret].
  apply quiet_bind; [apply quiet_time_time|].
  intros now w. unfold json_dump.
  destruct (cache_is_dir w p); [apply quiet_refl|].
  destruct (negb _); [apply quiet_refl|].
  destruct (cache_readonly w); [apply quiet_refl|apply quiet_set_cache].
Qed.

Lemma quiet_set_cache_dirs (d : list path) (w : World) :
  quiet w (set_cache_dirs d w).
Proof. repeat split. exists []. wsimpl. by rewrite app_nil_r. Qed.

Lemma quiet_get_cache_path (task : string) (dataset_name : option string) :
  quiet_m (get_cache_path task dataset_name).
Proof.
  intros w.
  destruct (get_cache_path_cases task dataset_name w) as [[d ->]|[e ->]].
  - apply quiet_set_cache_dirs.
  - apply quiet_refl.
Qed.

Lemma quiet_request_listing (prefix : string) : quiet_m (request_listing prefix).
Proof.
  intros w. unfold request_listing. repeat split.
  exists [EvList prefix]. by wsimpl.
Qed.

Lemma quiet_list_datasets (task : string) (dataset_name : option string) :
  quiet_m (list_datasets task dataset_name).
Proof.
  unfold list_datasets. destruct dataset_name as [dn|].
  - apply quiet_bind; [apply quiet_request_listing|].
    intros contents. apply quiet_reads, reads_ret.
  - apply quiet_bind; [apply quiet_get_cache_path|]. intros cache_path.
    apply quiet_bind; [apply quiet_load_cache|].
    assert (Hfetch :
      quiet_m (contents <- request_listing (task_prefix (get_s3_task_path task)) ;;
               save_cache cache_path
                 (summaries_of (aggregate (task_prefix (get_s3_task_path task))
                                  contents)) ;;;
               ret (summaries_of (aggregate (task_prefix (get_s3_task_path task))
                                    contents)))).
    { apply quiet_bind; [apply quiet_request_listing|]. intros contents.
      apply quiet_bind; [apply quiet_save_cache|].
      intros; apply quiet_reads, reads_ret. }
    intros [[|d l]|]; try apply Hfetch.
    apply quiet_reads, reads_ret.
Qed.

Lemma quiet_cached_file_list (task dataset_name : string) :
  quiet_m (cached_file_list task dataset_name).
Proof.
  unfold cached_file_list.
  apply quiet_bind; [apply quiet_get_cache_path|]. intros cache_path.
  apply quiet_bind; [apply quiet_load_cache|].
  intros [l|]; [apply quiet_reads, reads_ret|].
  apply quiet_bind; [apply quiet_list_datasets|]. intros l.
  apply quiet_bind; [apply quiet_save_cache|].
  intros; apply quiet_reads, reads_ret.
Qed.

(** ** Empty listings *)

(** C9.  An empty dataset listing makes [fetch_task] return false with the
    terminal untouched (no line read, no input event); an empty file
    listing makes [fetch_entire_dataset] return false, whether or not
    confirmation is skipped. *)
Theorem empty_listings_fail
    (task dataset_name : string) (skip : bool) (max_workers : Z) (w : World) :
  (forall w1,
      list_datasets task None w = (Ret [], w1) ->
      fetch_task task max_workers w = (Ret false, w1)
      /\ stdin w1 = stdin w /\ inputs (log w1) = inputs (log w))
  /\ (forall w1,
        cached_file_list task dataset_name w = (Ret [], w1) ->
        fetch_entire_dataset task dataset_name skip max_workers w = (Ret false, w1)).
Proof.
  split; intros w1 H.
  - split.
    + unfold fetch_task. by rewrite (bind_ret_run _ _ _ _ _ H).
    + pose proof (quiet_list_datasets task None w) as Hq.
      rewrite H in Hq. cbn [snd] in Hq. split.
      * apply Hq.
      * by apply quiet_inputs.
  - unfold fetch_entire_dataset. by rewrite (bind_ret_run _ _ _ _ _ H).
Qed.

Lemma empty_listings_fail_witness :
  (fst (list_datasets "denoising" None (quiet_world 0%float)) = Ret []
   /\ fst (fetch_task "denoising" 8 (quiet_world 0%float)) = Ret false)
  /\ (fst (cached_file_list "denoising" "pancreas" (quiet_world 0%float)) = Ret []
      /\ fst (fetch_entire_dataset "denoising" "pancreas" false 8 (quiet_world 0%float))
         = Ret false).
Proof.
  split; (split; [reflexivity|]).
  - rewrite (proj1 (proj1 (empty_listings_fail "denoising" "pancreas" false 8
                             (quiet_world 0%float))
                      (snd (list_datasets "denoising" None (quiet_world 0%float)))
                      eq_refl)).
    reflexivity.
  - rewrite (proj2 (empty_listings_fail "denoising" "pancreas" false 8
                      (quiet_world 0%float))
               (snd (cached_file_list "denoising" "pancreas" (quiet_world 0%float)))
               eq_refl).
    reflexivity.
Defined.

(** ** Single-file fetch *)

Lemma find_file_find (files : list entry) (filename : string) (w : World) :
  Forall (fun f => is_Some (e_name f)) files ->
  find_file files filename w = (Ret (find (named filename) files), w).
Proof.
  induction 1 as [|f files [n Hn] _ IH]; [reflexivity|].
  cbn [find_file find]. unfold named at 1. rewrite Hn. cbn [getitem].
  unfold bind, ret. destruct (String.eqb n filename); [reflexivity|apply IH].
Qed.

Lemma files_of_named (prefix : string) (contents : list s3_object) :
  Forall (fun f => is_Some (e_name f)) (files_of prefix contents).
Proof.
  apply Forall_forall. intros f Hf.
  apply list_elem_of_omap in Hf as (o & _ & Ho).
  apply file_of_spec in Ho as (key & _ & _ & Hn & _). by rewrite Hn.
Qed.

Lemma list_datasets_named (task dataset_name : string) (w w1 : World)
    (files : list entry) :
  list_datasets task (Some dataset_name) w = (Ret files, w1) ->
  Forall (fun f => is_Some (e_name f)) files.
Proof.
  rewrite list_datasets_files.
  destruct (s3_list w _) as [contents|e]; [|discriminate].
  intros [= <- _]. apply files_of_named.
Qed.

(** C8, as amended.  [fetch_single_file] looks the file up by exact name
    in the dataset's file listing and takes the first record with that
    name; when no record has it, the call returns [False] (a boolean, not
    an exception), having touched neither the tree nor the network beyond
    the listing request. *)
Theorem single_file_lookup
    (task dataset_name filename : string) (w w1 : World) (files : list entry) :
  list_datasets task (Some dataset_name) w = (Ret files, w1) ->
  find_file files filename w1 = (Ret (find (named filename) files), w1)
  /\ (find (named filename) files = None ->
      fetch_single_file task dataset_name filename w = (Ret false, w1)
      /\ fs w1 = fs w /\ transfers (log w1) = transfers (log w)).
Proof.
  intros H.
  pose proof (find_file_find files filename w1
                (list_datasets_named _ _ _ _ _ H)) as Hfind.
  split; [exact Hfind|]. intros Hnone. split.
  - unfold fetch_single_file.
    rewrite (bind_ret_run _ _ _ _ _ H), (bind_ret_run _ _ _ _ _ Hfind).
    by rewrite Hnone.
  - pose proof (quiet_list_datasets task (Some dataset_name) w) as Hq.
    rewrite H in Hq. cbn [snd] in Hq. split; [apply Hq|by apply quiet_transfers].
Qed.

Lemma single_file_lookup_witness :
  fst (list_datasets "denoising" (Some "pancreas") pancreas_remote)
  = Ret pancreas_files
  /\ find (named "missing.h5ad") pancreas_files = None
  /\ fst (fetch_single_file "denoising" "pancreas" "missing.h5ad" pancreas_remote)
     = Ret false.
Proof.
  split; [reflexivity|]. split; [reflexivity|].
  rewrite (proj1 (proj2 (single_file_lookup "denoising" "pancreas" "missing.h5ad"
                           pancreas_remote
                           (snd (list_datasets "denoising" (Some "pancreas")
                                   pancreas_remote))
                           pancreas_files eq_refl)
                    eq_refl)).
  reflexivity.
Defined.

(** C8, as stated, fails: for a name that is not in the listing the call
    returns the boolean [False]; nothing is raised. *)
Lemma single_file_absent_is_boolean :
  fst (fetch_single_file "denoising" "pancreas" "missing.h5ad" pancreas_remote)
  = Ret false
  /\ forall e : exn,
       fst (fetch_single_file "denoising" "pancreas" "missing.h5ad" pancreas_remote)
       <> Raise e.
Proof.
  split; [reflexivity|]. intros e. vm_compute. discriminate.
Qed.

(** ** Files already on disk *)

Lemma sum_field_total (k : string) (proj : entry -> option Z) (l : list entry)
    (w : World) :
  Forall (fun f => is_Some (proj f)) l ->
  sum_field k proj l w = (Ret (Zsum (map (fun f => default 0 (proj f)) l)), w).
Proof.
  unfold sum_field. intros H.
  assert (G : forall acc,
    for_fold l acc (fun acc d => v <- getitem k (proj d) ;; ret (acc + v)) w
    = (Ret (acc + Zsum (map (fun f => default 0 (proj f)) l)), w)).
  { induction H as [|f l [v Hv] _ IH]; intros acc; cbn [for_fold map Zsum foldr].
    - unfold ret. by rewrite Z.add_0_r.
    - rewrite Hv. cbn [getitem default]. unfold bind at 1 2. unfold ret at 1 2.
      rewrite IH. unfold Zsum. by rewrite Z.add_assoc. }
  apply G.
Qed.

Lemma path_exists_present (p : path) (w : World) :
  is_Some (fs w !! p) -> path_exists p w = (Ret true, w).
Proof.
  intros H. unfold path_exists. rewrite bool_decide_true; auto.
Qed.

(** Nothing is missing when every listed name exists under the directory,
    whatever the sizes on disk. *)
Lemma scan_missing_none (dir : path) (files : list entry) (w : World) :
  Forall (present (fs w) dir) files ->
  scan_missing dir files w = (Ret 0, w).
Proof.
  unfold scan_missing. generalize 0.
  induction 1 as [|f files (name & size & Hn & Hs & Hex) _ IH];
    [reflexivity|].
  cbn [for_fold]. rewrite Hn. cbn [getitem].
  unfold bind at 1 2. unfold ret at 1.
  rewrite (bind_ret_run _ _ _ _ _ (path_exists_present _ _ Hex)).
  cbn [negb]. unfold ret at 1. apply IH.
Qed.

Lemma present_fields (f0 : gmap path node) (dir : path) (files : list entry) :
  Forall (present f0 dir) files ->
  Forall (fun f => is_Some (e_size f)) files.
Proof.
  intros H. eapply Forall_impl; [exact H|].
  intros f (name & size & _ & Hs & _). by rewrite Hs.
Qed.

(** The present-file short circuit of the confirming path. *)
Lemma fetch_entire_dataset_short_circuit
    (task dataset_name : string) (max_workers : Z) (w w1 : World)
    (files : list entry) :
  cached_file_list task dataset_name w = (Ret files, w1) ->
  files <> [] ->
  is_Some (fs w !! dataset_dir_of dataset_name) ->
  Forall (present (fs w) (dataset_dir_of dataset_name)) files ->
  fetch_entire_dataset task dataset_name false max_workers w = (Ret true, w1)
  /\ quiet w w1.
Proof.
  intros Hl Hne Hdir Hall.
  pose proof (quiet_cached_file_list task dataset_name w) as Hq.
  rewrite Hl in Hq. cbn [snd] in Hq.
  split; [|exact Hq].
  destruct Hq as (Hfs & _). rewrite <- Hfs in Hdir, Hall.
  unfold fetch_entire_dataset.
  rewrite (bind_ret_run _ _ _ _ _ Hl).
  destruct files as [|f0 files']; [done|]. cbn [Py.truthy_list negb].
  rewrite (bind_ret_run _ _ _ _ _
             (sum_field_total "size" e_size _ w1 (present_fields _ _ _ Hall))).
  fold (dataset_dir_of dataset_name).
  rewrite (bind_ret_run _ _ _ _ _ (path_exists_present _ _ Hdir)).
  rewrite (bind_ret_run _ _ _ _ _ (scan_missing_none _ _ _ Hall)).
  reflexivity.
Qed.

(** C10.  In the confirming path, when the dataset directory exists and
    every listed file name exists in it, whatever the sizes on disk, the
    call returns true at once: nothing is transferred, nothing is read
    from the terminal, the tree is unchanged.  (The listing is not empty;
    an empty one returns false, as shown for C9.) *)
Theorem existing_files_short_circuit
    (task dataset_name : string) (max_workers : Z) (w w1 : World)
    (files : list entry) :
  cached_file_list task dataset_name w = (Ret files, w1) ->
  files <> [] ->
  is_Some (fs w !! dataset_dir_of dataset_name) ->
  Forall (present (fs w) (dataset_dir_of dataset_name)) files ->
  fetch_entire_dataset task dataset_name false max_workers w = (Ret true, w1)
  /\ transfers (log w1) = transfers (log w)
  /\ inputs (log w1) = inputs (log w)
  /\ stdin w1 = stdin w
  /\ fs w1 = fs w.
Proof.
  intros Hl Hne Hdir Hall.
  destruct (fetch_entire_dataset_short_circuit _ _ max_workers _ _ _
              Hl Hne Hdir Hall) as [Hrun Hq].
  split; [exact Hrun|].
  split; [by apply quiet_transfers|].
  split; [by apply quiet_inputs|].
  destruct Hq as (Hfs & Hin & _). auto.
Qed.

Lemma pancreas_present (on_disk : list byte) :
  Forall (present (fs (pancreas_world on_disk)) (dataset_dir_of "pancreas"))
    pancreas_files.
Proof.
  repeat constructor; eexists _, _; (repeat split; try reflexivity);
    vm_compute; eauto.
Qed.

Lemma existing_files_short_circuit_witness :
  fst (cached_file_list "denoising" "pancreas" (pancreas_world []))
  = Ret pancreas_files
  /\ fs (pancreas_world []) !! (dataset_dir_of "pancreas" ++ ["train.h5ad"])
     = Some (File [])
  /\ fst (fetch_entire_dataset "denoising" "pancreas" false 8 (pancreas_world []))
     = Ret true.
Proof.
  assert (Hl : cached_file_list "denoising" "pancreas" (pancreas_world [])
               = (Ret pancreas_files,
                  snd (cached_file_list "denoising" "pancreas" (pancreas_world []))))
    by (vm_compute; reflexivity).
  split; [by rewrite Hl|]. split; [vm_compute; reflexivity|].
  rewrite (proj1 (existing_files_short_circuit "denoising" "pancreas" 8
                    (pancreas_world [])
                    (snd (cached_file_list "denoising" "pancreas" (pancreas_world [])))
                    pancreas_files Hl
                    ltac:(discriminate)
                    ltac:(vm_compute; eauto)
                    (pancreas_present []))).
  reflexivity.
Defined.

(** ** The pool when every file is already on disk at its size *)

Lemma stat_size_node (p : path) (w : World) (nd : node) :
  fs w !! p = Some nd -> stat_size p w = (Ret (node_size nd), w).
Proof. intros H. unfold stat_size. rewrite H. by destruct nd. Qed.

Lemma worker_skips (dir : path) (file_info : entry) (w : World) :
  present_at_size (fs w) dir file_info ->
  download_single_file_worker file_info dir w = (skipped dir file_info, w).
Proof.
  intros (name & key & size & nd & Hn & Hk & Hs & Hl & Hsz).
  unfold download_single_file_worker, skipped.
  rewrite Hn, Hk, Hs. cbn [getitem default].
  unfold bind at 1 2. unfold ret at 1 2.
  rewrite (bind_ret_run _ _ _ _ _ (path_exists_present _ _ (mk_is_Some _ _ Hl))).
  assert (Hskip : (actual <- stat_size (path_div dir name) ;;
                   size0 <- ret size ;; ret (actual =? size0)) w = (Ret true, w)).
  { rewrite (bind_ret_run _ _ _ _ _ (stat_size_node _ _ _ Hl)).
    unfold bind, ret. by rewrite Hsz, Z.eqb_refl. }
  by rewrite (bind_ret_run _ _ _ _ _ Hskip).
Qed.

Lemma run_jobs_skip (dir : path) (order : list (nat * entry)) (w : World) :
  Forall (fun job => present_at_size (fs w) dir (snd job)) order ->
  forall acc,
    for_fold order acc (run_job dir) w
    = (Ret (acc ++ map (fun job => skipped dir (snd job)) order), w).
Proof.
  induction 1 as [|job order Hjob _ IH]; intros acc; cbn [for_fold map].
  - unfold ret. by rewrite app_nil_r.
  - unfold bind at 1. unfold run_job at 1. unfold bind at 1. unfold attempt.
    rewrite (worker_skips _ _ _ Hjob). unfold ret at 1.
    rewrite IH, <- app_assoc. reflexivity.
Qed.

Lemma tally_skipped (dir : path) (order : list (nat * entry)) (w : World) :
  forall n,
    for_fold (map (fun job => skipped dir (snd job)) order) n tally w
    = (Ret (n + Z.of_nat (length order)), w).
Proof.
  induction order as [|job order IH]; intros n; cbn [for_fold map length].
  - unfold ret. by rewrite Z.add_0_r.
  - unfold bind at 1. unfold tally at 1, skipped at 1. unfold ret at 1.
    rewrite IH. do 2 f_equal. lia.
Qed.

Lemma enumerate1_length (files : list entry) :
  length (enumerate1 files) = length files.
Proof.
  unfold enumerate1. rewrite length_zip_with_r_eq; [reflexivity|].
  by rewrite length_seq.
Qed.

Lemma enumerate1_Forall (P : entry -> Prop) (files : list entry) :
  Forall P files -> Forall (fun job => P (snd job)) (enumerate1 files).
Proof.
  intros H. apply Forall_forall. intros [i f] Hin.
  apply elem_of_zip_r in Hin. cbn [snd].
  by apply (proj1 (Forall_forall _ _) H).
Qed.

Lemma run_pool_all_skip (dir : path) (files : list entry) (max_workers : Z)
    (w : World) :
  0 < max_workers ->
  Forall (present_at_size (fs w) dir) files ->
  run_pool dir files max_workers w = (Ret (Z.of_nat (length files)), w).
Proof.
  intros Hmw Hall. unfold run_pool.
  rewrite (proj2 (Z.leb_gt _ _) Hmw).
  unfold bind at 1. unfold pool_order.
  set (order := merge_sort _ _).
  assert (Hperm : order ≡ₚ enumerate1 files) by apply merge_sort_Permutation.
  assert (Hjobs : Forall (fun job => present_at_size (fs w) dir (snd job)) order).
  { rewrite Hperm. by apply enumerate1_Forall. }
  rewrite (bind_ret_run _ _ _ _ _ (run_jobs_skip dir order w Hjobs [])).
  cbn [app]. rewrite tally_skipped.
  by rewrite Hperm, enumerate1_length.
Qed.

Lemma mkdir_from_noop (f : gmap path node) (todo : path) :
  forall pre, has_dirs_from f pre todo = true -> mkdir_from pre todo f = Ret f.
Proof.
  induction todo as [|s todo IH]; intros pre H; cbn in *; [reflexivity|].
  destruct (f !! (pre ++ [s])) as [[|sz]|]; try discriminate. by apply IH.
Qed.

Lemma mkdir_p_noop (p : path) (w : World) :
  has_dirs (fs w) p = true -> mkdir_p p w = (Ret tt, w).
Proof.
  intros H. unfold mkdir_p. rewrite (mkdir_from_noop _ _ _ H).
  by rewrite set_fs_id.
Qed.

Lemma has_dirs_from_last (f : gmap path node) (todo : path) :
  forall pre, todo <> [] -> has_dirs_from f pre todo = true ->
               is_Some (f !! (pre ++ todo)).
Proof.
  induction todo as [|s todo IH]; intros pre Hne H; [done|].
  cbn in H. destruct (f !! (pre ++ [s])) as [[|sz]|] eqn:E; try discriminate.
  destruct todo as [|s' todo].
  - rewrite E. eauto.
  - replace (pre ++ s :: s' :: todo) with ((pre ++ [s]) ++ s' :: todo)
      by (by rewrite <- app_assoc).
    by apply IH.
Qed.

Lemma present_at_size_present (f0 : gmap path node) (dir : path) (files : list entry) :
  Forall (present_at_size f0 dir) files -> Forall (present f0 dir) files.
Proof.
  intros H. eapply Forall_impl; [exact H|].
  intros f (name & key & size & nd & Hn & _ & Hs & Hl & _).
  exists name, size. rewrite Hl. eauto.
Qed.

Lemma dataset_dir_nonempty (dataset_name : string) :
  dataset_dir_of dataset_name <> [].
Proof.
  unfold dataset_dir_of, path_div, Path.
  destruct (Py.startswith dataset_name "/"); [discriminate|].
  change (segments "datasets") with ["datasets"]. discriminate.
Qed.

Lemma has_dirs_exists (f : gmap path node) (dataset_name : string) :
  has_dirs f (dataset_dir_of dataset_name) = true ->
  is_Some (f !! dataset_dir_of dataset_name).
Proof.
  intros H.
  apply (has_dirs_from_last f _ [] (dataset_dir_nonempty dataset_name) H).
Qed.

(** C4.  When every listed file is on disk at its listed size (and the
    dataset directory is there), fetching the dataset again returns true
    and transfers nothing, with or without the confirmation step; and a
    worker given such a file answers success for it at once, leaving the
    world as it is: no transfer, no hash computed, whatever the record's
    checksum and the bytes on disk.  (The listing is not empty, and the
    pool has at least one worker.) *)
Theorem refetch_is_idempotent
    (task dataset_name : string) (skip : bool) (max_workers : Z)
    (w w1 : World) (files : list entry) :
  cached_file_list task dataset_name w = (Ret files, w1) ->
  files <> [] ->
  has_dirs (fs w) (dataset_dir_of dataset_name) = true ->
  Forall (present_at_size (fs w) (dataset_dir_of dataset_name)) files ->
  0 < max_workers ->
  fetch_entire_dataset task dataset_name skip max_workers w = (Ret true, w1)
  /\ transfers (log w1) = transfers (log w)
  /\ fs w1 = fs w
  /\ (forall (w' : World) (dir : path) (file_info : entry),
        present_at_size (fs w') dir file_info ->
        download_single_file_worker file_info dir w'
        = (Ret (file_info, true, path_div dir (default "" (e_name file_info))), w')).
Proof.
  intros Hl Hne Hdirs Hall Hmw.
  pose proof (has_dirs_exists _ _ Hdirs) as Hdir.
  pose proof (present_at_size_present _ _ _ Hall) as Hpres.
  destruct (fetch_entire_dataset_short_circuit _ _ max_workers _ _ _
              Hl Hne Hdir Hpres) as [Hrun Hq].
  split; [|split; [by apply quiet_transfers|split; [apply Hq|]]].
  - destruct skip; [|exact Hrun].
    destruct Hq as (Hfs & _). rewrite <- Hfs in Hdir, Hall, Hpres, Hdirs.
    unfold fetch_entire_dataset.
    rewrite (bind_ret_run _ _ _ _ _ Hl).
    destruct files as [|f0 files']; [done|]. cbn [Py.truthy_list negb].
    rewrite (bind_ret_run _ _ _ _ _
               (sum_field_total "size" e_size _ w1 (present_fields _ _ _ Hpres))).
    fold (dataset_dir_of dataset_name).
    rewrite (bind_ret_run _ _ _ _ _ (path_exists_present _ _ Hdir)).
    rewrite (bind_ret_run _ _ _ _ _ (scan_missing_none _ _ _ Hpres)).
    cbn [negb]. unfold bind at 1. unfold ret at 1.
    rewrite (bind_ret_run _ _ _ _ _ (mkdir_p_noop _ _ Hdirs)).
    rewrite (bind_ret_run _ _ _ _ _ (run_pool_all_skip _ _ _ _ Hmw Hall)).
    unfold ret. by rewrite Z.eqb_refl.
  - intros w' dir file_info Hp. apply (worker_skips _ _ _ Hp).
Qed.

Lemma pancreas_present_at_size :
  Forall (present_at_size (fs (pancreas_world (bytes_of_string "xyz")))
            (dataset_dir_of "pancreas"))
    pancreas_files.
Proof.
  repeat constructor; eexists _, _, _, _; (repeat split; try reflexivity);
    vm_compute; reflexivity.
Qed.

Lemma refetch_is_idempotent_witness :
  fst (cached_file_list "denoising" "pancreas"
         (pancreas_world (bytes_of_string "xyz"))) = Ret pancreas_files
  /\ has_dirs (fs (pancreas_world (bytes_of_string "xyz")))
       (dataset_dir_of "pancreas") = true
  /\ fst (fetch_entire_dataset "denoising" "pancreas" true 8
            (pancreas_world (bytes_of_string "xyz"))) = Ret true
  /\ fst (fetch_entire_dataset "denoising" "pancreas" false 8
            (pancreas_world (bytes_of_string "xyz"))) = Ret true.
Proof.
  assert (Hl : cached_file_list "denoising" "pancreas"
                 (pancreas_world (bytes_of_string "xyz"))
               = (Ret pancreas_files,
                  snd (cached_file_list "denoising" "pancreas"
                         (pancreas_world (bytes_of_string "xyz")))))
    by (vm_compute; reflexivity).
  assert (Hd : has_dirs (fs (pancreas_world (bytes_of_string "xyz")))
                 (dataset_dir_of "pancreas") = true)
    by (vm_compute; reflexivity).
  split; [by rewrite Hl|]. split; [exact Hd|]. split.
  - rewrite (proj1 (refetch_is_idempotent "denoising" "pancreas" true 8
                      (pancreas_world (bytes_of_string "xyz"))
                      (snd (cached_file_list "denoising" "pancreas"
                              (pancreas_world (bytes_of_string "xyz"))))
                      pancreas_files Hl ltac:(discriminate) Hd
                      pancreas_present_at_size eq_refl)).
    reflexivity.
  - rewrite (proj1 (refetch_is_idempotent "denoising" "pancreas" false 8
                      (pancreas_world (bytes_of_string "xyz"))
                      (snd (cached_file_list "denoising" "pancreas"
                              (pancreas_world (bytes_of_string "xyz"))))
                      pancreas_files Hl ltac:(discriminate) Hd
                      pancreas_present_at_size eq_refl)).
    reflexivity.
Defined.

(** ** The log only grows *)

Lemma appends_same_log {A} (m : M A) :
  (forall w, log (snd (m w)) = log w) -> appends m.
Proof. intros H w. exists []. by rewrite H, app_nil_r. Qed.

Lemma appends_reads {A} (m : M A) : reads m -> appends m.
Proof. intros H. apply appends_same_log. intros w. by rewrite H. Qed.

Lemma appends_quiet {A} (m : M A) : quiet_m m -> appends m.
Proof. intros H w. destruct (H w) as (_ & _ & evs & Hl & _). eauto. Qed.

Lemma appends_ret {A} (a : A) : appends (ret a).
Proof. apply appends_reads, reads_ret. Qed.

Lemma appends_raise {A} (e : exn) : appends (@raise A e).
Proof. apply appends_reads, reads_raise. Qed.

Lemma appends_bind {A B} (m : M A) (k : A -> M B) :
  appends m -> (forall a, appends (k a)) -> appends (bind m k).
Proof.
  intros Hm Hk w. unfold bind. destruct (Hm w) as [evs Hevs].
  destruct (m w) as [[a|e] w1]; cbn [snd] in *; [|eauto].
  destruct (Hk a w1) as [evs' Hevs']. exists (evs ++ evs').
  by rewrite Hevs', Hevs, app_assoc.
Qed.

Lemma appends_try {A} (m : M A) (h : exn -> M A) :
  appends m -> (forall e, appends (h e)) -> appends (try_except m h).
Proof.
  intros Hm Hh w. unfold try_except. destruct (Hm w) as [evs Hevs].
  destruct (m w) as [[a|e] w1]; cbn [snd] in *; [eauto|].
  destruct (Hh e w1) as [evs' Hevs']. exists (evs ++ evs').
  by rewrite Hevs', Hevs, app_assoc.
Qed.

Lemma appends_for_fold {A S} (l : list A) (body : S -> A -> M S) :
  (forall acc x, appends (body acc x)) -> forall acc, appends (for_fold l acc body).
Proof.
  intros Hb. induction l as [|x l IH]; intros acc; cbn [for_fold].
  - apply appends_ret.
  - apply appends_bind; auto.
Qed.

Lemma appends_for_each {A} (l : list A) (body : A -> M unit) :
  (forall x, appends (body x)) -> appends (for_each l body).
Proof.
  intros Hb. induction l as [|x l IH]; cbn [for_each].
  - apply appends_ret.
  - apply appends_bind; auto.
Qed.

Lemma appends_attempt {A} (m : M A) : appends m -> appends (attempt m).
Proof.
  intros Hm w. unfold attempt. destruct (Hm w) as [evs Hevs].
  destruct (m w) as [r w1]. eauto.
Qed.

Lemma appends_input : appends input.
Proof.
  intros w. unfold input. destruct (stdin w); exists [EvInput]; by wsimpl.
Qed.

Lemma appends_Confirm_ask : appends Confirm_ask.
Proof.
  intros w. unfold Confirm_ask.
  destruct (confirm_loop (stdin w) 0) as [[r rest] asked].
  exists (repeat EvInput asked). by wsimpl.
Qed.

Lemma appends_mkdir_p (p : path) : appends (mkdir_p p).
Proof.
  apply appends_same_log. intros w. unfold mkdir_p.
  by destruct (mkdir_from [] p (fs w)).
Qed.

Lemma appends_open_wb (p : path) : appends (open_wb p).
Proof.
  apply appends_same_log. intros w. unfold open_wb.
  destruct (fs w !! p) as [[|]|]; try reflexivity;
    by destruct (is_dir (fs w) (path_parent p)).
Qed.

Lemma appends_write_chunk (p : path) (chunk : list byte) :
  appends (write_chunk p chunk).
Proof.
  apply appends_same_log. intros w. unfold write_chunk.
  by destruct (fs w !! p) as [[|]|].
Qed.

Lemma appends_unlink (p : path) : appends (unlink p).
Proof.
  apply appends_same_log. intros w. unfold unlink.
  by destruct (fs w !! p) as [[|]|].
Qed.

Lemma appends_calculate_md5 (p : path) : appends (calculate_md5 p).
Proof.
  apply appends_same_log. intros w. unfold calculate_md5.
  by destruct (fs w !! p) as [[|]|].
Qed.

Lemma appends_subprocess_run (cmd : list string) : appends (subprocess_run cmd).
Proof.
  intros w. unfold subprocess_run.
  destruct (aria2c w cmd (fs w)) as [r f]. exists [EvAria2 cmd]. by wsimpl.
Qed.

Lemma appends_requests_get_stream (url : string) : appends (requests_get_stream url).
Proof.
  intros w. unfold requests_get_stream.
  destruct (s3_get w url); exists [EvHttpGet url]; by wsimpl.
Qed.

Lemma appends_fetch_file_aria2 (url : string) (p : path) (md5 : string) (size : Z) :
  appends (fetch_file_aria2 url p md5 size).
Proof.
  unfold fetch_file_aria2.
  apply appends_bind; [apply appends_reads, reads_check_aria2|].
  intros ok. destruct ok; cbn [negb]; [|apply appends_ret].
  apply appends_try; [|intros; apply appends_ret].
  apply appends_bind; [apply appends_subprocess_run|].
  intros code. destruct (code =? 0); [|apply appends_ret].
  apply appends_bind; [apply appends_reads, reads_stat_size|].
  intros actual. destruct (negb _); apply appends_ret.
Qed.

Lemma appends_fetch_file_fallback (url : string) (p : path) (md5 : string) (size : Z) :
  appends (fetch_file_fallback url p md5 size).
Proof.
  unfold fetch_file_fallback. apply appends_try.
  - apply appends_bind; [apply appends_requests_get_stream|].
    intros [[cl chunks] fault].
    apply appends_bind; [apply appends_open_wb|]. intros _.
    apply appends_bind.
    { apply appends_for_each. intros [|b c];
        [apply appends_ret|apply appends_write_chunk]. }
    intros _. apply appends_bind.
    { destruct fault; [apply appends_raise|apply appends_ret]. }
    intros _. apply appends_bind; [apply appends_reads, reads_stat_size|].
    intros actual. destruct (negb _); [apply appends_ret|].
    apply appends_bind; [apply appends_calculate_md5|].
    intros h. destruct (negb _); apply appends_ret.
  - intros e. apply appends_bind; [apply appends_reads, reads_path_exists|].
    intros ex. apply appends_bind; [|intros; apply appends_ret].
    destruct ex; [apply appends_unlink|apply appends_ret].
Qed.

Lemma appends_fetch_file (url : string) (p : path) (md5 : string) (size : Z) :
  appends (fetch_file url p md5 size).
Proof.
  unfold fetch_file.
  apply appends_bind; [apply appends_reads, reads_check_aria2|].
  intros [|]; [apply appends_fetch_file_aria2|apply appends_fetch_file_fallback].
Qed.

Lemma appends_worker (file_info : entry) (dir : path) :
  appends (download_single_file_worker file_info dir).
Proof.
  unfold download_single_file_worker.
  apply appends_bind; [apply appends_reads, reads_getitem|]. intros name.
  apply appends_bind; [apply appends_reads, reads_getitem|]. intros key.
  apply appends_bind; [apply appends_reads, reads_path_exists|]. intros ex.
  apply appends_bind.
  { destruct ex; [|apply appends_ret].
    apply appends_bind; [apply appends_reads, reads_stat_size|]. intros actual.
    apply appends_bind; [apply appends_reads, reads_getitem|].
    intros; apply appends_ret. }
  intros [|]; [apply appends_ret|].
  apply appends_bind; [apply appends_reads, reads_getitem|]. intros md5.
  apply appends_bind; [apply appends_reads, reads_getitem|]. intros size.
  apply appends_bind; [apply appends_fetch_file|].
  intros; apply appends_ret.
Qed.

Lemma appends_run_pool (dir : path) (files : list entry) (max_workers : Z) :
  appends (run_pool dir files max_workers).
Proof.
  unfold run_pool. destruct (max_workers <=? 0); [apply appends_raise|].
  apply appends_bind; [by apply appends_same_log|]. intros order.
  apply appends_bind.
  { apply appends_for_fold. intros acc job. unfold run_job.
    apply appends_bind; [apply appends_attempt, appends_worker|].
    intros; apply appends_ret. }
  intros results. apply appends_for_fold.
  intros n [[[fi success] lp]|e]; [apply appends_ret|apply appends_raise].
Qed.

Lemma appends_fetch_entire_dataset (task dataset_name : string) (skip : bool)
    (max_workers : Z) :
  appends (fetch_entire_dataset task dataset_name skip max_workers).
Proof.
  unfold fetch_entire_dataset.
  apply appends_bind; [apply appends_quiet, quiet_cached_file_list|].
  intros files. destruct (negb _); [apply appends_ret|].
  apply appends_bind; [apply appends_reads, reads_sum_field|]. intros total.
  apply appends_bind; [apply appends_reads, reads_path_exists|]. intros ex.
  apply appends_bind.
  { destruct ex; [apply appends_reads, reads_scan_missing|apply appends_ret]. }
  intros missing. apply appends_bind.
  { destruct (negb skip); [|apply appends_ret].
    destruct (0 <? missing); [|apply appends_ret].
    apply appends_bind; [apply appends_Confirm_ask|].
    intros; apply appends_ret. }
  intros [early|]; [apply appends_ret|].
  apply appends_bind; [apply appends_mkdir_p|]. intros _.
  apply appends_bind; [apply appends_run_pool|].
  intros; apply appends_ret.
Qed.

(** ** The confirmation gate of [fetch_task] *)

Lemma reads_run {A} (m : M A) (w : World) :
  reads m -> exists r, m w = (r, w).
Proof.
  intros H. specialize (H w). destruct (m w) as [r w']. cbn in H. subst. eauto.
Qed.

(** Up to the prompt [fetch_task] only lists; what follows the line read
    from the terminal returns false at once unless the stripped line is
    the phrase. *)
Lemma fetch_task_to_prompt (task : string) (max_workers : Z) (w : World) :
  exists w1,
    quiet w w1
    /\ (fetch_task task max_workers w = (Ret false, w1)
        \/ (exists e, fetch_task task max_workers w = (Raise e, w1))
        \/ exists k : string -> M bool,
             fetch_task task max_workers w = (line <- input ;; k line) w1
             /\ (forall line, Py.strip line <> "yes I am sure" -> k line = ret false)
             /\ (forall line, appends (k line))).
Proof.
  pose proof (quiet_list_datasets task None w) as Hq.
  unfold fetch_task.
  destruct (list_datasets task None w) as [[ds|e] w1] eqn:Hl; cbn [snd] in Hq;
    exists w1; (split; [exact Hq|]).
  2: { right; left. exists e. by rewrite (bind_raise_run _ _ _ _ _ Hl). }
  rewrite (bind_ret_run _ _ _ _ _ Hl).
  destruct ds as [|d ds]; [by left|]. cbn [Py.truthy_list negb].
  destruct (reads_run _ w1 (reads_sum_field "size" e_size (d :: ds))) as [[t|e] Hs].
  2: { right; left. exists e. by rewrite (bind_raise_run _ _ _ _ _ Hs). }
  rewrite (bind_ret_run _ _ _ _ _ Hs).
  destruct (reads_run _ w1 (reads_sum_field "file_count" e_file_count (d :: ds)))
    as [[t'|e] Hs'].
  2: { right; left. exists e. by rewrite (bind_raise_run _ _ _ _ _ Hs'). }
  rewrite (bind_ret_run _ _ _ _ _ Hs').
  right; right. eexists. split; [reflexivity|]. split.
  - intros line Hne. cbn beta zeta.
    by rewrite (proj2 (String.eqb_neq _ _) Hne).
  - intros line. cbn beta zeta. destruct (negb _); [apply appends_ret|].
    apply appends_bind; [|intros; apply appends_ret].
    apply appends_for_fold. intros n dataset_info.
    apply appends_bind; [apply appends_reads, reads_getitem|]. intros name.
    apply appends_bind; [apply appends_reads, reads_getitem|]. intros _.
    apply appends_bind; [apply appends_reads, reads_getitem|]. intros _.
    apply appends_bind; [apply appends_fetch_entire_dataset|].
    intros; apply appends_ret.
Qed.

Lemma transfers_app (l l' : list event) :
  transfers (l ++ l') = transfers l ++ transfers l'.
Proof. apply List.filter_app. Qed.

Lemma listing_no_transfers (evs : list event) :
  forallb is_listing evs = true -> transfers evs = [].
Proof. apply filter_listing_only. by intros []. Qed.

Lemma listing_no_inputs (evs : list event) :
  forallb is_listing evs = true -> inputs evs = [].
Proof. apply filter_listing_only. by intros []. Qed.

(** C7, as amended.  Whatever happens, the events [fetch_task] adds to the
    log are listing requests only, up to the moment it reads the
    confirmation line: no transfer precedes the prompt.  The line read is
    stripped of leading and trailing whitespace and compared with the
    phrase [yes I am sure]; when the stripped line differs, no transfer is
    made at all and the call does not succeed, returning false whenever
    the listing itself was obtained.  With no line to read there is no
    transfer either. *)
Theorem confirmation_gate (task : string) (max_workers : Z) (w : World) :
  (exists pre post,
      log (snd (fetch_task task max_workers w)) = log w ++ pre ++ post
      /\ transfers pre = [] /\ inputs pre = []
      /\ (post = [] \/ exists post', post = EvInput :: post'))
  /\ (forall line rest,
        stdin w = line :: rest ->
        Py.strip line <> "yes I am sure" ->
        transfers (log (snd (fetch_task task max_workers w))) = transfers (log w)
        /\ fst (fetch_task task max_workers w) <> Ret true
        /\ (forall ds w1,
              list_datasets task None w = (Ret ds, w1) ->
              Forall (fun d => is_Some (e_size d)) ds ->
              Forall (fun d => is_Some (e_file_count d)) ds ->
              fst (fetch_task task max_workers w) = Ret false))
  /\ (stdin w = [] ->
      transfers (log (snd (fetch_task task max_workers w))) = transfers (log w)
      /\ fst (fetch_task task max_workers w) <> Ret true).
Proof.
  destruct (fetch_task_to_prompt task max_workers w)
    as (w1 & Hq & Hcases).
  pose proof Hq as (Hfs & Hin & evs & Hlog & Hevs).
  split; [|split].
  3: { intros Hstdin. rewrite <- Hin in Hstdin.
       destruct Hcases as [H|[[e H]|(k & H & Hno & Happ)]].
       - rewrite H. cbn [fst snd]. split; [by apply quiet_transfers|discriminate].
       - rewrite H. cbn [fst snd]. split; [by apply quiet_transfers|discriminate].
       - rewrite H. unfold bind, input. rewrite Hstdin. wsimpl.
         split; [|discriminate].
         rewrite transfers_app, app_nil_r. by apply quiet_transfers. }
  - exists evs.
    destruct Hcases as [H|[[e H]|(k & H & Hno & Happ)]].
    + exists []. rewrite H, app_nil_r. cbn [snd].
      auto using listing_no_transfers, listing_no_inputs.
    + exists []. rewrite H, app_nil_r. cbn [snd].
      auto using listing_no_transfers, listing_no_inputs.
    + rewrite H. unfold bind, input.
      destruct (stdin w1) as [|line rest].
      * exists [EvInput]. wsimpl. rewrite Hlog, <- app_assoc.
        repeat split; eauto using listing_no_transfers, listing_no_inputs.
      * destruct (Happ line (set_log (log w1 ++ [EvInput]) (set_stdin rest w1)))
          as [evs' Hevs'].
        exists (EvInput :: evs'). rewrite Hevs'. wsimpl.
        rewrite Hlog, <- !app_assoc.
        repeat split; eauto using listing_no_transfers, listing_no_inputs.
  - intros line rest Hstdin Hne. rewrite <- Hin in Hstdin.
    assert (Hrun : transfers (log (snd (fetch_task task max_workers w)))
                   = transfers (log w)
                   /\ fst (fetch_task task max_workers w) <> Ret true).
    { destruct Hcases as [H|[[e H]|(k & H & Hno & Happ)]].
      - rewrite H. cbn [fst snd]. split; [by apply quiet_transfers|discriminate].
      - rewrite H. cbn [fst snd]. split; [by apply quiet_transfers|discriminate].
      - rewrite H. unfold bind, input. rewrite Hstdin, (Hno line Hne).
        unfold ret. wsimpl. split; [|discriminate].
        rewrite transfers_app, app_nil_r. by apply quiet_transfers. }
    destruct Hrun as [Ht Hr]. split; [exact Ht|]. split; [exact Hr|].
    intros ds w1' Hl Hsz Hfc.
    pose proof (quiet_list_datasets task None w) as Hq'.
    rewrite Hl in Hq'. cbn [snd] in Hq'. destruct Hq' as (_ & Hin' & _).
    rewrite Hin in Hstdin. rewrite <- Hin' in Hstdin.
    unfold fetch_task. rewrite (bind_ret_run _ _ _ _ _ Hl).
    destruct ds as [|d ds]; [reflexivity|]. cbn [Py.truthy_list negb].
    rewrite (bind_ret_run _ _ _ _ _ (sum_field_total "size" e_size _ w1' Hsz)).
    rewrite (bind_ret_run _ _ _ _ _
               (sum_field_total "file_count" e_file_count _ w1' Hfc)).
    unfold bind at 1. unfold input. rewrite Hstdin.
    by rewrite (proj2 (String.eqb_neq _ _) Hne).
Qed.

Lemma confirmation_gate_witness :
  stdin (gate_world "yes") = ["yes"]
  /\ Py.strip "yes" <> "yes I am sure"
  /\ transfers (log (snd (fetch_task "denoising" 8 (gate_world "yes"))))
     = transfers (log (gate_world "yes"))
  /\ fst (fetch_task "denoising" 8 (gate_world "yes")) = Ret false.
Proof.
  split; [reflexivity|].
  assert (Hne : Py.strip "yes" <> "yes I am sure") by (vm_compute; discriminate).
  split; [exact Hne|].
  destruct (proj1 (proj2 (confirmation_gate "denoising" 8 (gate_world "yes")))
              "yes" [] eq_refl Hne) as (Ht & _ & Hf).
  split; [exact Ht|].
  apply (Hf [dataset_summary "pancreas" 3 1]
            (snd (list_datasets "denoising" None (gate_world "yes")))).
  - vm_compute. reflexivity.
  - repeat constructor; eauto.
  - repeat constructor; eauto.
Defined.

(** C7, as stated, fails: a response that is not exactly the phrase (it
    carries a trailing space) is accepted, the file is transferred and
    the call returns true. *)
Lemma confirmation_accepts_padded_phrase :
  stdin (gate_world "yes I am sure ") = ["yes I am sure "]
  /\ "yes I am sure " <> "yes I am sure"
  /\ fst (fetch_task "denoising" 8 (gate_world "yes I am sure ")) = Ret true
  /\ transfers (log (snd (fetch_task "denoising" 8 (gate_world "yes I am sure "))))
     = [EvHttpGet (BASE_URL_RAW +:+ "resources/denoising/datasets/pancreas/train.h5ad")].
Proof.
  split; [reflexivity|]. split; [discriminate|]. split; vm_compute; reflexivity.
Qed.

(* ===================================================================== *)
(** * Further properties of the listing client *)
(* ===================================================================== *)

Lemma info_size_empty : info_size ∅ = 0.
Proof. unfold info_size. by rewrite map_to_list_empty. Qed.

Lemma info_size_insert_fresh (m : gmap string (Z * Z)) k v :
  m !! k = None -> info_size (<[k := v]> m) = fst v + info_size m.
Proof.
  intros H. unfold info_size.
  rewrite (Zsum_Permutation _ (map (fun kv => fst (snd kv)) ((k, v) :: map_to_list m))).
  - reflexivity.
  - apply Permutation_map. by apply map_to_list_insert.
Qed.

Lemma info_size_insert_present (m : gmap string (Z * Z)) k v v' :
  m !! k = Some v -> info_size (<[k := v']> m) = fst v' - fst v + info_size m.
Proof.
  intros H.
  rewrite <- (insert_delete_eq m k v').
  rewrite info_size_insert_fresh by apply lookup_delete_eq.
  rewrite <- (insert_id m k v H) at 2.
  rewrite <- (insert_delete_eq m k v).
  rewrite (info_size_insert_fresh (delete k m) k v) by apply lookup_delete_eq.
  lia.
Qed.

Lemma aggregate_step_size (prefix : string) (m : gmap string (Z * Z)) (o : s3_object) :
  info_size (aggregate_step prefix m o)
  = info_size m + (if key_in_a_dataset prefix o then size_of o else 0).
Proof.
  rewrite dataset_path_of_counted. unfold aggregate_step.
  destruct (o_key o) as [key|]; [|lia].
  destruct (dataset_path_of prefix key) as [dp|]; simpl; [|lia].
  destruct (m !! dp) as [[sz fc]|] eqn:E.
  - rewrite (info_size_insert_present _ _ _ _ E). simpl. lia.
  - rewrite (info_size_insert_fresh _ _ _ E). simpl. lia.
Qed.

Lemma fold_aggregate_size (prefix : string) (contents : list s3_object) :
  forall m : gmap string (Z * Z),
    info_size (fold_left (aggregate_step prefix) contents m)
    = info_size m
      + Zsum (map size_of (List.filter (key_in_a_dataset prefix) contents)).
Proof.
  induction contents as [|o contents IH]; intros m; simpl.
  - lia.
  - rewrite IH, aggregate_step_size.
    destruct (key_in_a_dataset prefix o); simpl; lia.
Qed.

Lemma summaries_as_items (m : gmap string (Z * Z)) :
  exists items : list (string * (Z * Z)),
    items ≡ₚ map_to_list m
    /\ map fst items = sorted_keys m
    /\ summaries_of m
       = map (fun kv => dataset_summary (fst kv) (fst (snd kv)) (snd (snd kv))) items.
Proof.
  unfold summaries_of.
  assert (G : forall ks : list string,
    (forall k, k ∈ ks -> is_Some (m !! k)) ->
    exists items : list (string * (Z * Z)),
      Forall (fun kv => m !! fst kv = Some (snd kv)) items
      /\ map fst items = ks
      /\ omap (fun dataset_path =>
                 match m !! dataset_path with
                 | Some (sz, fc) => Some (dataset_summary dataset_path sz fc)
                 | None => None
                 end) ks
         = map (fun kv => dataset_summary (fst kv) (fst (snd kv)) (snd (snd kv))) items).
  { induction ks as [|k ks IH]; intros Hks.
    - exists []. by repeat split.
    - destruct IH as (items & Hall & Hfst & Hom).
      { intros k' Hk'. apply Hks. by apply list_elem_of_further. }
      destruct (Hks k (list_elem_of_here _ _)) as [[sz fc] Hk].
      exists ((k, (sz, fc)) :: items). split; [by constructor|].
      split; [simpl; by rewrite Hfst|].
      cbn [omap list_omap]. rewrite Hk. cbn. by rewrite Hom. }
  destruct (G (sorted_keys m)) as (items & Hall & Hfst & Hom).
  { intros k Hk. unfold sorted_keys in Hk.
    rewrite merge_sort_Permutation in Hk.
    apply list_elem_of_fmap in Hk as ([k' v] & -> & Hin).
    apply elem_of_map_to_list in Hin. cbn. by rewrite Hin. }
  exists items. split; [|by split].
  apply NoDup_Permutation.
  - apply (NoDup_fmap_1 fst). change (NoDup (map fst items)). rewrite Hfst.
    unfold sorted_keys. rewrite merge_sort_Permutation.
    apply NoDup_fst_map_to_list.
  - apply NoDup_map_to_list.
  - intros [k v]. split.
    + intros Hin. apply elem_of_map_to_list.
      apply (proj1 (Forall_forall _ _) Hall (k, v) Hin).
    + intros Hin. pose proof Hin as Hm. apply elem_of_map_to_list in Hm.
      assert (Hk : k ∈ map fst items).
      { rewrite Hfst. unfold sorted_keys. rewrite merge_sort_Permutation.
        apply list_elem_of_fmap. by exists (k, v). }
      apply list_elem_of_fmap in Hk as ([k' v'] & Hkk & Hin').
      cbn in Hkk. subst k'.
      pose proof (proj1 (Forall_forall _ _) Hall (k, v') Hin') as Hv'.
      cbn in Hv'. rewrite Hm in Hv'. by injection Hv' as <-.
Qed.

(** X1.  The summaries come out in ascending order of dataset name, and
    no name occurs twice. *)
Theorem summaries_sorted_by_name (prefix : string) (contents : list s3_object) :
  exists names : list string,
    names_of (summaries_of (aggregate prefix contents)) = map Some names
    /\ StronglySorted String.le names
    /\ NoDup names.
Proof.
  destruct (summaries_as_items (aggregate prefix contents))
    as (items & _ & Hfst & Hsum).
  exists (sorted_keys (aggregate prefix contents)). split; [|split].
  - unfold names_of. rewrite Hsum, <- Hfst, !map_map. reflexivity.
  - unfold sorted_keys. apply StronglySorted_merge_sort; apply _.
  - unfold sorted_keys. rewrite merge_sort_Permutation.
    apply NoDup_fst_map_to_list.
Qed.

Lemma summaries_size (m : gmap string (Z * Z)) :
  total_size_of (summaries_of m) = info_size m.
Proof.
  destruct (summaries_as_items m) as (items & Hperm & _ & Hsum).
  unfold total_size_of, info_size. rewrite Hsum, map_map. cbn [dataset_summary e_size default].
  apply Zsum_Permutation, Permutation_map, Hperm.
Qed.

(** X2.  The sizes of the summaries add up to the total size of the
    listed keys that fall in a dataset; an object without a [Size]
    element counts for 0. *)
Theorem summaries_sizes_add_up (prefix : string) (contents : list s3_object) :
  total_size_of (summaries_of (aggregate prefix contents))
  = Zsum (map size_of (List.filter (key_in_a_dataset prefix) contents)).
Proof.
  rewrite summaries_size. unfold aggregate.
  rewrite fold_aggregate_size, info_size_empty. lia.
Qed.

Lemma aggregate_step_lookup (prefix d : string) (m : gmap string (Z * Z))
    (o : s3_object) :
  aggregate_step prefix m o !! d
  = add_objects (m !! d) (objects_of_dataset prefix d [o]).
Proof.
  unfold aggregate_step, objects_of_dataset. cbn [List.filter].
  destruct (o_key o) as [key|]; [|reflexivity].
  destruct (dataset_path_of prefix key) as [dp|] eqn:Hdp.
  - destruct (decide (dp = d)) as [->|Hne].
    + rewrite bool_decide_true by done. cbn [add_objects fold_left].
      destruct (m !! d) as [[sz fc]|]; by rewrite lookup_insert_eq.
    + rewrite bool_decide_false by congruence. cbn [add_objects fold_left].
      destruct (m !! dp) as [[sz fc]|]; by rewrite lookup_insert_ne.
  - rewrite bool_decide_false by congruence. reflexivity.
Qed.

Lemma fold_aggregate_lookup (prefix d : string) (contents : list s3_object) :
  forall m : gmap string (Z * Z),
    fold_left (aggregate_step prefix) contents m !! d
    = add_objects (m !! d) (objects_of_dataset prefix d contents).
Proof.
  induction contents as [|o contents IH]; intros m; [reflexivity|].
  cbn [fold_left]. rewrite IH, aggregate_step_lookup.
  unfold objects_of_dataset, add_objects. cbn [List.filter].
  destruct (match o_key o with Some _ => _ | None => _ end); reflexivity.
Qed.

Lemma add_objects_total (os : list s3_object) :
  forall sz fc,
    add_objects (Some (sz, fc)) os
    = Some (sz + Zsum (map size_of os), fc + Z.of_nat (length os)).
Proof.
  unfold add_objects.
  induction os as [|o os IH]; intros sz fc; cbn [fold_left map Zsum foldr length].
  - do 2 f_equal; lia.
  - rewrite IH. do 2 f_equal; unfold Zsum; lia.
Qed.

(** X3.  Per dataset: the dict built from a listing has an entry for
    dataset [d] exactly when some listed key has dataset path [d], and the
    entry holds the sum of the sizes and the number of those keys. *)
Theorem aggregate_per_dataset (prefix d : string) (contents : list s3_object) :
  aggregate prefix contents !! d
  = match objects_of_dataset prefix d contents with
    | [] => None
    | os => Some (Zsum (map size_of os), Z.of_nat (length os))
    end.
Proof.
  unfold aggregate. rewrite fold_aggregate_lookup, lookup_empty.
  destruct (objects_of_dataset prefix d contents) as [|o os]; [reflexivity|].
  unfold add_objects. cbn [fold_left]. fold (add_objects (Some (size_of o, 1)) os).
  rewrite add_objects_total. cbn [map Zsum foldr length].
  do 2 f_equal; unfold Zsum; lia.
Qed.

(** X4.  Every summary of a listing is the dict entry of its dataset:
    its name is a dataset path some listed key has, its [file_count] is
    the number of those keys (so at least 1) and its [size] their total;
    and every dataset path that occurs has its summary. *)
Theorem summaries_per_dataset (prefix : string) (contents : list s3_object) :
  (forall e, e ∈ summaries_of (aggregate prefix contents) ->
     exists d o os,
       objects_of_dataset prefix d contents = o :: os
       /\ e = dataset_summary d (Zsum (map size_of (o :: os)))
                (Z.of_nat (length (o :: os))))
  /\ (forall d o os,
        objects_of_dataset prefix d contents = o :: os ->
        dataset_summary d (Zsum (map size_of (o :: os)))
          (Z.of_nat (length (o :: os)))
        ∈ summaries_of (aggregate prefix contents)).
Proof.
  split.
  - intros e He. unfold summaries_of in He.
    apply list_elem_of_omap in He as (d & _ & Hd).
    pose proof (aggregate_per_dataset prefix d contents) as Hl.
    destruct (aggregate prefix contents !! d) as [[sz fc]|]; [|discriminate].
    destruct (objects_of_dataset prefix d contents) as [|o os] eqn:Hos;
      [discriminate|].
    cbv zeta in Hl. injection Hl as -> ->. injection Hd as <-.
    exists d, o, os. by split.
  - intros d o os Hos. unfold summaries_of.
    apply list_elem_of_omap. exists d.
    pose proof (aggregate_per_dataset prefix d contents) as Hl.
    rewrite Hos in Hl. split; [|by rewrite Hl].
    unfold sorted_keys. rewrite merge_sort_Permutation.
    apply list_elem_of_fmap. eexists (d, _). split; [reflexivity|].
    apply elem_of_map_to_list. exact Hl.
Qed.

Lemma summaries_per_dataset_witness :
  objects_of_dataset (task_prefix "denoising") "pancreas" pancreas_objects
  = pancreas_objects
  /\ dataset_summary "pancreas" 3 2
     ∈ summaries_of (aggregate (task_prefix "denoising") pancreas_objects).
Proof.
  split; [reflexivity|].
  apply (proj2 (summaries_per_dataset (task_prefix "denoising") pancreas_objects)
           "pancreas"
           (S3Object (Some "resources/denoising/datasets/pancreas/train.h5ad")
              (Some 3) (Some "900150983cd24fb0d6963f7d28e17f72"))
           [S3Object (Some "resources/denoising/datasets/pancreas/state.yaml")
              (Some 0) (Some "d41d8cd98f00b204e9800998ecf8427e-2")]).
  reflexivity.
Defined.

Lemma load_cache_world (p : path) (w : World) :
  snd (load_cache p w) = w \/ snd (load_cache p w) = set_tick (S (tick w)) w.
Proof.
  unfold load_cache. destruct (cache w !! p) as [[|ts ds]|]; [by left| |by left].
  right. unfold try_except, bind, json_load, time_time, ret. cbn [fst snd].
  by destruct (PrimFloat.ltb _ _).
Qed.

Lemma get_cache_path_returns (task : string) (dataset_name : option string)
    (w : World) (p : path) :
  fst (get_cache_path task dataset_name w) = Ret p ->
  exists d, get_cache_path task dataset_name w
            = (Ret (cache_file task dataset_name), set_cache_dirs d w).
Proof.
  destruct (get_cache_path_cases task dataset_name w) as [[d H]|[e H]];
    rewrite H; [eauto|discriminate].
Qed.

Lemma load_cache_keeps (p : path) (w : World) :
  cache (snd (load_cache p w)) = cache w
  /\ s3_list (snd (load_cache p w)) = s3_list w
  /\ log (snd (load_cache p w)) = log w
  /\ cache_readonly (snd (load_cache p w)) = cache_readonly w.
Proof.
  destruct (load_cache_world p w) as [-> | ->]; by repeat split.
Qed.

(** X5.  With a fresh cached task listing that is not empty,
    [list_datasets task] returns it without asking the bucket and without
    touching the cache files; a fresh cached listing that is empty is not
    a hit: the bucket is asked. *)
Theorem cached_listing_hit (task : string) (w : World)
    (ts : option float) (l : list entry) :
  fst (get_cache_path task None w) = Ret (cache_file task None) ->
  cache w !! cache_file task None = Some (Doc ts (Some l)) ->
  fresh (clock w (tick w)) (default 0%float ts) = true ->
  (l <> [] ->
   fst (list_datasets task None w) = Ret l
   /\ log (snd (list_datasets task None w)) = log w
   /\ cache (snd (list_datasets task None w)) = cache w)
  /\ (l = [] ->
      exists evs,
        log (snd (list_datasets task None w))
        = log w ++ EvList (task_prefix (get_s3_task_path task)) :: evs).
Proof.
  intros Hpath Hc Hfresh.
  destruct (get_cache_path_returns _ _ _ _ Hpath) as [d Hrun].
  pose proof (load_cache_doc (cache_file task None) (set_cache_dirs d w) ts
                (Some l) Hc) as Hload.
  change (clock (set_cache_dirs d w) (tick (set_cache_dirs d w)))
    with (clock w (tick w)) in Hload.
  rewrite Hfresh in Hload.
  unfold list_datasets.
  rewrite (bind_ret_run _ _ _ _ _ Hrun), (bind_ret_run _ _ _ _ _ Hload).
  split.
  - intros Hne. destruct l as [|d0 l]; [done|]. by repeat split.
  - intros ->. unfold bind at 1. unfold request_listing. wsimpl.
    destruct (s3_list w _) as [contents|e]; [|exists []; reflexivity].
    match goal with
    | |- context [bind (save_cache ?p ?r) _ ?w0] =>
        pose proof (appends_quiet _ (quiet_save_cache p r) w0) as [evs Hevs]
    end.
    exists evs. unfold bind.
    destruct (save_cache _ _ _) as [[[]|e] w2]; unfold ret; cbn [snd] in *;
      rewrite Hevs; wsimpl; by rewrite <- app_assoc.
Qed.

Lemma cached_listing_hit_witness :
  fst (get_cache_path "denoising" None (cached_world demo_payload 1000 2000))
  = Ret (cache_file "denoising" None)
  /\ cache (cached_world demo_payload 1000 2000) !! cache_file "denoising" None
     = Some (Doc (Some 1000%float) (Some demo_payload))
  /\ fresh 2000 1000 = true
  /\ fst (list_datasets "denoising" None (cached_world demo_payload 1000 2000))
     = Ret demo_payload
  /\ log (snd (list_datasets "denoising" None (cached_world demo_payload 1000 2000)))
     = [].
Proof.
  assert (Hp : fst (get_cache_path "denoising" None
                      (cached_world demo_payload 1000 2000))
               = Ret (cache_file "denoising" None)) by (vm_compute; reflexivity).
  assert (Hc : cache (cached_world demo_payload 1000 2000)
                 !! cache_file "denoising" None
               = Some (Doc (Some 1000%float) (Some demo_payload)))
    by (vm_compute; reflexivity).
  assert (Hf : fresh 2000 1000 = true) by reflexivity.
  split; [exact Hp|]. split; [exact Hc|]. split; [exact Hf|].
  destruct (proj1 (cached_listing_hit "denoising"
                     (cached_world demo_payload 1000 2000)
                     (Some 1000%float) demo_payload Hp Hc Hf)
              ltac:(discriminate)) as (Hr & Hl & _).
  split; [exact Hr|exact Hl].
Defined.

(** X6.  When the bucket refuses the listing request, [list_datasets]
    raises that error: always for a dataset's files, and for a task's
    datasets whenever the cache did not answer (no file, stale, empty
    list); a stale cached listing is not used in its place, and the cache
    files are left as they were. *)
Theorem listing_failure_propagates (task : string) (w : World) (e : exn) :
  s3_list w (task_prefix (get_s3_task_path task)) = Raise e ->
  (forall dataset_name,
      fst (list_datasets task (Some dataset_name) w) = Raise e)
  /\ (fst (get_cache_path task None w) = Ret (cache_file task None) ->
      fst (load_cache (cache_file task None) w) = Ret None
      \/ fst (load_cache (cache_file task None) w) = Ret (Some []) ->
      fst (list_datasets task None w) = Raise e
      /\ cache (snd (list_datasets task None w)) = cache w).
Proof.
  intros Hfail. split.
  - intros dn. rewrite list_datasets_files. by rewrite Hfail.
  - intros Hpath Hmiss.
    destruct (get_cache_path_returns _ _ _ _ Hpath) as [d Hrun].
    assert (Hsame : fst (load_cache (cache_file task None) (set_cache_dirs d w))
                    = fst (load_cache (cache_file task None) w)).
    { destruct (cache w !! cache_file task None) as [[|ts ds]|] eqn:Hc.
      - by rewrite (load_cache_miss _ (set_cache_dirs d w) (or_intror Hc)),
          (load_cache_miss _ w (or_intror Hc)).
      - by rewrite (load_cache_doc _ (set_cache_dirs d w) ts ds Hc),
          (load_cache_doc _ w ts ds Hc).
      - by rewrite (load_cache_miss _ (set_cache_dirs d w) (or_introl Hc)),
          (load_cache_miss _ w (or_introl Hc)). }
    rewrite <- Hsame in Hmiss.
    destruct (load_cache_keeps (cache_file task None) (set_cache_dirs d w))
      as (Hcache & Hs3 & _).
    assert (Hraise : exists w1,
      list_datasets task None w = (Raise e, w1) /\ cache w1 = cache w).
    { unfold list_datasets. rewrite (bind_ret_run _ _ _ _ _ Hrun).
      unfold bind at 1.
      destruct (load_cache (cache_file task None) (set_cache_dirs d w))
        as [r w1].
      cbn [fst snd] in *.
      assert (Hreq : request_listing (task_prefix (get_s3_task_path task)) w1
                     = (Raise e, set_log (log w1 ++ [EvList (task_prefix
                                            (get_s3_task_path task))]) w1)).
      { unfold request_listing. rewrite Hs3. wsimpl. by rewrite Hfail. }
      destruct Hmiss as [-> | ->];
        rewrite (bind_raise_run _ _ _ _ _ Hreq); eexists; by split. }
    destruct Hraise as (w1 & -> & Hc). by split.
Qed.

Lemma listing_failure_propagates_witness :
  s3_list (refusing_world demo_payload 1000 5000) (task_prefix "denoising")
  = Raise (HTTPError 503)
  /\ fst (get_cache_path "denoising" None (refusing_world demo_payload 1000 5000))
     = Ret (cache_file "denoising" None)
  /\ fst (load_cache (cache_file "denoising" None)
            (refusing_world demo_payload 1000 5000)) = Ret None
  /\ fst (list_datasets "denoising" None (refusing_world demo_payload 1000 5000))
     = Raise (HTTPError 503).
Proof.
  assert (Hs : s3_list (refusing_world demo_payload 1000 5000)
                 (task_prefix "denoising") = Raise (HTTPError 503))
    by reflexivity.
  assert (Hp : fst (get_cache_path "denoising" None
                      (refusing_world demo_payload 1000 5000))
               = Ret (cache_file "denoising" None)) by (vm_compute; reflexivity).
  assert (Hl : fst (load_cache (cache_file "denoising" None)
                      (refusing_world demo_payload 1000 5000)) = Ret None)
    by (vm_compute; reflexivity).
  split; [exact Hs|]. split; [exact Hp|]. split; [exact Hl|].
  exact (proj1 (proj2 (listing_failure_propagates "denoising"
                         (refusing_world demo_payload 1000 5000) (HTTPError 503)
                         Hs) Hp (or_introl Hl))).
Defined.

(** ** Splitting a key *)

Lemma split_nonempty (c : ascii) (s : string) : Py.split c s <> [].
Proof.
  destruct s as [|a s]; [discriminate|]. cbn [Py.split].
  destruct (Ascii.eqb a c); [discriminate|].
  destruct (Py.split c s); discriminate.
Qed.

Lemma split_segments_clean (c : ascii) (s : string) :
  Forall (fun w => has_char c w = false) (Py.split c s).
Proof.
  induction s as [|a s IH]; cbn [Py.split].
  - by repeat constructor.
  - destruct (Ascii.eqb a c) eqn:E; [by constructor|].
    pose proof (split_nonempty c s) as Hne.
    destruct (Py.split c s) as [|w ws]; [done|].
    inversion IH as [|? ? Hw Hws]; subst. constructor; [|done].
    unfold has_char in *. cbn [list_ascii_of_string existsb].
    rewrite Hw. rewrite Ascii.eqb_sym, E. reflexivity.
Qed.

Lemma split_clean (c : ascii) (s : string) :
  has_char c s = false -> Py.split c s = [s].
Proof.
  unfold has_char. induction s as [|a s IH]; [reflexivity|].
  cbn [list_ascii_of_string existsb Py.split].
  intros [Ha Hs]%orb_false_iff.
  rewrite Ascii.eqb_sym, Ha. by rewrite (IH Hs).
Qed.

Lemma rev_app_app (s acc : string) :
  String.rev_app s acc = String.rev_app s "" +:+ acc.
Proof.
  revert acc. induction s as [|a s IH]; intros acc; [reflexivity|].
  cbn [String.rev_app]. rewrite (IH (String a acc)), (IH (String a "")).
  by rewrite append_assoc.
Qed.

Lemma endswith_cons (a b : ascii) (s : string) :
  Py.endswith (String a (String b s)) "/" = Py.endswith (String b s) "/".
Proof.
  unfold Py.endswith, String.rev. cbn [String.rev_app].
  rewrite (rev_app_app s (String b (String a ""))), (rev_app_app s (String b "")).
  destruct (String.rev_app s "") as [|x r]; [reflexivity|].
  change (String.prefix "/" (String x (r +:+ String b (String a "")))
          = String.prefix "/" (String x (r +:+ String b ""))).
  cbn [String.prefix]. destruct (ascii_dec "/" x); [|reflexivity].
  by destruct r.
Qed.

Lemma endswith_single (a : ascii) :
  Py.endswith (String a "") "/" = Ascii.eqb a "/".
Proof.
  unfold Py.endswith, String.rev. cbn [String.rev_app String.prefix].
  destruct (ascii_dec "/" a) as [<-|Hne]; [reflexivity|].
  symmetry. apply Ascii.eqb_neq. congruence.
Qed.

Lemma last_in_list {A} (l : list A) (d : A) : l <> [] -> List.last l d ∈ l.
Proof.
  induction l as [|x l IH]; [done|]. intros _.
  destruct l as [|y l]; [apply list_elem_of_here|].
  apply list_elem_of_further, IH. discriminate.
Qed.

Lemma last_seg_empty (s : string) :
  Py.last_seg (Py.split "/" s) = "" -> s = "" \/ Py.endswith s "/" = true.
Proof.
  unfold Py.last_seg.
  induction s as [|a s IH]; intros Hl; [by left|]. right.
  cbn [Py.split] in Hl. destruct (Ascii.eqb a "/") eqn:Ea.
  - apply Ascii.eqb_eq in Ea as ->.
    pose proof (split_nonempty "/" s) as Hne.
    destruct (Py.split "/" s) as [|w ws] eqn:Hs; [done|].
    change (List.last ("" :: w :: ws) "") with (List.last (w :: ws) "") in Hl.
    destruct (IH Hl) as [-> | He]; [reflexivity|].
    destruct s as [|b s]; [discriminate|]. by rewrite endswith_cons.
  - destruct (Py.split "/" s) as [|w ws] eqn:Hs; [discriminate|].
    destruct ws as [|w' ws]; [discriminate|].
    change (List.last (String a w :: w' :: ws) "")
      with (List.last (w :: w' :: ws) "") in Hl.
    destruct (IH Hl) as [-> | He]; [discriminate|].
    destruct s as [|b s]; [discriminate|]. by rewrite endswith_cons.
Qed.

(** X7.  Every file record returned for a dataset is named after the last
    segment of its key: the name is not empty, holds no slash, and the
    local path the file is fetched to lies directly in the dataset
    directory (the name is one segment of it), unless the name is a lone
    dot. *)
Theorem listed_file_names
    (task dataset_name : string) (w w' : World) (files : list entry) :
  list_datasets task (Some dataset_name) w = (Ret files, w') ->
  forall f, f ∈ files ->
    exists key name,
      e_key f = Some key /\ e_name f = Some name
      /\ name = Py.last_seg (Py.split "/" key)
      /\ name <> "" /\ has_char "/" name = false
      /\ (name <> "." ->
          forall dir, path_div dir name = dir ++ [name]).
Proof.
  rewrite list_datasets_files. intros H f Hf.
  destruct (s3_list w _) as [contents|e]; [|discriminate].
  injection H as <- _.
  apply list_elem_of_omap in Hf as (o & _ & Ho).
  apply file_of_spec in Ho as (key & _ & Hk & Hn & _ & _ & Hs & He).
  exists key, (Py.last_seg (Py.split "/" key)).
  assert (Hclean : has_char "/" (Py.last_seg (Py.split "/" key)) = false).
  { pose proof (split_segments_clean "/" key) as Hall.
    pose proof (split_nonempty "/" key) as Hne.
    unfold Py.last_seg.
    destruct (Py.split "/" key) as [|w0 ws]; [done|].
    apply (proj1 (Forall_forall _ _) Hall).
    apply last_in_list. discriminate. }
  assert (Hnonempty : Py.last_seg (Py.split "/" key) <> "").
  { intros Hl. destruct (last_seg_empty key Hl) as [-> | He']; [|congruence].
    unfold Py.startswith, dataset_prefix, task_prefix in Hs. discriminate. }
  repeat split; try done.
  intros Hdot dir. unfold path_div, segments.
  destruct (Py.last_seg (Py.split "/" key)) as [|a name] eqn:Hname; [done|].
  assert (Ha : Ascii.eqb "/" a = false).
  { unfold has_char in Hclean. cbn [list_ascii_of_string existsb] in Hclean.
    by apply orb_false_iff in Hclean as [-> _]. }
  assert (Hstart : Py.startswith (String a name) "/" = false).
  { unfold Py.startswith. cbn [String.prefix].
    destruct (ascii_dec "/" a) as [<-|_]; [|done].
    by rewrite Ascii.eqb_refl in Ha. }
  rewrite Hstart, (split_clean _ _ Hclean).
  cbn [filter list_filter]. rewrite decide_True; [reflexivity|]. by split.
Qed.

Lemma listed_file_names_witness :
  fst (list_datasets "denoising" (Some "pancreas") pancreas_remote)
  = Ret pancreas_files
  /\ path_div (dataset_dir_of "pancreas") "train.h5ad"
     = dataset_dir_of "pancreas" ++ ["train.h5ad"].
Proof.
  split; [reflexivity|].
  destruct (listed_file_names "denoising" "pancreas" pancreas_remote
              (snd (list_datasets "denoising" (Some "pancreas") pancreas_remote))
              pancreas_files eq_refl
              (file_record "train.h5ad"
                 "resources/denoising/datasets/pancreas/train.h5ad" 3
                 "900150983cd24fb0d6963f7d28e17f72")
              (list_elem_of_here _ _))
    as (key & name & _ & Hn & _ & _ & _ & Hp).
  injection Hn as <-. apply Hp. discriminate.
Defined.

(* ===================================================================== *)
(** * Further properties of the listing cache *)
(* ===================================================================== *)


(** X9.  [save_cache] writes at most the cache file it is given: every
    other cache file, the cache directories, the local tree, the terminal
    and the log are left as they were. *)
Theorem save_cache_frame (p p' : path) (l : list entry) (w : World) :
  p <> p' ->
  cache (snd (save_cache p l w)) !! p' = cache w !! p'
  /\ cache_dirs (snd (save_cache p l w)) = cache_dirs w
  /\ fs (snd (save_cache p l w)) = fs w
  /\ stdin (snd (save_cache p l w)) = stdin w
  /\ log (snd (save_cache p l w)) = log w.
Proof.
  intros Hne. destruct (cache_accepts w p) eqn:Hacc.
  - rewrite (save_cache_writable _ _ _ Hacc). wsimpl. repeat split.
    by rewrite lookup_insert_ne.
  - by rewrite (save_cache_refused _ _ _ Hacc).
Qed.

Lemma save_cache_frame_witness :
  cache_file "denoising" None <> cache_file "denoising" (Some "pancreas")
  /\ cache (snd (save_cache (cache_file "denoising" None) demo_payload
                   (cached_world demo_payload 1000 2000)))
       !! cache_file "denoising" (Some "pancreas")
     = None.
Proof.
  assert (Hne : cache_file "denoising" None
                <> cache_file "denoising" (Some "pancreas"))
    by (vm_compute; discriminate).
  split; [exact Hne|].
  rewrite (proj1 (save_cache_frame _ _ demo_payload
                    (cached_world demo_payload 1000 2000) Hne)).
  vm_compute. reflexivity.
Defined.

Lemma has_char_append (c : ascii) (s t : string) :
  has_char c (s +:+ t) = has_char c s || has_char c t.
Proof.
  unfold has_char. induction s as [|a s IH]; [reflexivity|].
  change (String a s +:+ t) with (String a (s +:+ t)).
  cbn [list_ascii_of_string existsb]. by rewrite IH, orb_assoc.
Qed.

Lemma replace_removes (a b : ascii) (s : string) :
  a <> b -> has_char a (Py.replace a b s) = false.
Proof.
  intros Hne. unfold has_char, Py.replace.
  induction s as [|c s IH]; [reflexivity|].
  cbn [Py.map_chars list_ascii_of_string existsb]. rewrite IH, orb_false_r.
  destruct (Ascii.eqb_spec c a) as [->|Hc].
  - by apply Ascii.eqb_neq.
  - apply Ascii.eqb_neq. congruence.
Qed.

Lemma append_not_short (s : string) :
  s +:+ ".json" <> "" /\ s +:+ ".json" <> ".".
Proof.
  destruct s as [|a [|b s]]; split; discriminate.
Qed.

Lemma segments_plain (s : string) :
  has_char "/" s = false -> s <> "" -> s <> "." -> segments s = [s].
Proof.
  intros Hc Hn Hd. unfold segments. rewrite (split_clean _ _ Hc).
  cbn [filter list_filter]. by rewrite decide_True.
Qed.

Lemma startswith_slash (s : string) :
  has_char "/" s = false -> Py.startswith s "/" = false.
Proof.
  unfold has_char, Py.startswith. destruct s as [|a s]; [reflexivity|].
  cbn [list_ascii_of_string existsb String.prefix].
  intros [Ha _]%orb_false_iff.
  destruct (ascii_dec "/" a) as [<-|_]; [|reflexivity].
  by rewrite Ascii.eqb_refl in Ha.
Qed.

(** X10.  The cache file that [get_cache_path] names is a single file
    directly in the task's cache directory: its name holds no slash, and
    is the dataset name with every slash turned into an underscore,
    followed by [.json], or [datasets.json] without a dataset name (or
    with an empty one). *)
Theorem cache_path_flat (task : string) (dataset_name : option string)
    (w : World) (p : path) :
  fst (get_cache_path task dataset_name w) = Ret p ->
  exists name,
    p = path_div (Path ".cache") task ++ [name]
    /\ has_char "/" name = false
    /\ name = match dataset_name with
              | Some (String _ _ as dn) => Py.replace "/" "_" dn +:+ ".json"
              | _ => "datasets.json"
              end.
Proof.
  intros Hp. destruct (get_cache_path_returns _ _ _ _ Hp) as [d Hrun].
  rewrite Hrun in Hp. injection Hp as <-.
  assert (Hplain : forall name,
            has_char "/" name = false -> name <> "" -> name <> "." ->
            path_div (path_div (Path ".cache") task) name
            = path_div (Path ".cache") task ++ [name]).
  { intros name Hc H1 H2. unfold path_div at 1.
    by rewrite (startswith_slash _ Hc), (segments_plain _ Hc H1 H2). }
  unfold cache_file. destruct dataset_name as [[|a dn]|].
  - exists "datasets.json". split; [|by split]. by apply Hplain.
  - exists (Py.replace "/" "_" (String a dn) +:+ ".json").
    assert (Hc : has_char "/" (Py.replace "/" "_" (String a dn) +:+ ".json")
                 = false).
    { rewrite has_char_append, replace_removes by discriminate. reflexivity. }
    destruct (append_not_short (Py.replace "/" "_" (String a dn))) as [H1 H2].
    split; [|by split]. by apply Hplain.
  - exists "datasets.json". split; [|by split]. by apply Hplain.
Qed.

Lemma cache_path_flat_witness :
  fst (get_cache_path "denoising" (Some "cellxgene_census/dkd")
         (quiet_world 0%float))
  = Ret [".cache"; "denoising"; "cellxgene_census_dkd.json"]
  /\ exists name,
       [".cache"; "denoising"; "cellxgene_census_dkd.json"]
       = path_div (Path ".cache") "denoising" ++ [name]
       /\ has_char "/" name = false.
Proof.
  assert (Hp : fst (get_cache_path "denoising" (Some "cellxgene_census/dkd")
                      (quiet_world 0%float))
               = Ret [".cache"; "denoising"; "cellxgene_census_dkd.json"])
    by (vm_compute; reflexivity).
  split; [exact Hp|].
  destruct (cache_path_flat _ _ _ _ Hp) as (name & H1 & H2 & _).
  exists name. by split.
Defined.

(* ===================================================================== *)
(** * Further properties of the transfer backends *)
(* ===================================================================== *)

(** The world the accelerated backend leaves behind. *)
Lemma fetch_file_aria2_world (url : string) (p : path) (md5 : string)
    (size : Z) (w : World) :
  snd (fetch_file_aria2 url p md5 size w)
  = if aria2_installed w
    then set_log (log w ++ [EvAria2 (aria2_cmd url p md5)])
           (set_fs (snd (aria2c w (aria2_cmd url p md5) (fs w))) w)
    else w.
Proof.
  unfold fetch_file_aria2, bind, check_aria2, try_except, subprocess_run.
  destruct (aria2_installed w); cbn [negb]; [|reflexivity].
  destruct (aria2c w (aria2_cmd url p md5) (fs w)) as [[code|e] f'];
    cbn [snd]; [|reflexivity].
  destruct (code =? 0); [|reflexivity].
  unfold stat_size. wsimpl.
  destruct (f' !! p) as [[data|sz]|];
    [destruct (negb _)|destruct (negb _)|]; reflexivity.
Qed.

(** X11.  The accelerated backend never raises.  Without [aria2c] it
    returns false and touches nothing; with it, the tool is run exactly
    once, and the world afterwards is the one the tool left plus that one
    log entry. *)
Theorem aria2_backend_total (url : string) (p : path) (md5 : string)
    (size : Z) (w : World) :
  (exists b, fst (fetch_file_aria2 url p md5 size w) = Ret b)
  /\ snd (fetch_file_aria2 url p md5 size w)
     = if aria2_installed w
       then set_log (log w ++ [EvAria2 (aria2_cmd url p md5)])
              (set_fs (snd (aria2c w (aria2_cmd url p md5) (fs w))) w)
       else w.
Proof.
  split; [|apply fetch_file_aria2_world].
  unfold fetch_file_aria2, bind, check_aria2, try_except, subprocess_run.
  destruct (aria2_installed w); cbn [negb]; [|eauto].
  destruct (aria2c w (aria2_cmd url p md5) (fs w)) as [[code|e] f']; [|eauto].
  destruct (code =? 0); [|eauto].
  unfold stat_size. wsimpl.
  destruct (f' !! p) as [[data|sz]|];
    [destruct (negb _)|destruct (negb _)|]; eauto.
Qed.

(** X12.  The accelerated backend answers true only when [aria2c] is
    installed, exited with code 0, and left at the local path an object
    whose [st_size] is the expected size. *)
Theorem aria2_success_postcondition (url : string) (p : path) (md5 : string)
    (size : Z) (w : World) :
  fst (fetch_file_aria2 url p md5 size w) = Ret true ->
  aria2_installed w = true
  /\ fst (aria2c w (aria2_cmd url p md5) (fs w)) = Ret 0
  /\ exists nd, fs (snd (fetch_file_aria2 url p md5 size w)) !! p = Some nd
                /\ node_size nd = size.
Proof.
  unfold fetch_file_aria2, bind, check_aria2, try_except, subprocess_run.
  destruct (aria2_installed w); cbn [negb]; [|discriminate].
  destruct (aria2c w (aria2_cmd url p md5) (fs w)) as [[code|e] f'];
    [|discriminate].
  destruct (Z.eqb_spec code 0) as [->|_]; [|discriminate].
  unfold stat_size. wsimpl.
  destruct (f' !! p) as [nd|] eqn:Hp; [|discriminate].
  destruct nd as [data|sz]; cbn [node_size];
    match goal with
    | |- context [negb (?a =? size)] => destruct (Z.eqb_spec a size) as [E|_]
    end; cbn [negb ret fst snd]; try discriminate;
    intros _; wsimpl; rewrite Hp; eauto.
Qed.

Lemma aria2_success_postcondition_witness :
  fst (fetch_file_aria2 abc_url abc_path "abc123-2" 3 aria2_world) = Ret true
  /\ exists nd,
       fs (snd (fetch_file_aria2 abc_url abc_path "abc123-2" 3 aria2_world))
         !! abc_path = Some nd
       /\ node_size nd = 3.
Proof.
  assert (H : fst (fetch_file_aria2 abc_url abc_path "abc123-2" 3 aria2_world)
              = Ret true) by reflexivity.
  split; [exact H|].
  exact (proj2 (proj2 (aria2_success_postcondition _ _ _ _ _ H))).
Defined.

Lemma Ret_inj {A} (a b : A) : Ret a = Ret b -> a = b.
Proof. by intros [= ->]. Qed.

(** The fallback backend is its body guarded by [fallback_cleanup]. *)
Lemma fallback_request_failed (url : string) (p : path) (md5 : string)
    (size : Z) (w : World) (e : exn) :
  s3_get w url = GetFail e ->
  fetch_file_fallback url p md5 size w
  = fallback_cleanup p (set_log (log w ++ [EvHttpGet url]) w).
Proof.
  intros Hget. unfold fetch_file_fallback, try_except.
  unfold bind at 1. unfold requests_get_stream. by rewrite Hget.
Qed.

Lemma fallback_open_failed (url : string) (p : path) (md5 : string)
    (size : Z) (w : World) cl chunks fault :
  s3_get w url = GetStream cl chunks fault ->
  (is_Some (fs w !! p) /\ (exists sz, fs w !! p = Some (Dir sz))
   \/ (forall sz, fs w !! p <> Some (Dir sz))
      /\ is_dir (fs w) (path_parent p) = false) ->
  fetch_file_fallback url p md5 size w
  = fallback_cleanup p (set_log (log w ++ [EvHttpGet url]) w).
Proof.
  intros Hget Hopen. unfold fetch_file_fallback, try_except.
  unfold bind at 1. unfold requests_get_stream. rewrite Hget.
  unfold bind at 1. unfold open_wb. wsimpl.
  destruct Hopen as [[_ [sz Hd]]|[Hnd Hpar]].
  - by rewrite Hd.
  - rewrite Hpar. by destruct (fs w !! p) as [[data|sz]|].
Qed.

Lemma fallback_cleanup_run (p : path) (w : World) :
  p <> [] ->
  (forall sz, fs w !! p <> Some (Dir sz)) ->
  fallback_cleanup p w = (Ret false, set_fs (delete p (fs w)) w).
Proof.
  intros Hne Hnd. unfold fallback_cleanup, bind, path_exists, unlink, ret.
  destruct (fs w !! p) as [[data|sz]|] eqn:Hp.
  - rewrite bool_decide_true by (right; eauto). by rewrite Hp.
  - by destruct (Hnd sz).
  - rewrite bool_decide_false by (intros [?|[? ?]]; done).
    by rewrite (set_fs_id w) by (by rewrite delete_id).
Qed.

Lemma fallback_cleanup_directory (p : path) (w : World) (sz : Z) :
  fs w !! p = Some (Dir sz) ->
  fallback_cleanup p w = (Raise IsADirectoryError, w).
Proof.
  intros Hp. unfold fallback_cleanup, bind, path_exists, unlink.
  rewrite bool_decide_true by (right; eauto). by rewrite Hp.
Qed.

(** Every way the fallback backend can run, for a local path that is not
    a directory. *)
Lemma fallback_cases (url : string) (p : path) (md5 : string)
    (size : Z) (w : World) :
  p <> [] ->
  (forall sz, fs w !! p <> Some (Dir sz)) ->
  log (snd (fetch_file_fallback url p md5 size w)) = log w ++ [EvHttpGet url]
  /\ match s3_get w url with
     | GetStream _ chunks None =>
         if is_dir (fs w) (path_parent p) then
           fst (fetch_file_fallback url p md5 size w)
           = Ret ((Z.of_nat (length (mjoin chunks)) =? size)
                  && String.eqb (MD5.hexdigest (mjoin chunks)) md5)
           /\ fs (snd (fetch_file_fallback url p md5 size w))
              = <[p := File (mjoin chunks)]> (fs w)
         else
           fst (fetch_file_fallback url p md5 size w) = Ret false
           /\ fs (snd (fetch_file_fallback url p md5 size w)) = delete p (fs w)
     | _ =>
         fst (fetch_file_fallback url p md5 size w) = Ret false
         /\ fs (snd (fetch_file_fallback url p md5 size w)) = delete p (fs w)
     end.
Proof.
  intros Hne Hnd.
  assert (Hclean :
    fetch_file_fallback url p md5 size w
    = fallback_cleanup p (set_log (log w ++ [EvHttpGet url]) w) ->
    log (snd (fetch_file_fallback url p md5 size w)) = log w ++ [EvHttpGet url]
    /\ fst (fetch_file_fallback url p md5 size w) = Ret false
    /\ fs (snd (fetch_file_fallback url p md5 size w)) = delete p (fs w)).
  { intros ->. rewrite fallback_cleanup_run by done. by wsimpl. }
  destruct (s3_get w url) as [e|cl chunks fault] eqn:Hget.
  - destruct (Hclean (fallback_request_failed _ _ _ _ _ _ Hget)) as (? & ? & ?).
    auto.
  - destruct (is_dir (fs w) (path_parent p)) eqn:Hpar.
    + destruct fault as [e|].
      * assert (Hrun : fetch_file_fallback url p md5 size w
                       = (Ret false,
                          set_fs (delete p (fs w))
                            (set_log (log w ++ [EvHttpGet url]) w))).
        { unfold fetch_file_fallback, try_except.
          unfold bind at 1. unfold requests_get_stream. rewrite Hget.
          unfold bind at 1. unfold open_wb. cbn [fs set_log].
          destruct (fs w !! p) as [[data|sz]|] eqn:Hp; [|by destruct (Hnd sz)|];
            rewrite Hpar;
            (unfold bind at 1; fold (write_body p);
             erewrite (write_chunks p chunks _ []);
               [|wsimpl; apply lookup_insert_eq];
             wsimpl; cbn [app]; rewrite insert_insert_eq;
             unfold bind at 1; unfold raise at 1;
             fold (fallback_cleanup p);
             rewrite fallback_cleanup_run;
               [|done|wsimpl; rewrite lookup_insert_eq; congruence];
             wsimpl; by rewrite delete_insert_eq). }
        rewrite Hrun. by wsimpl.
      * destruct (fetch_file_fallback_completed url p md5 size w cl chunks
                    Hget Hnd Hpar) as (w' & -> & Hfs & Hlog).
        by wsimpl.
    + assert (Hrun : fetch_file_fallback url p md5 size w
                     = fallback_cleanup p (set_log (log w ++ [EvHttpGet url]) w)).
      { eapply fallback_open_failed; eauto. }
      destruct (Hclean Hrun) as (? & ? & ?). by destruct fault.
Qed.

(** X13.  The fallback backend answers true only when the whole body was
    streamed without fault and is now the file at the local path, with
    the expected size and the expected MD5 digest; it made one request. *)
Theorem fallback_success_postcondition (url : string) (p : path) (md5 : string)
    (size : Z) (w : World) :
  p <> [] ->
  fst (fetch_file_fallback url p md5 size w) = Ret true ->
  exists cl chunks,
    s3_get w url = GetStream cl chunks None
    /\ fs (snd (fetch_file_fallback url p md5 size w)) !! p
       = Some (File (mjoin chunks))
    /\ Z.of_nat (length (mjoin chunks)) = size
    /\ MD5.hexdigest (mjoin chunks) = md5
    /\ log (snd (fetch_file_fallback url p md5 size w)) = log w ++ [EvHttpGet url].
Proof.
  intros Hne Htrue.
  destruct (fs w !! p) as [[data|sz]|] eqn:Hp.
  2:{ exfalso. revert Htrue.
      destruct (s3_get w url) as [e|cl chunks fault] eqn:Hget.
      - rewrite (fallback_request_failed _ _ _ _ _ _ Hget).
        rewrite (fallback_cleanup_directory p _ sz) by (wsimpl; exact Hp).
        discriminate.
      - rewrite (fallback_open_failed _ _ _ _ _ _ _ _ Hget)
          by (left; eauto).
        rewrite (fallback_cleanup_directory p _ sz) by (wsimpl; exact Hp).
        discriminate. }
  all: assert (Hnd : forall sz, fs w !! p <> Some (Dir sz))
         by (intros sz; rewrite Hp; discriminate).
  all: destruct (fallback_cases url p md5 size w Hne Hnd) as [Hlog Hc].
  all: destruct (s3_get w url) as [e|cl chunks [e|]];
         try (rewrite (proj1 Hc) in Htrue; discriminate).
  all: destruct (is_dir (fs w) (path_parent p));
         [|rewrite (proj1 Hc) in Htrue; discriminate].
  all: destruct Hc as [Hr Hfs]; rewrite Hr in Htrue.
  all: apply Ret_inj, andb_true_iff in Htrue as [Hs Hm].
  all: exists cl, chunks; rewrite Hfs, lookup_insert_eq.
  all: repeat split; auto; [by apply Z.eqb_eq|by apply String.eqb_eq].
Qed.

Lemma fallback_success_postcondition_witness :
  abc_path <> []
  /\ fst (fetch_file_fallback abc_url abc_path
            "900150983cd24fb0d6963f7d28e17f72" 3 abc_world) = Ret true
  /\ exists cl chunks,
       s3_get abc_world abc_url = GetStream cl chunks None
       /\ fs (snd (fetch_file_fallback abc_url abc_path
                     "900150983cd24fb0d6963f7d28e17f72" 3 abc_world)) !! abc_path
          = Some (File (mjoin chunks)).
Proof.
  assert (Hne : abc_path <> []) by discriminate.
  assert (H : fst (fetch_file_fallback abc_url abc_path
                     "900150983cd24fb0d6963f7d28e17f72" 3 abc_world) = Ret true)
    by (vm_compute; reflexivity).
  split; [exact Hne|]. split; [exact H|].
  destruct (fallback_success_postcondition _ _ _ _ _ Hne H)
    as (cl & chunks & Hget & Hfs & _).
  exists cl, chunks. split; [exact Hget|exact Hfs].
Defined.





(** ** Components of the world that a computation leaves alone *)

Lemma keeps_ret {A B} (proj : World -> B) (a : A) : keeps proj (ret a).
Proof. by intros w. Qed.

Lemma keeps_raise {A B} (proj : World -> B) (e : exn) : keeps proj (@raise A e).
Proof. by intros w. Qed.

Lemma keeps_reads {A B} (proj : World -> B) (m : M A) : reads m -> keeps proj m.
Proof. intros H w. by rewrite H. Qed.

Lemma keeps_bind {A B C} (proj : World -> C) (m : M A) (k : A -> M B) :
  keeps proj m -> (forall a, keeps proj (k a)) -> keeps proj (bind m k).
Proof.
  intros Hm Hk w. unfold bind. specialize (Hm w).
  destruct (m w) as [[a|e] w1]; cbn [snd] in *; [|done].
  by rewrite Hk.
Qed.

Lemma keeps_try {A C} (proj : World -> C) (m : M A) (h : exn -> M A) :
  keeps proj m -> (forall e, keeps proj (h e)) -> keeps proj (try_except m h).
Proof.
  intros Hm Hh w. unfold try_except. specialize (Hm w).
  destruct (m w) as [[a|e] w1]; cbn [snd] in *; [done|].
  by rewrite Hh.
Qed.

Lemma keeps_for_each {A C} (proj : World -> C) (l : list A) (body : A -> M unit) :
  (forall x, keeps proj (body x)) -> keeps proj (for_each l body).
Proof.
  intros Hb. induction l as [|x l IH]; [apply keeps_ret|].
  cbn [for_each]. apply keeps_bind; auto.
Qed.

Lemma keeps_for_fold {A S C} (proj : World -> C) (l : list A)
    (body : S -> A -> M S) :
  (forall acc x, keeps proj (body acc x)) ->
  forall acc, keeps proj (for_fold l acc body).
Proof.
  intros Hb. induction l as [|x l IH]; intros acc; [apply keeps_ret|].
  cbn [for_fold]. apply keeps_bind; auto.
Qed.

(** The file-system primitives change nothing but the local tree. *)
Section tree_only.
Context {C : Type} (proj : World -> C).
Hypothesis proj_set_fs : forall f w, proj (set_fs f w) = proj w.

Lemma keeps_open_wb (p : path) : keeps proj (open_wb p).
Proof.
  intros w. unfold open_wb.
  destruct (fs w !! p) as [[|]|]; try done;
    destruct (is_dir _ _); cbn [snd]; auto.
Qed.

Lemma keeps_write_body (p : path) (chunk : list byte) :
  keeps proj (write_body p chunk).
Proof.
  intros w. destruct chunk as [|b c]; [done|].
  unfold write_body, write_chunk.
  destruct (fs w !! p) as [[|]|]; cbn [snd]; auto.
Qed.

Lemma keeps_unlink (p : path) : keeps proj (unlink p).
Proof.
  intros w. unfold unlink. destruct (fs w !! p) as [[|]|]; cbn [snd]; auto.
Qed.


Lemma keeps_calculate_md5 (p : path) : keeps proj (calculate_md5 p).
Proof.
  intros w. unfold calculate_md5. by destruct (fs w !! p) as [[|]|].
Qed.

Lemma keeps_fallback_cleanup (p : path) : keeps proj (fallback_cleanup p).
Proof.
  unfold fallback_cleanup.
  apply keeps_bind; [apply keeps_reads, reads_path_exists|]. intros ex.
  apply keeps_bind; [|intros; apply keeps_ret].
  destruct ex; [apply keeps_unlink|apply keeps_ret].
Qed.

(** After the request, the fallback backend works on the tree only. *)
Lemma fetch_file_fallback_keeps (url : string) (p : path) (md5 : string)
    (size : Z) (w : World) :
  proj (snd (fetch_file_fallback url p md5 size w))
  = proj (set_log (log w ++ [EvHttpGet url]) w).
Proof.
  unfold fetch_file_fallback, try_except.
  unfold bind at 1. unfold requests_get_stream.
  destruct (s3_get w url) as [e|cl chunks fault].
  - fold (fallback_cleanup p). apply keeps_fallback_cleanup.
  - match goal with
    | |- context [match ?body ?w0 with _ => _ end] =>
        assert (Hk : keeps proj body); [|specialize (Hk w0);
                                         destruct (body w0) as [[b|e] w1]]
    end.
    + apply keeps_bind; [apply keeps_open_wb|]. intros _.
      apply keeps_bind; [apply keeps_for_each, keeps_write_body|]. intros _.
      apply keeps_bind.
      { destruct fault; [apply keeps_raise|apply keeps_ret]. }
      intros _. apply keeps_bind; [apply keeps_reads, reads_stat_size|].
      intros actual. destruct (negb _); [apply keeps_ret|].
      apply keeps_bind; [apply keeps_calculate_md5|].
      intros h. destruct (negb _); apply keeps_ret.
    + exact Hk.
    + fold (fallback_cleanup p). rewrite keeps_fallback_cleanup. exact Hk.
Qed.

End tree_only.

Lemma fetch_file_log (url : string) (p : path) (md5 : string) (size : Z)
    (w : World) :
  log (snd (fetch_file url p md5 size w)) = log w ++ [attempt_event w url p md5].
Proof.
  unfold fetch_file, bind, check_aria2, attempt_event.
  destruct (aria2_installed w) eqn:Hi.
  - rewrite (fetch_file_aria2_world url p md5 size w), Hi. by wsimpl.
  - by rewrite (fetch_file_fallback_keeps log).
Qed.

(** [fetch_file] never touches the terminal or the cache. *)
Lemma keeps_fetch_file {C} (proj : World -> C) (url : string) (p : path)
    (md5 : string) (size : Z) :
  (forall f w, proj (set_fs f w) = proj w) ->
  (forall l w, proj (set_log l w) = proj w) ->
  keeps proj (fetch_file url p md5 size).
Proof.
  intros Hfs Hlog w. unfold fetch_file, bind, check_aria2.
  destruct (aria2_installed w) eqn:Hi.
  - rewrite (fetch_file_aria2_world url p md5 size w), Hi.
    by rewrite Hlog, Hfs.
  - by rewrite (fetch_file_fallback_keeps proj Hfs), Hlog.
Qed.

(** X16.  Picking a backend, the program makes exactly one transfer
    attempt per call: one run of [aria2c] when it is installed, one GET
    otherwise, and never a GET after a failed [aria2c] run.  The terminal
    and the cache are not touched. *)
Theorem fetch_file_one_attempt (url : string) (p : path) (md5 : string)
    (size : Z) (w : World) :
  log (snd (fetch_file url p md5 size w))
  = log w ++ [if aria2_installed w then EvAria2 (aria2_cmd url p md5)
              else EvHttpGet url]
  /\ stdin (snd (fetch_file url p md5 size w)) = stdin w
  /\ cache (snd (fetch_file url p md5 size w)) = cache w.
Proof.
  split; [apply fetch_file_log|].
  split; by apply keeps_fetch_file.
Qed.

(* ===================================================================== *)
(** * Further properties of the orchestrator *)
(* ===================================================================== *)

Lemma transfers_inputs (n : nat) : transfers (repeat EvInput n) = [].
Proof. induction n as [|n IH]; [reflexivity|exact IH]. Qed.
















Lemma path_div_nonempty (dir : path) (s : string) :
  dir <> [] -> path_div dir s <> [].
Proof.
  intros Hne. unfold path_div, Path.
  destruct (Py.startswith s "/"); [discriminate|].
  by destruct dir.
Qed.

Lemma set_log_same (w : World) : set_log (log w) w = w.
Proof. by destruct w. Qed.

(** A worker whose request is refused. *)
Lemma worker_fails (dir : path) (file_info : entry) (w : World) :
  dir <> [] ->
  aria2_installed w = false ->
  (forall url, exists e, s3_get w url = GetFail e) ->
  unfetched (fs w) dir file_info ->
  download_single_file_worker file_info dir w
  = (failed dir file_info, set_log (log w ++ [EvHttpGet (url_of file_info)]) w).
Proof.
  intros Hdir Hno Hget (name & key & size & md5 & Hn & Hk & Hs & Hm & Hp).
  unfold download_single_file_worker, failed, url_of.
  rewrite Hn, Hk, Hs, Hm. cbn [getitem default].
  rewrite (bind_ret_run _ _ w w name eq_refl).
  rewrite (bind_ret_run _ _ w w key eq_refl).
  assert (Hex : path_exists (path_div dir name) w = (Ret false, w)).
  { unfold path_exists. rewrite bool_decide_false; [done|].
    intros [H|[nd H]]; [by apply (path_div_nonempty dir name)|].
    by rewrite Hp in H. }
  rewrite (bind_ret_run _ _ _ _ _ Hex).
  rewrite (bind_ret_run _ _ w w false eq_refl).
  rewrite (bind_ret_run _ _ w w md5 eq_refl).
  rewrite (bind_ret_run _ _ w w size eq_refl).
  destruct (Hget (BASE_URL_RAW +:+ key)) as [e He].
  assert (Hfetch : fetch_file (BASE_URL_RAW +:+ key) (path_div dir name) md5 size w
                   = (Ret false,
                      set_log (log w ++ [EvHttpGet (BASE_URL_RAW +:+ key)]) w)).
  { unfold fetch_file, bind, check_aria2. rewrite Hno.
    rewrite (fallback_request_failed _ _ _ _ _ _ He).
    rewrite fallback_cleanup_run;
      [|by apply path_div_nonempty|wsimpl; intros sz; by rewrite Hp].
    f_equal. apply set_fs_id. wsimpl. by rewrite delete_id. }
  by rewrite (bind_ret_run _ _ _ _ _ Hfetch).
Qed.

Lemma run_jobs_fail (dir : path) (order : list (nat * entry)) :
  dir <> [] ->
  forall (w : World) (acc : list (outcome (entry * bool * path))),
    aria2_installed w = false ->
    (forall url, exists e, s3_get w url = GetFail e) ->
    Forall (fun job => unfetched (fs w) dir (snd job)) order ->
    for_fold order acc (run_job dir) w
    = (Ret (acc ++ map (fun job => failed dir (snd job)) order),
       set_log (log w ++ map (fun job => EvHttpGet (url_of (snd job))) order) w).
Proof.
  intros Hdir. induction order as [|job order IH]; intros w acc Hno Hget Hall.
  - cbn [for_fold map]. by rewrite !app_nil_r, set_log_same.
  - apply Forall_cons in Hall as [Hjob Hall]. cbn [for_fold map].
    unfold bind at 1. unfold run_job at 1, bind at 1, attempt.
    rewrite (worker_fails dir (snd job) w Hdir Hno Hget Hjob).
    unfold ret at 1.
    rewrite IH by (wsimpl; auto). wsimpl.
    by rewrite <- !app_assoc.
Qed.

Lemma tally_failed (dir : path) (order : list (nat * entry)) (w : World) (n : Z) :
  for_fold (map (fun job => failed dir (snd job)) order) n tally w = (Ret n, w).
Proof.
  induction order as [|job order IH]; [reflexivity|].
  cbn [for_fold map]. unfold bind at 1. unfold tally at 1, failed at 1.
  unfold ret at 1. exact IH.
Qed.

Lemma enumerate1_snd (files : list entry) : map snd (enumerate1 files) = files.
Proof.
  unfold enumerate1. apply snd_zip. by rewrite length_seq.
Qed.

Lemma scan_missing_returns (dir : path) (files : list entry) (w : World) :
  Forall (fun f => is_Some (e_name f) /\ is_Some (e_size f)) files ->
  forall acc, exists n, for_fold files acc
    (fun missing_size file_info =>
       name <- getitem "name" (e_name file_info) ;;
       let local_path := path_div dir name in
       ex <- path_exists local_path ;;
       if negb ex then
         size <- getitem "size" (e_size file_info) ;;
         ret (missing_size + size)
       else ret missing_size) w = (Ret n, w).
Proof.
  induction 1 as [|f files [[name Hn] [size Hs]] _ IH]; intros acc.
  - by exists acc.
  - cbn [for_fold]. rewrite Hn, Hs. cbn [getitem].
    unfold bind at 1. unfold bind at 1. unfold ret at 1.
    unfold bind at 1. unfold path_exists at 1.
    destruct (bool_decide _); cbn [negb]; [apply IH|].
    unfold bind at 1. unfold ret at 1 2. apply IH.
Qed.

(** The listing client and the cache change nothing but the cache, the
    clock position and the log. *)
Section listing_only.
Context {C : Type} (proj : World -> C).
Hypothesis proj_set_tick : forall n w, proj (set_tick n w) = proj w.
Hypothesis proj_set_cache : forall c w, proj (set_cache c w) = proj w.
Hypothesis proj_set_cache_dirs : forall d w, proj (set_cache_dirs d w) = proj w.
Hypothesis proj_set_log : forall l w, proj (set_log l w) = proj w.

Lemma keeps_get_cache_path (task : string) (dataset_name : option string) :
  keeps proj (get_cache_path task dataset_name).
Proof.
  intros w.
  destruct (get_cache_path_cases task dataset_name w) as [[d ->]|[e ->]];
    cbn [snd]; auto.
Qed.

Lemma keeps_load_cache (p : path) : keeps proj (load_cache p).
Proof.
  intros w. destruct (cache w !! p) as [[|ts ds]|] eqn:Hp.
  - by rewrite load_cache_miss by auto.
  - rewrite (load_cache_doc _ _ _ _ Hp). cbn [snd]. apply proj_set_tick.
  - by rewrite load_cache_miss by auto.
Qed.

Lemma keeps_save_cache (p : path) (l : list entry) : keeps proj (save_cache p l).
Proof.
  intros w. destruct (cache_accepts w p) eqn:Hacc.
  - rewrite (save_cache_writable _ _ _ Hacc). cbn [snd].
    by rewrite proj_set_cache, proj_set_tick.
  - rewrite (save_cache_refused _ _ _ Hacc). cbn [snd]. apply proj_set_tick.
Qed.

Lemma keeps_list_datasets (task : string) (dataset_name : option string) :
  keeps proj (list_datasets task dataset_name).
Proof.
  assert (Hreq : forall prefix, keeps proj (request_listing prefix)).
  { intros prefix w. unfold request_listing. by cbn [snd]. }
  unfold list_datasets. destruct dataset_name as [dn|].
  - apply keeps_bind; [apply Hreq|]. intros; apply keeps_ret.
  - apply keeps_bind; [apply keeps_get_cache_path|]. intros cache_path.
    apply keeps_bind; [apply keeps_load_cache|].
    assert (Hfetch : keeps proj
              (contents <- request_listing (task_prefix (get_s3_task_path task)) ;;
               save_cache cache_path
                 (summaries_of (aggregate (task_prefix (get_s3_task_path task))
                                  contents)) ;;;
               ret (summaries_of (aggregate (task_prefix (get_s3_task_path task))
                                    contents)))).
    { apply keeps_bind; [apply Hreq|]. intros contents.
      apply keeps_bind; [apply keeps_save_cache|]. intros; apply keeps_ret. }
    intros [[|e l]|]; [exact Hfetch|apply keeps_ret|exact Hfetch].
Qed.

Lemma keeps_cached_file_list (task dataset_name : string) :
  keeps proj (cached_file_list task dataset_name).
Proof.
  unfold cached_file_list.
  apply keeps_bind; [apply keeps_get_cache_path|]. intros cache_path.
  apply keeps_bind; [apply keeps_load_cache|]. intros [l|]; [apply keeps_ret|].
  apply keeps_bind; [apply keeps_list_datasets|]. intros l.
  apply keeps_bind; [apply keeps_save_cache|]. intros; apply keeps_ret.
Qed.

End listing_only.

(** X18.  No fail-fast: with [aria2c] absent and every request refused,
    fetching a dataset whose directory exists and whose listed files are
    all missing still requests every listed file exactly once (in the
    order of the pool), leaves the local tree as it was, and returns
    false. *)
Theorem refused_requests_are_all_made (task dataset_name : string)
    (max_workers : Z) (w w1 : World) (files : list entry) :
  cached_file_list task dataset_name w = (Ret files, w1) ->
  files <> [] ->
  0 < max_workers ->
  aria2_installed w = false ->
  (forall url, exists e, s3_get w url = GetFail e) ->
  has_dirs (fs w) (dataset_dir_of dataset_name) = true ->
  Forall (unfetched (fs w) (dataset_dir_of dataset_name)) files ->
  exists evs,
    fetch_entire_dataset task dataset_name true max_workers w
    = (Ret false, set_log (log w1 ++ evs) w1)
    /\ evs ≡ₚ map (fun f => EvHttpGet (url_of f)) files
    /\ fs w1 = fs w.
Proof.
  intros Hl Hne Hmw Hno Hget Hdirs Hall.
  pose proof (quiet_cached_file_list task dataset_name w) as Hq.
  rewrite Hl in Hq. cbn [snd] in Hq. destruct Hq as (Hfs & _).
  assert (Hno1 : aria2_installed w1 = false).
  { pose proof (keeps_cached_file_list aria2_installed ltac:(done) ltac:(done) ltac:(done) ltac:(done) task dataset_name w) as H.
    rewrite Hl in H. cbn [snd] in H. by rewrite H. }
  assert (Hget1 : forall url, exists e, s3_get w1 url = GetFail e).
  { pose proof (keeps_cached_file_list s3_get ltac:(done) ltac:(done) ltac:(done) ltac:(done) task dataset_name w) as H.
    rewrite Hl in H. cbn [snd] in H. by rewrite H. }
  assert (Hrank : pool_rank w1 = pool_rank w).
  { pose proof (keeps_cached_file_list pool_rank ltac:(done) ltac:(done) ltac:(done) ltac:(done) task dataset_name w) as H.
    rewrite Hl in H. by cbn [snd] in H. }
  rewrite <- Hfs in Hdirs, Hall.
  set (order := merge_sort (rank_le (pool_rank w1)) (enumerate1 files)).
  assert (Hperm : order ≡ₚ enumerate1 files) by apply merge_sort_Permutation.
  exists (map (fun job => EvHttpGet (url_of (snd job))) order).
  split; [|split; [|exact Hfs]].
  2:{ rewrite (Permutation_map _ Hperm).
      rewrite <- (enumerate1_snd files) at 2. by rewrite map_map. }
  unfold fetch_entire_dataset.
  rewrite (bind_ret_run _ _ _ _ _ Hl).
  destruct files as [|f0 files']; [done|]. cbn [Py.truthy_list negb].
  assert (Hsizes : Forall (fun f => is_Some (e_size f)) (f0 :: files')).
  { eapply Forall_impl; [exact Hall|].
    intros f (? & ? & sz & ? & _ & _ & Hs & _). by rewrite Hs. }
  rewrite (bind_ret_run _ _ _ _ _ (sum_field_total "size" e_size _ w1 Hsizes)).
  fold (dataset_dir_of dataset_name).
  rewrite (bind_ret_run _ _ _ _ _
             (path_exists_present _ _ (has_dirs_exists _ _ Hdirs))).
  destruct (scan_missing_returns (dataset_dir_of dataset_name) (f0 :: files') w1)
    with (acc := 0) as [missing Hscan].
  { eapply Forall_impl; [exact Hall|].
    intros f (? & ? & ? & ? & Hn & _ & Hs & _). rewrite Hn, Hs. eauto. }
  fold (scan_missing (dataset_dir_of dataset_name) (f0 :: files')) in Hscan.
  rewrite (bind_ret_run _ _ _ _ _ Hscan). cbn [negb].
  rewrite (bind_ret_run (ret (@None bool)) _ w1 w1 None eq_refl).
  rewrite (bind_ret_run _ _ _ _ _ (mkdir_p_noop _ _ Hdirs)).
  assert (Hpool : run_pool (dataset_dir_of dataset_name) (f0 :: files')
                    max_workers w1
                  = (Ret 0,
                     set_log (log w1
                              ++ map (fun job => EvHttpGet (url_of (snd job))) order)
                       w1)).
  { unfold run_pool. rewrite (proj2 (Z.leb_gt _ _) Hmw).
    unfold bind at 1. unfold pool_order. fold order.
    rewrite (bind_ret_run _ _ _ _ _
               (run_jobs_fail _ order (dataset_dir_nonempty dataset_name)
                  w1 [] Hno1 Hget1
                  ltac:(rewrite Hperm; by apply enumerate1_Forall))).
    cbn [app]. apply tally_failed. }
  by rewrite (bind_ret_run _ _ _ _ _ Hpool).
Qed.

Lemma refused_requests_are_all_made_witness :
  (cached_file_list "denoising" "pancreas" pancreas_empty_dir
   = (Ret pancreas_files,
      snd (cached_file_list "denoising" "pancreas" pancreas_empty_dir))
   /\ pancreas_files <> []
   /\ 0 < 8
   /\ aria2_installed pancreas_empty_dir = false
   /\ has_dirs (fs pancreas_empty_dir) (dataset_dir_of "pancreas") = true)
  /\ exists evs,
       fetch_entire_dataset "denoising" "pancreas" true 8 pancreas_empty_dir
       = (Ret false,
          set_log
            (log (snd (cached_file_list "denoising" "pancreas" pancreas_empty_dir))
             ++ evs)
            (snd (cached_file_list "denoising" "pancreas" pancreas_empty_dir)))
       /\ evs ≡ₚ map (fun f => EvHttpGet (url_of f)) pancreas_files.
Proof.
  assert (Hl : cached_file_list "denoising" "pancreas" pancreas_empty_dir
               = (Ret pancreas_files,
                  snd (cached_file_list "denoising" "pancreas" pancreas_empty_dir)))
    by (vm_compute; reflexivity).
  assert (Hne : pancreas_files <> []) by discriminate.
  assert (Hmw : 0 < 8) by lia.
  assert (Hno : aria2_installed pancreas_empty_dir = false) by reflexivity.
  assert (Hdirs : has_dirs (fs pancreas_empty_dir) (dataset_dir_of "pancreas") = true)
    by (vm_compute; reflexivity).
  split; [by repeat split|].
  destruct (refused_requests_are_all_made "denoising" "pancreas" 8
              pancreas_empty_dir _ pancreas_files Hl Hne Hmw Hno
              ltac:(intros url; by exists ConnectionError) Hdirs)
    as (evs & Hrun & Hperm & _).
  - unfold pancreas_files.
    apply Forall_cons_2; [|apply Forall_cons_2; [|apply Forall_nil_2]];
      (do 4 eexists; repeat split).
  - exists evs. by split.
Defined.

(** ** The confirmation of a dataset fetch *)

Lemma confirm_loop_no_yes (lines : list string) :
  forallb (fun l => negb (says_yes l)) lines = true ->
  forall asked, fst (fst (confirm_loop lines asked)) <> Ret true.
Proof.
  induction lines as [|l lines IH]; intros Hall asked; [discriminate|].
  cbn [forallb] in Hall. apply andb_true_iff in Hall as [Hl Hall].
  cbn [confirm_loop]. unfold says_yes in Hl.
  destruct (String.eqb (Py.lower (Py.strip l)) "y"); [discriminate|].
  destruct (String.eqb (Py.lower (Py.strip l)) "n"); [discriminate|].
  by apply IH.
Qed.

Lemma Confirm_ask_declined (w : World) :
  forallb (fun l => negb (says_yes l)) (stdin w) = true ->
  exists r w',
    Confirm_ask w = (r, w') /\ r <> Ret true
    /\ fs w' = fs w /\ transfers (log w') = transfers (log w).
Proof.
  intros Hall. unfold Confirm_ask.
  pose proof (confirm_loop_no_yes _ Hall 0%nat) as Hno.
  destruct (confirm_loop (stdin w) 0) as [[r rest] asked]. cbn [fst] in Hno.
  eexists _, _. split; [reflexivity|]. split; [exact Hno|]. wsimpl.
  split; [reflexivity|].
  by rewrite transfers_app, transfers_inputs, app_nil_r.
Qed.

Lemma fetch_entire_dataset_declined (task dataset_name : string)
    (max_workers : Z) (w : World) :
  forallb (fun l => negb (says_yes l)) (stdin w) = true ->
  forall r w',
    fetch_entire_dataset task dataset_name false max_workers w = (r, w') ->
    fs w' = fs w /\ transfers (log w') = transfers (log w).
Proof.
  intros Hall r w'.
  pose proof (quiet_cached_file_list task dataset_name w) as Hq.
  unfold fetch_entire_dataset.
  destruct (cached_file_list task dataset_name w) as [[files|e] w1] eqn:Hl;
    cbn [snd] in Hq.
  2:{ rewrite (bind_raise_run _ _ _ _ _ Hl). intros [= <- <-].
      split; [apply Hq|by apply quiet_transfers]. }
  assert (Hw1 : fs w1 = fs w /\ transfers (log w1) = transfers (log w))
    by (split; [apply Hq|by apply quiet_transfers]).
  assert (Hin : forallb (fun l => negb (says_yes l)) (stdin w1) = true).
  { destruct Hq as (_ & -> & _). exact Hall. }
  rewrite (bind_ret_run _ _ _ _ _ Hl).
  destruct (negb (Py.truthy_list files)); [by intros [= <- <-]|].
  destruct (reads_run (sum_field "size" e_size files) w1
              (reads_sum_field _ _ _)) as [[total|e] Hsum].
  2:{ rewrite (bind_raise_run _ _ _ _ _ Hsum). by intros [= <- <-]. }
  rewrite (bind_ret_run _ _ _ _ _ Hsum).
  fold (dataset_dir_of dataset_name).
  destruct (reads_run (path_exists (dataset_dir_of dataset_name)) w1
              (reads_path_exists _)) as [[ex|e] Hex].
  2:{ rewrite (bind_raise_run _ _ _ _ _ Hex). by intros [= <- <-]. }
  rewrite (bind_ret_run _ _ _ _ _ Hex).
  assert (Hm : exists rm,
             (if ex then scan_missing (dataset_dir_of dataset_name) files
              else ret total) w1 = (rm, w1)).
  { apply reads_run. destruct ex; [apply reads_scan_missing|apply reads_ret]. }
  destruct Hm as [[missing|e] Hm].
  2:{ rewrite (bind_raise_run _ _ _ _ _ Hm). by intros [= <- <-]. }
  rewrite (bind_ret_run _ _ _ _ _ Hm). cbn [negb].
  destruct (0 <? missing).
  - destruct (Confirm_ask_declined w1 Hin) as (rc & w2 & Hc & Hno & Hfs & Htr).
    destruct rc as [[|]|e]; [done| |].
    + rewrite (bind_ret_run _ _ w1 w2 (Some false))
        by (by rewrite (bind_ret_run _ _ _ _ _ Hc)).
      intros [= <- <-]. destruct Hw1. split; congruence.
    + rewrite (bind_raise_run _ _ w1 w2 e)
        by (by rewrite (bind_raise_run _ _ _ _ _ Hc)).
      intros [= <- <-]. destruct Hw1. split; congruence.
  - rewrite (bind_ret_run (ret (Some true)) _ w1 w1 (Some true) eq_refl).
    by intros [= <- <-].
Qed.

(** X19.  The confirmation gate of a dataset fetch: in the confirming
    mode, as long as no line waiting on the terminal is a yes for
    [Confirm.ask] (the letter y, in either case, with surrounding
    whitespace), nothing is transferred and the local tree stays as it
    was; not even the dataset directory is created. *)
Theorem dataset_confirmation_gate (task dataset_name : string)
    (max_workers : Z) (w : World) :
  forallb (fun l => negb (says_yes l)) (stdin w) = true ->
  fs (snd (fetch_entire_dataset task dataset_name false max_workers w)) = fs w
  /\ transfers (log (snd (fetch_entire_dataset task dataset_name false
                            max_workers w)))
     = transfers (log w).
Proof.
  intros Hall.
  destruct (fetch_entire_dataset task dataset_name false max_workers w)
    as [r w'] eqn:Hrun.
  exact (fetch_entire_dataset_declined _ _ _ _ Hall _ _ Hrun).
Qed.

Lemma dataset_confirmation_gate_witness :
  forallb (fun l => negb (says_yes l)) (stdin declining_world) = true
  /\ fst (fetch_entire_dataset "denoising" "pancreas" false 8 declining_world)
     = Ret false
  /\ fs (snd (fetch_entire_dataset "denoising" "pancreas" false 8 declining_world))
     = fs declining_world
  /\ transfers (log (snd (fetch_entire_dataset "denoising" "pancreas" false 8
                            declining_world)))
     = transfers (log declining_world).
Proof.
  assert (Hall : forallb (fun l => negb (says_yes l)) (stdin declining_world) = true)
    by reflexivity.
  split; [exact Hall|]. split; [vm_compute; reflexivity|].
  exact (dataset_confirmation_gate "denoising" "pancreas" 8 declining_world Hall).
Defined.

(** ** Fetching one file *)

Lemma transfers_attempt (w : World) (url : string) (p : path) (md5 : string) :
  transfers [attempt_event w url p md5] = [attempt_event w url p md5].
Proof. unfold attempt_event. by destruct (aria2_installed w). Qed.

(** X20.  A single-file fetch never looks at what is on disk: once the
    name is found in the listing and the dataset directory can be
    created, it makes exactly one transfer attempt for the key of the
    first record of that name, into [datasets/<dataset>/<filename>],
    whether or not the file is already there at the right size. *)
Theorem single_file_always_transfers (task dataset_name filename : string)
    (w w1 : World) (files : list entry) (target : entry)
    (f' : gmap path node) :
  list_datasets task (Some dataset_name) w = (Ret files, w1) ->
  find (named filename) files = Some target ->
  mkdir_from [] (dataset_dir_of dataset_name) (fs w) = Ret f' ->
  exists key md5 size,
    e_key target = Some key /\ e_md5 target = Some md5 /\ e_size target = Some size
    /\ fetch_single_file task dataset_name filename w
       = fetch_file (BASE_URL_RAW +:+ key)
           (path_div (dataset_dir_of dataset_name) filename) md5 size
           (set_fs f' w1)
    /\ transfers (log (snd (fetch_single_file task dataset_name filename w)))
       = transfers (log w)
         ++ [if aria2_installed w
             then EvAria2 (aria2_cmd (BASE_URL_RAW +:+ key)
                             (path_div (dataset_dir_of dataset_name) filename) md5)
             else EvHttpGet (BASE_URL_RAW +:+ key)].
Proof.
  intros Hl Hfind Hmk.
  pose proof (quiet_list_datasets task (Some dataset_name) w) as Hq.
  rewrite Hl in Hq. cbn [snd] in Hq.
  pose proof (keeps_list_datasets aria2_installed ltac:(done) ltac:(done)
                ltac:(done) ltac:(done) task (Some dataset_name) w) as Hi.
  rewrite Hl in Hi. cbn [snd] in Hi.
  assert (Hfields : exists key md5 size,
             e_key target = Some key /\ e_md5 target = Some md5
             /\ e_size target = Some size).
  { pose proof Hl as Hl'. rewrite list_datasets_files in Hl'.
    destruct (s3_list w _) as [contents|e]; [|discriminate].
    injection Hl' as <- _.
    apply find_some in Hfind as [Hin _]. apply list_elem_of_In in Hin.
    apply list_elem_of_omap in Hin as (o & _ & Ho).
    apply file_of_spec in Ho as (key & _ & Hk & _ & Hs & [md5 Hm] & _).
    eauto 10. }
  destruct Hfields as (key & md5 & size & Hk & Hm & Hs).
  exists key, md5, size. split; [exact Hk|]. split; [exact Hm|].
  split; [exact Hs|].
  assert (Hrun : fetch_single_file task dataset_name filename w
                 = fetch_file (BASE_URL_RAW +:+ key)
                     (path_div (dataset_dir_of dataset_name) filename) md5 size
                     (set_fs f' w1)).
  { unfold fetch_single_file.
    rewrite (bind_ret_run _ _ _ _ _ Hl).
    rewrite (bind_ret_run _ _ _ _ _
               (find_file_find files filename w1
                  (list_datasets_named _ _ _ _ _ Hl))).
    rewrite Hfind. fold (dataset_dir_of dataset_name).
    assert (Hdir : mkdir_p (dataset_dir_of dataset_name) w1
                   = (Ret tt, set_fs f' w1)).
    { unfold mkdir_p. destruct Hq as (-> & _). by rewrite Hmk. }
    rewrite (bind_ret_run _ _ _ _ _ Hdir).
    rewrite Hk, Hm, Hs. reflexivity. }
  split; [exact Hrun|].
  rewrite Hrun, fetch_file_log. wsimpl.
  rewrite transfers_app, transfers_attempt, (quiet_transfers _ _ Hq).
  unfold attempt_event. wsimpl. by rewrite Hi.
Qed.

Lemma single_file_always_transfers_witness :
  (list_datasets "denoising" (Some "pancreas")
     (pancreas_world (bytes_of_string "abc"))
   = (Ret pancreas_files,
      snd (list_datasets "denoising" (Some "pancreas")
             (pancreas_world (bytes_of_string "abc"))))
   /\ find (named "train.h5ad") pancreas_files
      = Some (file_record "train.h5ad"
                "resources/denoising/datasets/pancreas/train.h5ad" 3
                "900150983cd24fb0d6963f7d28e17f72")
   /\ mkdir_from [] (dataset_dir_of "pancreas")
        (fs (pancreas_world (bytes_of_string "abc")))
      = Ret (fs (pancreas_world (bytes_of_string "abc"))))
  /\ transfers
       (log (snd (fetch_single_file "denoising" "pancreas" "train.h5ad"
                    (pancreas_world (bytes_of_string "abc")))))
     = [EvHttpGet abc_url].
Proof.
  assert (Hl : list_datasets "denoising" (Some "pancreas")
                 (pancreas_world (bytes_of_string "abc"))
               = (Ret pancreas_files,
                  snd (list_datasets "denoising" (Some "pancreas")
                         (pancreas_world (bytes_of_string "abc")))))
    by (vm_compute; reflexivity).
  assert (Hfind : find (named "train.h5ad") pancreas_files
                  = Some (file_record "train.h5ad"
                            "resources/denoising/datasets/pancreas/train.h5ad" 3
                            "900150983cd24fb0d6963f7d28e17f72"))
    by reflexivity.
  assert (Hmk : mkdir_from [] (dataset_dir_of "pancreas")
                  (fs (pancreas_world (bytes_of_string "abc")))
                = Ret (fs (pancreas_world (bytes_of_string "abc"))))
    by (apply mkdir_from_noop; vm_compute; reflexivity).
  split; [by repeat split|].
  destruct (single_file_always_transfers _ _ _ _ _ _ _ _ Hl Hfind Hmk)
    as (key & md5 & size & Hk & _ & _ & _ & Htr).
  rewrite Htr. injection Hk as <-. reflexivity.
Defined.

(** ** When the cache directory cannot be created *)

Lemma get_cache_path_raises (task : string) (dataset_name : option string)
    (w : World) (e : exn) :
  fst (get_cache_path task dataset_name w) = Raise e ->
  forall dataset_name', get_cache_path task dataset_name' w = (Raise e, w).
Proof.
  unfold get_cache_path, bind, cache_mkdir_p.
  destruct (cache_mkdir_from _ _ _ _ _) as [d|e'].
  - by destruct dataset_name as [[|a dn]|].
  - cbn [fst]. by intros [= ->].
Qed.

(** X21.  [get_cache_path] is called outside every [try]: when the cache
    directory of a task cannot be created, listing the task's datasets,
    fetching one of its datasets and fetching the whole task all raise
    that error at once, before any request and with the world untouched.
    Listing the files of a dataset does not use the cache and still asks
    the bucket. *)
Theorem cache_directory_failure (task : string) (dataset_name0 : option string)
    (w : World) (e : exn) :
  fst (get_cache_path task dataset_name0 w) = Raise e ->
  list_datasets task None w = (Raise e, w)
  /\ (forall dataset_name skip_confirmation max_workers,
        fetch_entire_dataset task dataset_name skip_confirmation max_workers w
        = (Raise e, w))
  /\ (forall max_workers, fetch_task task max_workers w = (Raise e, w))
  /\ (forall dataset_name,
        log (snd (list_datasets task (Some dataset_name) w))
        = log w ++ [EvList (task_prefix (get_s3_task_path task))]).
Proof.
  intros Hraise.
  pose proof (get_cache_path_raises _ _ _ _ Hraise) as Hall.
  assert (Hlist : list_datasets task None w = (Raise e, w)).
  { unfold list_datasets. by rewrite (bind_raise_run _ _ _ _ _ (Hall None)). }
  split; [exact Hlist|]. split; [|split].
  - intros dn skip mw.
    assert (Hfiles : cached_file_list task dn w = (Raise e, w)).
    { unfold cached_file_list.
      by rewrite (bind_raise_run _ _ _ _ _ (Hall (Some dn))). }
    unfold fetch_entire_dataset. by rewrite (bind_raise_run _ _ _ _ _ Hfiles).
  - intros mw. unfold fetch_task. by rewrite (bind_raise_run _ _ _ _ _ Hlist).
  - intros dn. by rewrite list_datasets_files.
Qed.

Lemma cache_directory_failure_witness :
  fst (get_cache_path "denoising" None (with_readonly pancreas_remote))
  = Raise OSError
  /\ fst (fetch_task "denoising" 8 (with_readonly pancreas_remote)) = Raise OSError
  /\ fst (list_datasets "denoising" (Some "pancreas")
            (with_readonly pancreas_remote)) = Ret pancreas_files.
Proof.
  assert (H : fst (get_cache_path "denoising" None (with_readonly pancreas_remote))
              = Raise OSError) by (vm_compute; reflexivity).
  split; [exact H|]. split.
  - by rewrite (proj1 (proj2 (proj2 (cache_directory_failure _ _ _ _ H))) 8).
  - vm_compute. reflexivity.
Defined.
